(** * CeylonSoftwareHub server: order / payment lifecycle

    A shallow embedding of the route handlers of the server
    (routes/orders.js, routes/admin.js, routes/contact.js, the payments
    router and the product routes) together with the properties the
    specification states about them.

    Conventions of the embedding.
    - JavaScript numbers are IEEE 754 binary64 values: the primitive
      [float], whose [+], [*], [/] and comparisons round and compare as the
      language's do, [NaN], the infinities and the two zeros included.
      [Math.round] is taken on the exact value of its argument.
    - Strings are [string], the UTF-8 bytes of the text; the status fields
      of an order are the string literals the handlers write.  The regular
      expression of the contact form sees the UTF-16 code units the bytes
      decode to.
    - What the language runtime and the database driver decide, and the
      handlers only use, is a parameter: how a string reads as a number and
      how a number prints ([StringToNumber], [Number_toString]), and which
      strings the driver casts to an ObjectId ([is_ObjectId]).
    - The document store is a pair of finite maps (orders and products by
      [_id]).  A handler is a computation in the monad [M]: it threads the
      store and a log of the calls made to external collaborators, and it
      either returns a value or throws.  [try ... catch] is [try_catch] /
      [attempt].  An exception that leaves a handler is the [inl] result of
      running it: the error is handed to the framework.
    - The authentication middleware ([authenticate], [requireAdmin],
      [optionalAuth]) is a precondition: a handler receives the user the
      middleware would have put on the request. *)

From Stdlib Require Import Floats.
From Stdlib Require Import ZArith QArith Qround Lqa String Ascii List Lia.
From Stdlib Require Import DecimalString.
From stdpp Require Import base gmap strings list sorting.

Local Open Scope string_scope.
Local Open Scope list_scope.
Local Open Scope Z_scope.

Set Warnings "-inexact-float".

(** ** Exceptions and responses *)

Record Exn := Throw { exn_name : string; message : string }.

Definition Error (msg : string) : Exn := Throw "Error" msg.
Definition TypeError (msg : string) : Exn := Throw "TypeError" msg.
Definition ReferenceError (msg : string) : Exn := Throw "ReferenceError" msg.
Definition ValidationError (msg : string) : Exn := Throw "ValidationError" msg.

(** A double quote, for the messages that quote a value. *)
Definition dquote : string := String (ascii_of_nat 34) EmptyString.

Definition quoted (s : string) : string := dquote +:+ s +:+ dquote.

(** The message of the database library when a value cannot be cast to
    the type of a path. *)
Definition cast_message (type value valueType path : string) : string :=
  "Cast to " +:+ type +:+ " failed for value " +:+ quoted value
  +:+ " (type " +:+ valueType +:+ ") at path " +:+ quoted path.

Definition CastError (msg : string) : Exn := Throw "CastError" msg.

(** ** Numbers *)

(** The exact value of a double; [None] for [NaN] and the infinities. *)
Definition float_value (x : float) : option Q :=
  match Prim2SF x with
  | S754_zero _ => Some 0%Q
  | S754_finite s m e =>
      let n := if s then Z.neg m else Z.pos m in
      Some (if 0 <=? e then inject_Z (n * 2 ^ e) else n # (2 ^ Z.to_pos (- e)))
  | S754_infinity _ => None
  | S754_nan => None
  end.

(** The result of [Math.round]: an integer, or the argument itself when it
    is [NaN] or an infinity.  (The integer is exact: a double of magnitude
    above [2^52] is an integer already.  The sign of a zero result is not
    kept.) *)
Inductive Rounded :=
| Integer (n : Z)
| NonFinite (x : float).

(** [Math.round]: to the nearest integer, halves upwards. *)
Definition Math_round (x : float) : Rounded :=
  match float_value x with
  | Some q => Integer (Qfloor (q + (1 # 2)))
  | None => NonFinite x
  end.

(** [x || 0] on a number: [0], [-0] and [NaN] are falsy. *)
Definition or_zero (x : float) : float :=
  if (x =? 0)%float || is_nan x then 0%float else x.

(** A value of a JSON body.  An array or an object is kept as the string
    its conversion to a primitive yields (the elements joined by commas,
    or [[object Object]]). *)
Inductive Value :=
| VNull
| VBool (b : bool)
| VNum (x : float)
| VStr (s : string)
| VObject (toString : string).

(** The result of [+]: a number, or a string when an operand is one. *)
Inductive Primitive :=
| PNum (x : float)
| PStr (s : string).

(** ** Documents *)

Module OrderItem.
Record t := Build {
  product : string;
  name : string;
  price : float;
  quantity : float
}.
End OrderItem.

Module PaymentSlip.
Record t := Build { url : string; uploadedAt : Z }.
End PaymentSlip.

Module Order.
(** Modelled from the spec: the order document of models/Order.js, which is
    not part of the repository's files at hand.  The fields are those of
    the specification's data model (owner or guest contact, line items
    with captured name, price and quantity, total amount, shipping
    address, payment method, payment status, order status, optional
    payment-slip reference, optional payment-intent identifier, order
    number) and the ones the handlers write ([notes], [processedAt],
    [completedAt]). *)
Record t := Build {
  _id : string;
  user : option string;
  guestInfo : option string;
  items : list OrderItem.t;
  totalAmount : float;
  shippingAddress : string;
  paymentMethod : string;
  paymentStatus : string;
  orderStatus : string;
  paymentSlip : option PaymentSlip.t;
  stripePaymentIntent : option string;
  orderNumber : string;
  notes : option string;
  processedAt : option Z;
  completedAt : option Z
}.

Definition set_paymentStatus (v : string) (o : t) : t :=
  Build (_id o) (user o) (guestInfo o) (items o) (totalAmount o)
    (shippingAddress o) (paymentMethod o) v (orderStatus o)
    (paymentSlip o) (stripePaymentIntent o) (orderNumber o) (notes o)
    (processedAt o) (completedAt o).

Definition set_orderStatus (v : string) (o : t) : t :=
  Build (_id o) (user o) (guestInfo o) (items o) (totalAmount o)
    (shippingAddress o) (paymentMethod o) (paymentStatus o) v
    (paymentSlip o) (stripePaymentIntent o) (orderNumber o) (notes o)
    (processedAt o) (completedAt o).

Definition set_paymentSlip (v : option PaymentSlip.t) (o : t) : t :=
  Build (_id o) (user o) (guestInfo o) (items o) (totalAmount o)
    (shippingAddress o) (paymentMethod o) (paymentStatus o) (orderStatus o)
    v (stripePaymentIntent o) (orderNumber o) (notes o)
    (processedAt o) (completedAt o).

Definition set_stripePaymentIntent (v : option string) (o : t) : t :=
  Build (_id o) (user o) (guestInfo o) (items o) (totalAmount o)
    (shippingAddress o) (paymentMethod o) (paymentStatus o) (orderStatus o)
    (paymentSlip o) v (orderNumber o) (notes o)
    (processedAt o) (completedAt o).

Definition set_notes (v : option string) (o : t) : t :=
  Build (_id o) (user o) (guestInfo o) (items o) (totalAmount o)
    (shippingAddress o) (paymentMethod o) (paymentStatus o) (orderStatus o)
    (paymentSlip o) (stripePaymentIntent o) (orderNumber o) v
    (processedAt o) (completedAt o).

Definition set_processedAt (v : option Z) (o : t) : t :=
  Build (_id o) (user o) (guestInfo o) (items o) (totalAmount o)
    (shippingAddress o) (paymentMethod o) (paymentStatus o) (orderStatus o)
    (paymentSlip o) (stripePaymentIntent o) (orderNumber o) (notes o)
    v (completedAt o).

Definition set_completedAt (v : option Z) (o : t) : t :=
  Build (_id o) (user o) (guestInfo o) (items o) (totalAmount o)
    (shippingAddress o) (paymentMethod o) (paymentStatus o) (orderStatus o)
    (paymentSlip o) (stripePaymentIntent o) (orderNumber o) (notes o)
    (processedAt o) v.
End Order.

(** The product document, from the product schema: only the fields the
    handlers read or write. *)
Module Product.
Record t := Build {
  _id : string;
  name : string;
  price : float;
  isActive : bool;
  rating_average : float;
  rating_count : float
}.

Definition set_rating (avg cnt : float) (p : t) : t :=
  Build (_id p) (name p) (price p) (isActive p) avg cnt.
End Product.

(** ** The payment gateway (the stripe package) *)

Module Stripe.
Record Metadata := { orderId : option string; orderNumber : option string }.

Record PaymentIntent := {
  id : string;
  client_secret : string;
  status : string;
  metadata : Metadata
}.

Record IntentParams := {
  amount : Rounded;
  currency : string;
  params_metadata : Metadata
}.

Record Event := { type : string; data_object : PaymentIntent }.

(** A client, as built by [new Stripe(key)].  Its three operations either
    return or throw. *)
Record Client := {
  paymentIntents_create : IntentParams -> Exn + PaymentIntent;
  paymentIntents_retrieve : option string -> Exn + PaymentIntent;
  webhooks_constructEvent :
    string -> option string -> option string -> Exn + Event
}.
End Stripe.

(** ** Uploaded files and object storage *)

Module File.
Record t := Build {
  fieldname : string;
  mimetype : string;
  size : Z
}.
End File.

Record UploadOptions := {
  resource_type : string;
  folder : string;
  public_id : string
}.

Record UploadResult := { secure_url : string }.

(** ** E-mail *)

Record Mail := {
  mail_from : string;
  mail_to : string;
  mail_subject : string;
  mail_html : string;
  mail_replyTo : option string
}.

Record Transporter := { sendMail : Mail -> option Exn }.

(** ** The world a handler runs in *)

Inductive Effect :=
| GatewayCreate (p : Stripe.IntentParams)
| GatewayRetrieve (paymentIntentId : option string)
| GatewayConstructEvent (body : string) (sig : option string)
| StorageUpload (opts : UploadOptions) (f : File.t)
| MailSend (m : Mail)
| ConsoleError (msg : string) (e : Exn).

Record World := MkWorld {
  orders : gmap string Order.t;
  products : gmap string Product.t;
  effects : list Effect
}.

Definition M (A : Type) : Type := World -> World * (Exn + A).

Definition ret {A} (a : A) : M A := fun w => (w, inr a).
Definition throw {A} (e : Exn) : M A := fun w => (w, inl e).

Definition bind {A B} (m : M A) (k : A -> M B) : M B :=
  fun w =>
    match m w with
    | (w', inr a) => k a w'
    | (w', inl e) => (w', inl e)
    end.

Notation "'let!' x ':=' m 'in' k" := (bind m (fun x => k))
  (at level 10, x name, m at level 100, k at level 200).
Notation "'run!' m 'in' k" := (bind m (fun _ => k))
  (at level 10, m at level 100, k at level 200).

(** [try { body } catch (e) { handler e }] *)
Definition try_catch {A} (body : M A) (handler : Exn -> M A) : M A :=
  fun w =>
    match body w with
    | (w', inr a) => (w', inr a)
    | (w', inl e) => handler e w'
    end.

(** A [try] whose [catch] returns from the enclosing function: the caller
    inspects the outcome. *)
Definition attempt {A} (body : M A) : M (Exn + A) :=
  fun w =>
    match body w with
    | (w', r) => (w', inr r)
    end.

Definition lift {A} (r : Exn + A) : M A := fun w => (w, r).

Definition emit (e : Effect) : M unit :=
  fun w => (MkWorld (orders w) (products w) (effects w ++ [e]), inr tt).

(** A call to an external collaborator: the call is recorded, then its
    outcome is returned or thrown. *)
Definition call {A} (e : Effect) (r : Exn + A) : M A :=
  run! emit e in lift r.

(** ** Responses *)

Inductive Body :=
| JMessage (msg : string)
| JPaymentIntent (clientSecret paymentIntentId : string)
| JConfirm (success : bool) (paymentIntent : Stripe.PaymentIntent)
| JReceived (received : bool)
| JOrder (msg : string) (order : Order.t)
| JProduct (product : Product.t)
| JContact (msg : string) (success : bool)
| Text (s : string).

Record Response := { res_status : Z; res_body : Body }.

(** [res.json(b)] answers 200; [res.status(c).json(b)] answers [c]. *)
Definition res_json (b : Body) : Response := {| res_status := 200; res_body := b |}.
Definition res_status_json (c : Z) (b : Body) : Response :=
  {| res_status := c; res_body := b |}.
Definition res_status_send (c : Z) (s : string) : Response :=
  {| res_status := c; res_body := Text s |}.

(** ** The models' operations *)

(** [Order.findById(id)]: an absent or [undefined] id finds nothing. *)
Definition Order_findById (id : option string) : M (option Order.t) :=
  fun w => (w, inr (id ≫= fun i => orders w !! i)).

(** [Product.findById(id)].  The product schema declares no [_id], so the
    identifier is an ObjectId and the query first casts [id] to one:
    [is_ObjectId] tells the strings the driver accepts (24 hexadecimal
    digits; older drivers also take any string of 12 bytes).  A string
    that is not one makes the query throw. *)
Definition Product_findById (is_ObjectId : string -> bool) (id : string)
  : M (option Product.t) :=
  fun w =>
    if is_ObjectId id
    then (w, inr (products w !! id))
    else (w, inl (CastError (cast_message "ObjectId" id "string" "_id"
                             +:+ " for model " +:+ quoted "Product"))).

Definition Order_countDocuments : M Z :=
  fun w => (w, inr (Z.of_nat (size (orders w)))).

Section Models.
(** The validators of the order schema (models/Order.js): [None] accepts
    the document. *)
Variable order_validate : Order.t -> option Exn.

(** [order.save()]: validation, then a single-document write. *)
Definition Order_save (o : Order.t) : M unit :=
  fun w =>
    match order_validate o with
    | Some e => (w, inl e)
    | None =>
        (MkWorld (<[Order._id o := o]> (orders w)) (products w) (effects w),
         inr tt)
    end.
End Models.

Section ProductModel.
(** [String(x)] of the language, which the messages of the validators
    quote the refused value with. *)
Variable Number_toString : float -> string.

(** What the product schema checks on the path the rating route assigns,
    [rating.average] (a Number with [min: 0] and [max: 5]): [NaN] is not
    cast to a Number, and a number passes [min] when it is [>= 0] and
    [max] when it is [<= 5].  The
    other path the route assigns, [rating.count], is a Number without
    bounds and is never [NaN] there.  (The paths the route does not
    assign are as the schema left them.) *)
Definition product_validate (p : Product.t) : option Exn :=
  let average := Product.rating_average p in
  if is_nan average
  then Some (ValidationError
               ("Product validation failed: rating.average: "
                +:+ cast_message "Number" "NaN" "number" "rating.average"))
  else if negb (0 <=? average)%float
  then Some (ValidationError
               ("Product validation failed: rating.average: Path `rating.average` ("
                +:+ Number_toString average
                +:+ ") is less than minimum allowed value (0)."))
  else if negb (average <=? 5)%float
  then Some (ValidationError
               ("Product validation failed: rating.average: Path `rating.average` ("
                +:+ Number_toString average
                +:+ ") is more than maximum allowed value (5)."))
  else None.

(** [product.save()]: validation, then a single-document write. *)
Definition Product_save (p : Product.t) : M unit :=
  fun w =>
    match product_validate p with
    | Some e => (w, inl e)
    | None =>
        (MkWorld (orders w) (<[Product._id p := p]> (products w)) (effects w),
         inr tt)
    end.
End ProductModel.

(** ** The process environment *)

Record Env := {
  STRIPE_SECRET_KEY : option string;
  STRIPE_WEBHOOK_SECRET : option string;
  SMTP_HOST : option string;
  SMTP_PORT : option string;
  SMTP_USER : option string;
  SMTP_PASS : option string;
  ADMIN_EMAIL : option string
}.

(** ** Identifiers in scope

    What an identifier of a handler body denotes is looked up in the
    bindings visible from it, by its exact (case-sensitive) name.  Only
    bindings that can denote a gateway client are told apart. *)

Inductive Binding :=
| BStripeClass (ctor : option string -> Exn + Stripe.Client)
| BStripeClient (c : Stripe.Client)
| BOther.

Definition Scope := list (string * Binding).

Fixpoint lookup_binding (x : string) (sc : Scope) : option Binding :=
  match sc with
  | [] => None
  | (y, b) :: sc' => if String.eqb x y then Some b else lookup_binding x sc'
  end.

(** Evaluating [x.member...] where [x] is expected to be a gateway client:
    an identifier with no binding is a [ReferenceError]; a binding that is
    not a client has no [paymentIntents] or [webhooks] member. *)
Definition resolve_client (sc : Scope) (x : string) : M Stripe.Client :=
  match lookup_binding x sc with
  | None => throw (ReferenceError (x +:+ " is not defined"))
  | Some (BStripeClient c) => ret c
  | Some _ =>
      throw (TypeError "Cannot read properties of undefined")
  end.

(** ** The payments router *)

Section Payments.
Variable env : Env.
(** [new Stripe(key)] of the stripe package. *)
Variable new_Stripe : option string -> Exn + Stripe.Client.
Variable order_validate : Order.t -> option Exn.

(** The bindings of the module: its four imports and [router].  The
    module declares no [stripe]; the only declaration of that name is the
    block-scoped [const stripe] inside the body of create-payment-intent. *)
Definition payments_module_scope : Scope :=
  [ ("express", BOther);
    ("Stripe", BStripeClass new_Stripe);
    ("Order", BOther);
    ("authenticate", BOther);
    ("router", BOther) ].

(** [order.user.toString()] *)
Definition user_toString (u : option string) : M string :=
  match u with
  | Some s => ret s
  | None => throw (TypeError "Cannot read properties of null (reading 'toString')")
  end.

(** The intent requested for an order: its total in cents, in US dollars,
    tagged with the order's identifier and number. *)
Definition intent_params (order : Order.t) : Stripe.IntentParams :=
  {| Stripe.amount := Math_round (Order.totalAmount order * 100)%float;
     Stripe.currency := "usd";
     Stripe.params_metadata :=
       {| Stripe.orderId := Some (Order._id order);
          Stripe.orderNumber := Some (Order.orderNumber order) |} |}.

(** POST /create-payment-intent, behind [authenticate]: [req_user] is
    [req.user._id.toString()]. *)
Definition create_payment_intent (req_user : string) (orderId : option string)
  : M Response :=
  try_catch
    (let! stripe := lift (new_Stripe (STRIPE_SECRET_KEY env)) in
     let! order := Order_findById orderId in
     match order with
     | None => ret (res_status_json 404 (JMessage "Order not found"))
     | Some order =>
         let! owner := user_toString (Order.user order) in
         if negb (String.eqb owner req_user)
         then ret (res_status_json 403 (JMessage "Access denied"))
         else
           let! paymentIntent :=
             call (GatewayCreate (intent_params order))
                  (Stripe.paymentIntents_create stripe (intent_params order)) in
           let order :=
             Order.set_stripePaymentIntent (Some (Stripe.id paymentIntent)) order in
           run! Order_save order_validate order in
           ret (res_json (JPaymentIntent (Stripe.client_secret paymentIntent)
                                         (Stripe.id paymentIntent)))
     end)
    (fun error => ret (res_status_json 500 (JMessage (message error)))).

(** The update both the confirmation and the webhook apply. *)
Definition mark_paid (order : Order.t) : Order.t :=
  Order.set_orderStatus "processing" (Order.set_paymentStatus "paid" order).

Definition mark_paid_if_found (orderId : option string) : M unit :=
  let! order := Order_findById orderId in
  match order with
  | Some order => Order_save order_validate (mark_paid order)
  | None => ret tt
  end.

(** POST /confirm-payment, behind [authenticate].  [sc] is the scope the
    body is evaluated in. *)
Definition confirm_payment (sc : Scope) (paymentIntentId : option string)
  : M Response :=
  try_catch
    (let! stripe := resolve_client sc "stripe" in
     let! paymentIntent :=
       call (GatewayRetrieve paymentIntentId)
            (Stripe.paymentIntents_retrieve stripe paymentIntentId) in
     run! (if String.eqb (Stripe.status paymentIntent) "succeeded"
           then mark_paid_if_found (Stripe.orderId (Stripe.metadata paymentIntent))
           else ret tt) in
     ret (res_json (JConfirm true paymentIntent)))
    (fun error => ret (res_status_json 500 (JMessage (message error)))).

(** POST /webhook: [body] is the raw request body, [sig] the
    [stripe-signature] header. *)
Definition webhook (sc : Scope) (body : string) (sig : option string)
  : M Response :=
  let! verified :=
    attempt
      (let! stripe := resolve_client sc "stripe" in
       call (GatewayConstructEvent body sig)
            (Stripe.webhooks_constructEvent stripe body sig
               (STRIPE_WEBHOOK_SECRET env))) in
  match verified with
  | inl err => ret (res_status_send 400 ("Webhook Error: " +:+ message err))
  | inr event =>
      run! (if String.eqb (Stripe.type event) "payment_intent.succeeded"
            then
              let paymentIntent := Stripe.data_object event in
              mark_paid_if_found (Stripe.orderId (Stripe.metadata paymentIntent))
            else ret tt) in
      ret (res_json (JReceived true))
  end.

(** The routes as the module registers them. *)
Definition post_confirm_payment := confirm_payment payments_module_scope.
Definition post_webhook := webhook payments_module_scope.
End Payments.

(** ** Text helpers *)

(** [String(n)] for an integer [n]. *)
Definition String_of_Z (n : Z) : string := NilZero.string_of_int (Z.to_int n).

Fixpoint repeat_char (c : ascii) (n : nat) : string :=
  match n with
  | O => EmptyString
  | S n' => String c (repeat_char c n')
  end.

(** [s.padStart(n, c)] *)
Definition padStart (n : nat) (c : ascii) (s : string) : string :=
  repeat_char c (n - String.length s) +:+ s.

(** [s.startsWith(p)] *)
Definition startsWith (p s : string) : bool := String.prefix p s.

(** JavaScript truthiness of an optional string field: absent and empty
    are falsy. *)
Definition truthy (s : option string) : bool :=
  match s with
  | Some s => negb (String.eqb s "")
  | None => false
  end.

(** ** The orders router *)

Module ReqItem.
Record t := Build { productId : string; quantity : float }.
End ReqItem.

(** The multer configuration of the router. *)
Definition limits_fileSize : Z := 5 * 1024 * 1024.

Definition fileFilter (file : File.t) : Exn + bool :=
  if startsWith "image/" (File.mimetype file)
  then inr true
  else inl (Error "Only image files are allowed").

(** [upload.single(field)] of multer with this configuration, on a request
    carrying at most one file part: a part under another field name is
    refused, the filter is asked before any content is read, and a part
    longer than the limit is refused.  A refusal is passed to [next]. *)
Definition upload_single (field : string) (part : option File.t)
  : Exn + option File.t :=
  match part with
  | None => inr None
  | Some file =>
      if negb (String.eqb (File.fieldname file) field)
      then inl (Throw "MulterError" "Unexpected field")
      else
        match fileFilter file with
        | inl e => inl e
        | inr false => inr None
        | inr true =>
            if limits_fileSize <? File.size file
            then inl (Throw "MulterError" "File too large")
            else inr (Some file)
        end
  end.

Section Orders.
Variable order_validate : Order.t -> option Exn.
(** The strings the driver casts to an ObjectId. *)
Variable is_ObjectId : string -> bool.
(** [cloudinary.uploader.upload_stream(options, callback).end(buffer)] *)
Variable cloudinary_upload : UploadOptions -> File.t -> Exn + UploadResult.

(** The loop of POST /: each item's product is looked up; a missing or
    inactive product answers 400 at once; otherwise the captured line is
    pushed and the total grows by price times quantity.  The items are
    those of the body with a string [productId] and a numeric
    [quantity]. *)
Fixpoint collect_items (items : list ReqItem.t) (totalAmount : float)
  (orderItems : list OrderItem.t) : M (Response + float * list OrderItem.t) :=
  match items with
  | [] => ret (inr (totalAmount, orderItems))
  | item :: rest =>
      let! product := Product_findById is_ObjectId (ReqItem.productId item) in
      match product with
      | Some product =>
          if Product.isActive product
          then
            collect_items rest
              (totalAmount + Product.price product * ReqItem.quantity item)%float
              (orderItems ++
               [OrderItem.Build (Product._id product) (Product.name product)
                  (Product.price product) (ReqItem.quantity item)])
          else
            ret (inl (res_status_json 400
                        (JMessage ("Product " +:+ ReqItem.productId item
                                   +:+ " not found or inactive"))))
      | None =>
          ret (inl (res_status_json 400
                      (JMessage ("Product " +:+ ReqItem.productId item
                                 +:+ " not found or inactive"))))
      end
  end.

(** Modelled from the spec: the defaults of [new Order(orderData)], which
    models/Order.js would give.  A new order starts with payment status
    and order status [pending] and without slip, intent identifier or
    notes.  [new_id] is the identifier the document receives. *)
Definition new_Order (new_id : string) (user guestInfo : option string)
  (items : list OrderItem.t) (totalAmount : float)
  (paymentMethod shippingAddress orderNumber : string) : Order.t :=
  Order.Build new_id user guestInfo items totalAmount shippingAddress
    paymentMethod "pending" "pending" None None orderNumber None None None.

(** POST /, behind [optionalAuth]: [req_user] is [req.user?._id].  The
    final [order.populate] only decorates the answer and is left out. *)
Definition create_order (new_id : string) (req_user : option string)
  (items : list ReqItem.t) (guestInfo : option string)
  (paymentMethod shippingAddress : string) : M Response :=
  try_catch
    (let! collected := collect_items items 0%float [] in
     match collected with
     | inl response => ret response
     | inr (totalAmount, orderItems) =>
         let! count := Order_countDocuments in
         let orderNumber :=
           "CSH-" +:+ padStart 6 "0"%char (String_of_Z (count + 1)) in
         let order :=
           new_Order new_id req_user
             (match req_user with Some _ => None | None => guestInfo end)
             orderItems totalAmount paymentMethod shippingAddress orderNumber in
         run! Order_save order_validate order in
         ret (res_status_json 201 (JOrder "Order created successfully" order))
     end)
    (fun error => ret (res_status_json 400 (JMessage (message error)))).

(** The handler of POST /:id/payment-slip, once multer has run: [file] is
    [req.file], [now] is [Date.now()] and [uploadedAt] the later
    [new Date()]. *)
Definition payment_slip (now uploadedAt : Z) (id : string)
  (file : option File.t) : M Response :=
  try_catch
    (let! order := Order_findById (Some id) in
     match order with
     | None => ret (res_status_json 404 (JMessage "Order not found"))
     | Some order =>
         if negb (String.eqb (Order.paymentMethod order) "bank_transfer")
         then ret (res_status_json 400
                     (JMessage "Payment slip upload only allowed for bank transfer orders"))
         else
           match file with
           | None => ret (res_status_json 400 (JMessage "No file uploaded"))
           | Some file =>
               let options :=
                 {| resource_type := "image";
                    folder := "payment-slips";
                    public_id := "slip_" +:+ Order.orderNumber order
                                 +:+ "_" +:+ String_of_Z now |} in
               let! result :=
                 call (StorageUpload options file)
                      (cloudinary_upload options file) in
               let order :=
                 Order.set_paymentStatus "pending"
                   (Order.set_paymentSlip
                      (Some (PaymentSlip.Build (secure_url result) uploadedAt))
                      order) in
               run! Order_save order_validate order in
               ret (res_json (JOrder "Payment slip uploaded successfully" order))
           end
     end)
    (fun error => ret (res_status_json 500 (JMessage (message error)))).

(** POST /:id/payment-slip: multer first, then the handler.  [part] is
    the file part of the multipart request, if any. *)
Definition post_payment_slip (now uploadedAt : Z) (id : string)
  (part : option File.t) : M Response :=
  let! file := lift (upload_single "paymentSlip" part) in
  payment_slip now uploadedAt id file.
End Orders.

(** ** The admin router (behind [authenticate] and [requireAdmin]) *)

Section Admin.
Variable order_validate : Order.t -> option Exn.

(** The update document PUT /orders/:id/status builds, applied to an
    order. *)
Definition apply_updateData (now : Z) (orderStatus paymentStatus : option string)
  (o : Order.t) : Order.t :=
  let o :=
    match orderStatus with
    | Some s => if truthy orderStatus then Order.set_orderStatus s o else o
    | None => o
    end in
  let o :=
    match paymentStatus with
    | Some s => if truthy paymentStatus then Order.set_paymentStatus s o else o
    | None => o
    end in
  if bool_decide (orderStatus = Some "processing")
  then Order.set_processedAt (Some now) o
  else if bool_decide (orderStatus = Some "completed")
       then Order.set_completedAt (Some now) o
       else o.

(** [Order.findByIdAndUpdate(id, update, { new: true })]: no validators
    run; the updated document is returned, or nothing when the id is
    unknown. *)
Definition Order_findByIdAndUpdate (id : string) (update : Order.t -> Order.t)
  : M (option Order.t) :=
  fun w =>
    match orders w !! id with
    | None => (w, inr None)
    | Some o =>
        (MkWorld (<[id := update o]> (orders w)) (products w) (effects w),
         inr (Some (update o)))
    end.

(** PUT /orders/:id/status *)
Definition update_order_status (now : Z) (id : string)
  (orderStatus paymentStatus : option string) : M Response :=
  try_catch
    (let! order :=
       Order_findByIdAndUpdate id (apply_updateData now orderStatus paymentStatus) in
     match order with
     | None => ret (res_status_json 404 (JMessage "Order not found"))
     | Some order => ret (res_json (JOrder "Order updated successfully" order))
     end)
    (fun error => ret (res_status_json 500 (JMessage (message error)))).

(** PUT /payment-slips/:id/verify: [approved] is the truthiness of the
    body's [approved]. *)
Definition verify_payment_slip (id : string) (approved : bool)
  (notes : option string) : M Response :=
  try_catch
    (let! order := Order_findById (Some id) in
     match order with
     | None => ret (res_status_json 404 (JMessage "Order not found"))
     | Some order =>
         let order :=
           Order.set_paymentStatus (if approved then "paid" else "failed") order in
         let order :=
           if truthy notes then Order.set_notes notes order else order in
         run! Order_save order_validate order in
         ret (res_json
                (JOrder ("Payment " +:+ (if approved then "approved" else "rejected")
                         +:+ " successfully") order))
     end)
    (fun error => ret (res_status_json 500 (JMessage (message error)))).
End Admin.

(** ** The product rating route *)

Section Rating.
Variable is_ObjectId : string -> bool.
(** The language's reading of a string as a number and its printing of a
    number. *)
Variable StringToNumber : string -> float.
Variable Number_toString : float -> string.

(** [!v] *)
Definition falsy (v : Value) : bool :=
  match v with
  | VNull => true
  | VBool b => negb b
  | VNum x => (x =? 0)%float || is_nan x
  | VStr s => String.eqb s ""
  | VObject _ => false
  end.

(** The number a value is compared as. *)
Definition ToNumber (v : Value) : float :=
  match v with
  | VNull => 0%float
  | VBool b => if b then 1%float else 0%float
  | VNum x => x
  | VStr s => StringToNumber s
  | VObject s => StringToNumber s
  end.

(** [x + v] for a number [x]: an addition, or a concatenation when [v] is
    a string or converts to one. *)
Definition plus (x : float) (v : Value) : Primitive :=
  match v with
  | VStr s => PStr (Number_toString x +:+ s)
  | VObject s => PStr (Number_toString x +:+ s)
  | _ => PNum (x + ToNumber v)%float
  end.

(** [p / y] for a number [y] *)
Definition divided_by (p : Primitive) (y : float) : float :=
  match p with
  | PNum x => (x / y)%float
  | PStr s => (StringToNumber s / y)%float
  end.

(** [!rating || rating < 1 || rating > 5] *)
Definition rating_rejected (rating : Value) : bool :=
  falsy rating || (ToNumber rating <? 1)%float || (5 <? ToNumber rating)%float.

(** POST /:id/rate.  [rating] is the body's [rating], [None] when the body
    has none.  The final [product.populate] only decorates the answer and
    is left out. *)
Definition rate (id : string) (rating : option Value) : M Response :=
  try_catch
    (match rating with
     | None =>
         ret (res_status_json 400 (JMessage "Rating must be between 1 and 5"))
     | Some rating =>
         if rating_rejected rating
         then ret (res_status_json 400 (JMessage "Rating must be between 1 and 5"))
         else
           let! product := Product_findById is_ObjectId id in
           match product with
           | None => ret (res_status_json 404 (JMessage "Product not found"))
           | Some product =>
               if negb (Product.isActive product)
               then ret (res_status_json 404 (JMessage "Product not found"))
               else
                 let prevAvg := or_zero (Product.rating_average product) in
                 let prevCount := or_zero (Product.rating_count product) in
                 let newCount := (prevCount + 1)%float in
                 let newAvg :=
                   divided_by (plus (prevAvg * prevCount)%float rating) newCount in
                 let product := Product.set_rating newAvg newCount product in
                 run! Product_save Number_toString product in
                 ret (res_json (JProduct product))
           end
     end)
    (fun error => ret (res_status_json 500 (JMessage (message error)))).
End Rating.

(** ** The contact router *)

(** *** Text as the pattern sees it

    The body arrives as UTF-8 and is decoded to a string of UTF-16 code
    units.  The decoder keeps, while inside a sequence, the code point
    gathered so far, the number of bytes still expected and the bounds of
    the next byte; a byte that does not fit ends the sequence with U+FFFD
    and is read again as the start of a new one. *)

Record Utf8State := {
  code_point : Z;
  bytes_needed : nat;
  lower_boundary : Z;
  upper_boundary : Z
}.

Definition replacement : Z := 65533.

(** A byte read outside a sequence: the code points it yields at once and
    the sequence it opens, if any. *)
Definition utf8_start (b : Z) : list Z * option Utf8State :=
  if b <=? 127 then ([b], None)
  else if (194 <=? b) && (b <=? 223)
  then ([], Some {| code_point := Z.land b 31; bytes_needed := 1;
                    lower_boundary := 128; upper_boundary := 191 |})
  else if (224 <=? b) && (b <=? 239)
  then ([], Some {| code_point := Z.land b 15; bytes_needed := 2;
                    lower_boundary := if b =? 224 then 160 else 128;
                    upper_boundary := if b =? 237 then 159 else 191 |})
  else if (240 <=? b) && (b <=? 244)
  then ([], Some {| code_point := Z.land b 7; bytes_needed := 3;
                    lower_boundary := if b =? 240 then 144 else 128;
                    upper_boundary := if b =? 244 then 143 else 191 |})
  else ([replacement], None).

Fixpoint utf8_decode (st : option Utf8State) (s : string) : list Z :=
  match s with
  | EmptyString =>
      match st with
      | Some _ => [replacement]
      | None => []
      end
  | String c s' =>
      let b := Z.of_nat (nat_of_ascii c) in
      match st with
      | None =>
          let (out, st') := utf8_start b in
          out ++ utf8_decode st' s'
      | Some q =>
          if (lower_boundary q <=? b) && (b <=? upper_boundary q)
          then
            let cp := Z.lor (Z.shiftl (code_point q) 6) (Z.land b 63) in
            match bytes_needed q with
            | S (S n) =>
                utf8_decode
                  (Some {| code_point := cp; bytes_needed := S n;
                           lower_boundary := 128; upper_boundary := 191 |}) s'
            | _ => cp :: utf8_decode None s'
            end
          else
            let (out, st') := utf8_start b in
            replacement :: out ++ utf8_decode st' s'
      end
  end.

(** The code units of a code point: itself, or a surrogate pair. *)
Definition utf16_units (cp : Z) : list Z :=
  if cp <? 65536 then [cp]
  else [55296 + Z.shiftr (cp - 65536) 10; 56320 + Z.land (cp - 65536) 1023].

(** The string a UTF-8 text is in the language. *)
Definition code_units (s : string) : list Z :=
  concat (map utf16_units (utf8_decode None s)).

(** [\s]: the white space and the line terminators of the language. *)
Definition is_space (u : Z) : bool :=
  ((9 <=? u) && (u <=? 13)) || (u =? 32) || (u =? 160) || (u =? 5760)
  || ((8192 <=? u) && (u <=? 8202)) || (u =? 8232) || (u =? 8233)
  || (u =? 8239) || (u =? 8287) || (u =? 12288) || (u =? 65279).

Definition at_sign : Z := 64.
Definition full_stop : Z := 46.

(** The class [[^\s@]]. *)
Definition plain_char (u : Z) : bool :=
  negb (is_space u) && negb (u =? at_sign).

Definition all_plain (s : list Z) : bool := forallb plain_char s.

(** [s] has a dot that is followed by at least one code unit. *)
Fixpoint dot_before_end (s : list Z) : bool :=
  match s with
  | [] => false
  | u :: s' =>
      ((u =? full_stop) && negb (bool_decide (s' = []))) || dot_before_end s'
  end.

(** The part of [s] before its first [@] and the part after it. *)
Fixpoint split_at (s : list Z) : option (list Z * list Z) :=
  match s with
  | [] => None
  | u :: s' =>
      if u =? at_sign then Some ([], s')
      else match split_at s' with
           | Some (l, r) => Some (u :: l, r)
           | None => None
           end
  end.

(** The pattern [^[^\s@]+@[^\s@]+\.[^\s@]+$] on a string of code units:
    one [@], no white space, a non-empty local part and, after the [@], a
    dot with at least one code unit on each side. *)
Definition matches_email (s : list Z) : bool :=
  match split_at s with
  | None => false
  | Some (l, d) =>
      negb (bool_decide (l = [])) && all_plain l && all_plain d &&
      match d with
      | [] => false
      | _ :: d' => dot_before_end d'
      end
  end.

(** [/^[^\s@]+@[^\s@]+\.[^\s@]+$/.test(s)] *)
Definition emailRegex_test (s : string) : bool := matches_email (code_units s).

(** [s.replace(/\n/g, '<br>')] *)
Fixpoint replace_newlines (s : string) : string :=
  match s with
  | EmptyString => EmptyString
  | String c s' =>
      if Ascii.eqb c (ascii_of_nat 10)
      then "<br>" +:+ replace_newlines s'
      else String c (replace_newlines s')
  end.

Record TransportConfig := {
  host : string;
  port : string;
  secure : bool;
  auth_user : option string;
  auth_pass : option string
}.

(** A module object: its function-valued members that make a
    transporter, by name. *)
Definition MailModule := list (string * (TransportConfig -> Transporter)).

(** The nodemailer package: the member that makes a transporter is
    [createTransport]; its other members ([createTestAccount],
    [getTestMessageUrl]) make none. *)
Definition nodemailer_package (createTransport : TransportConfig -> Transporter)
  : MailModule :=
  [ ("createTransport", createTransport) ].

Fixpoint lookup_member (m : string) (obj : MailModule)
  : option (TransportConfig -> Transporter) :=
  match obj with
  | [] => None
  | (n, f) :: obj' => if String.eqb m n then Some f else lookup_member m obj'
  end.

(** [obj.m(config)]: calling a member the object does not have is a
    [TypeError]. *)
Definition call_member (objname : string) (obj : MailModule) (m : string)
  (config : TransportConfig) : M Transporter :=
  match lookup_member m obj with
  | Some f => ret (f config)
  | None => throw (TypeError (objname +:+ "." +:+ m +:+ " is not a function"))
  end.

Definition or_default (s : option string) (d : string) : string :=
  if truthy s then default d s else d.

Section Contact.
Variable env : Env.
Variable nodemailer : MailModule.

(** A line of a template literal: the line break that ends the previous
    line, the six spaces the source indents it with, and its text. *)
Definition template_line (text : string) : string :=
  String (ascii_of_nat 10) "      " +:+ text.

(** The end of the template literals: a line break and four spaces. *)
Definition template_end : string := String (ascii_of_nat 10) "    ".

Definition adminEmailContent (req_user : option string) (submittedAt : string)
  (name email subject message : string) (phone company : option string)
  : string :=
  template_line "<h2>New Contact Form Submission</h2>"
  +:+ template_line ("<p><strong>Name:</strong> " +:+ name +:+ "</p>")
  +:+ template_line ("<p><strong>Email:</strong> " +:+ email +:+ "</p>")
  +:+ template_line ("<p><strong>Phone:</strong> "
                     +:+ or_default phone "Not provided" +:+ "</p>")
  +:+ template_line ("<p><strong>Company:</strong> "
                     +:+ or_default company "Not provided" +:+ "</p>")
  +:+ template_line ("<p><strong>Subject:</strong> " +:+ subject +:+ "</p>")
  +:+ template_line "<p><strong>Message:</strong></p>"
  +:+ template_line ("<p>" +:+ replace_newlines message +:+ "</p>")
  +:+ template_line "<hr>"
  +:+ template_line ("<p><small>Submitted at: " +:+ submittedAt +:+ "</small></p>")
  +:+ template_line
        match req_user with
        | Some u => "<p><small>User ID: " +:+ u +:+ "</small></p>"
        | None => "<p><small>Submitted by guest</small></p>"
        end
  +:+ template_end.

Definition userEmailContent (name subject message : string) : string :=
  template_line "<h2>Thank you for contacting Ceylon Software Hub!</h2>"
  +:+ template_line ("<p>Dear " +:+ name +:+ ",</p>")
  +:+ template_line
        "<p>We have received your message and will get back to you within 24 hours.</p>"
  +:+ template_line ""
  +:+ template_line "<h3>Your Message Details:</h3>"
  +:+ template_line ("<p><strong>Subject:</strong> " +:+ subject +:+ "</p>")
  +:+ template_line "<p><strong>Message:</strong></p>"
  +:+ template_line ("<p>" +:+ replace_newlines message +:+ "</p>")
  +:+ template_line ""
  +:+ template_line "<hr>"
  +:+ template_line "<p>Best regards,<br>Ceylon Software Hub Team</p>"
  +:+ template_line
        "<p>Email: support@ceylonsoftwarehub.com<br>Phone: +94 77 123 4567</p>"
  +:+ template_end.

Definition send (transporter : Transporter) (m : Mail) : M unit :=
  call (MailSend m)
       (match sendMail transporter m with
        | Some e => inl e
        | None => inr tt
        end).

(** POST /, behind [optionalAuth].  [submittedAt] is
    [new Date().toLocaleString()]. *)
Definition contact (req_user : option string) (submittedAt : string)
  (name email phone subject message company : option string) : M Response :=
  try_catch
    (if negb (truthy name) || negb (truthy email)
        || negb (truthy subject) || negb (truthy message)
     then ret (res_status_json 400
                 (JMessage "Name, email, subject, and message are required"))
     else
       let name := default "" name in
       let email := default "" email in
       let subject := default "" subject in
       let message := default "" message in
       if negb (emailRegex_test email)
       then ret (res_status_json 400 (JMessage "Invalid email format"))
       else
         let! transporter :=
           call_member "nodemailer" nodemailer "createTransporter"
             {| host := or_default (SMTP_HOST env) "smtp.gmail.com";
                port := or_default (SMTP_PORT env) "587";
                secure := false;
                auth_user := SMTP_USER env;
                auth_pass := SMTP_PASS env |} in
         let adminEmailContent :=
           adminEmailContent req_user submittedAt name email subject message
             phone company in
         let userEmailContent := userEmailContent name subject message in
         run! (if truthy (SMTP_USER env) && truthy (SMTP_PASS env)
               then
                 try_catch
                   (run! send transporter
                           {| mail_from := default "" (SMTP_USER env);
                              mail_to := or_default (ADMIN_EMAIL env)
                                           "admin@ceylonsoftwarehub.com";
                              mail_subject := "Contact Form: " +:+ subject;
                              mail_html := adminEmailContent;
                              mail_replyTo := Some email |} in
                    send transporter
                      {| mail_from := default "" (SMTP_USER env);
                         mail_to := email;
                         mail_subject := "Thank you for contacting Ceylon Software Hub";
                         mail_html := userEmailContent;
                         mail_replyTo := None |})
                   (fun emailError =>
                      emit (ConsoleError "Email sending error:" emailError))
               else ret tt) in
         ret (res_status_json 200
                (JContact "Message sent successfully! We will get back to you soon."
                          true)))
    (fun error =>
       run! emit (ConsoleError "Contact form error:" error) in
       ret (res_status_json 500
              (JMessage "Failed to send message. Please try again later."))).
End Contact.

(** ** Properties the specification names *)

(** An operation never takes a paid order back to pending: whenever it runs
    on a store in which order [id] is paid, order [id] is not pending
    afterwards. *)
Definition never_regresses {A} (op : M A) : Prop :=
  forall (w w' : World) (r : Exn + A) (id : string) (o o' : Order.t),
    orders w !! id = Some o ->
    Order.paymentStatus o = "paid" ->
    op w = (w', r) ->
    orders w' !! id = Some o' ->
    Order.paymentStatus o' <> "pending".

(** The sum over the line items of price times quantity, in the
    arithmetic of the language: each product is rounded to a double, and
    the products are added up from [0] in the order of the lines, each
    addition rounded to a double. *)
Definition line_total (l : OrderItem.t) : float :=
  (OrderItem.price l * OrderItem.quantity l)%float.

Definition add_lines (from : float) (ls : list OrderItem.t) : float :=
  fold_left (fun acc l => (acc + line_total l)%float) ls from.

Definition sum_lines (ls : list OrderItem.t) : float := add_lines 0%float ls.


(** Line [l] is what the catalogue [prods] holds for the requested item
    [it] at the time of the order: the product exists and is active, and
    the line carries its identifier, name and price with the requested
    quantity. *)
Definition captured (prods : gmap string Product.t) (it : ReqItem.t)
  (l : OrderItem.t) : Prop :=
  exists p,
    prods !! ReqItem.productId it = Some p /\
    Product.isActive p = true /\
    l = OrderItem.Build (Product._id p) (Product.name p) (Product.price p)
          (ReqItem.quantity it).

(** The rating claim as the specification words it, for the product
    stored under [id] and a numeric rating [r]: when the product is active
    and [r] lies between 1 and 5, after the request the product carries
    the average [(a*c + r) / (c+1)] and the count [c+1], [a] and [c] being
    the average and the count it had. *)
Definition stores_running_average
  (is_ObjectId : string -> bool) (StringToNumber : string -> float)
  (Number_toString : float -> string) (id : string) (r : float) (w : World)
  : Prop :=
  forall p,
    products w !! id = Some p ->
    Product.isActive p = true ->
    (1 <=? r)%float = true -> (r <=? 5)%float = true ->
    exists p',
      products (fst (rate is_ObjectId StringToNumber Number_toString id
                       (Some (VNum r)) w)) !! id = Some p'
      /\ Product.rating_average p'
         = ((Product.rating_average p * Product.rating_count p + r)
            / (Product.rating_count p + 1))%float
      /\ Product.rating_count p' = (Product.rating_count p + 1)%float.

(** [m] preserves the property [I] of worlds, whether it returns or
    throws. *)
Definition preserves (I : World -> Prop) {A} (m : M A) : Prop :=
  forall w w' r, I w -> m w = (w', r) -> I w'.

(** A property of worlds that does not read the call log. *)
Definition log_insensitive (I : World -> Prop) : Prop :=
  forall w l, I w -> I (MkWorld (orders w) (products w) l).

(** Order [id], if it exists, is not pending. *)
Definition not_pending_at (id : string) (w : World) : Prop :=
  forall o, orders w !! id = Some o -> Order.paymentStatus o <> "pending".

(** Every requested item names a product that exists and is active: its
    product identifier is an ObjectId, and the catalogue holds an active
    product under it. *)
Definition all_available (is_ObjectId : string -> bool)
  (prods : gmap string Product.t) (items : list ReqItem.t) : Prop :=
  Forall (fun it => is_ObjectId (ReqItem.productId it) = true
                    /\ exists p, prods !! ReqItem.productId it = Some p
                                 /\ Product.isActive p = true) items.

(** A contact submission the handler accepts: name, email, subject and
    message are present and the email is well-formed. *)
Definition valid_submission (name email subject message : option string) : bool :=
  truthy name && truthy email && truthy subject && truthy message
  && emailRegex_test (default "" email).

(** Two worlds hold the same documents (their call logs may differ). *)
Definition same_store (w w' : World) : Prop :=
  orders w' = orders w /\ products w' = products w.

(** ** Sample collaborators and documents

    Concrete stand-ins for the external services, used to run the handlers
    on explicit inputs. *)

Module Sample.
Definition env : Env :=
  {| STRIPE_SECRET_KEY := Some "sk_test";
     STRIPE_WEBHOOK_SECRET := Some "whsec";
     SMTP_HOST := None;
     SMTP_PORT := None;
     SMTP_USER := Some "mailer@example.com";
     SMTP_PASS := Some "app-password";
     ADMIN_EMAIL := None |}.

(** A schema that accepts every order. *)
Definition accept (o : Order.t) : option Exn := None.

Definition intent (st : string) : Stripe.PaymentIntent :=
  {| Stripe.id := "pi_1";
     Stripe.client_secret := "pi_1_secret";
     Stripe.status := st;
     Stripe.metadata :=
       {| Stripe.orderId := Some "o1";
          Stripe.orderNumber := Some "CSH-000001" |} |}.

(** A gateway that knows one intent, [pi_1], and accepts the signature
    [t=1,v1=good] under the secret [whsec]. *)
Definition client (st : string) : Stripe.Client :=
  {| Stripe.paymentIntents_create p :=
       inr {| Stripe.id := "pi_1";
              Stripe.client_secret := "pi_1_secret";
              Stripe.status := "requires_payment_method";
              Stripe.metadata := Stripe.params_metadata p |};
     Stripe.paymentIntents_retrieve i :=
       if bool_decide (i = Some "pi_1")
       then inr (intent st)
       else inl (Error "No such payment_intent");
     Stripe.webhooks_constructEvent body sig secret :=
       if bool_decide (sig = Some "t=1,v1=good")
          && bool_decide (secret = Some "whsec")
       then inr {| Stripe.type := "payment_intent.succeeded";
                   Stripe.data_object := intent st |}
       else inl (Error "No signatures found matching the expected signature for payload") |}.

(** A gateway that cannot be reached. *)
Definition unreachable : Stripe.Client :=
  {| Stripe.paymentIntents_create _ := inl (Error "connection refused");
     Stripe.paymentIntents_retrieve _ := inl (Error "connection refused");
     Stripe.webhooks_constructEvent _ _ _ := inl (Error "connection refused") |}.

Definition new_Stripe (c : Stripe.Client) (key : option string)
  : Exn + Stripe.Client :=
  match key with
  | Some _ => inr c
  | None => inl (Error "Neither apiKey nor config.authenticator provided")
  end.

(** A scope in which [stripe] denotes a client. *)
Definition bound_scope (c : Stripe.Client) : Scope :=
  ("stripe", BStripeClient c) :: payments_module_scope (new_Stripe c).

(** A driver that casts the strings of 24 hexadecimal digits. *)
Definition is_hex_digit (c : ascii) : bool :=
  let n := nat_of_ascii c in
  ((48 <=? n) && (n <=? 57) || (65 <=? n) && (n <=? 70)
   || (97 <=? n) && (n <=? 102))%nat.

Definition is_ObjectId (s : string) : bool :=
  (String.length s =? 24)%nat && forallb is_hex_digit (list_ascii_of_string s).

(** The double nearest to an integer. *)
Definition float_of_Z (n : Z) : float :=
  SF2Prim (binary_normalize prec emax n 0 false).

(** A runtime for the samples.  It reads the strings of decimal digits
    and prints [NaN], the infinities and the whole numbers below [10^21]
    as the language does; the samples read and print nothing else (such a
    string reads as [NaN] here and such a number prints as [?]). *)
Definition StringToNumber (s : string) : float :=
  match NilEmpty.uint_of_string s with
  | Some digits => float_of_Z (Z.of_uint digits)
  | None => nan
  end.

Definition Number_toString (x : float) : string :=
  if is_nan x then "NaN"
  else if (x =? infinity)%float then "Infinity"
  else if (x =? neg_infinity)%float then "-Infinity"
  else
    match Qred <$> float_value x with
    | Some q =>
        if (Z.pos (Qden q) =? 1) && (Z.abs (Qnum q) <? 10 ^ 21)
        then String_of_Z (Qnum q)
        else "?"
    | None => "?"
    end.

Definition p1 : string := "64f1a2b3c4d5e6f7a8b9c0d1".
Definition p2 : string := "64f1a2b3c4d5e6f7a8b9c0d2".
Definition p3 : string := "64f1a2b3c4d5e6f7a8b9c0d3".
Definition p4 : string := "64f1a2b3c4d5e6f7a8b9c0d4".

Definition editor : Product.t :=
  Product.Build p1 "Code Editor" 19.99 true 4 2.
Definition office_key : Product.t :=
  Product.Build p2 "Office Key" 5 true 0 0.
Definition retired : Product.t :=
  Product.Build p3 "Old Game" 3 false 3 1.
(** A product whose stored count is [-1], which the schema admits. *)
Definition miscounted : Product.t :=
  Product.Build p4 "Plug-in" 2.5 true 3 (-1).

Definition order1 : Order.t :=
  Order.Build "o1" (Some "u1") None
    [OrderItem.Build p2 "Office Key" 5 2]
    10 "Colombo" "card" "pending" "pending" None None
    "CSH-000001" None None None.

Definition order2 : Order.t :=
  Order.Build "o2" (Some "u2") None
    [OrderItem.Build p2 "Office Key" 5 1]
    5 "Kandy" "bank_transfer" "paid" "processing"
    (Some (PaymentSlip.Build "https://cdn.example/slip_1.png" 100)) None
    "CSH-000002" None None None.

Definition world : World :=
  MkWorld (<["o1" := order1]> (<["o2" := order2]> ∅))
          (<[p1 := editor]> (<[p2 := office_key]> (<[p3 := retired]> ∅)))
          [].

(** A catalogue that holds the miscounted product. *)
Definition world_miscounted : World :=
  MkWorld ∅ (<[p4 := miscounted]> ∅) [].

Definition cloud (opts : UploadOptions) (f : File.t) : Exn + UploadResult :=
  inr {| secure_url := "https://cdn.example/" +:+ public_id opts |}.

Definition slip_png : File.t := File.Build "paymentSlip" "image/png" 204800.
Definition slip_pdf : File.t := File.Build "paymentSlip" "application/pdf" 204800.
Definition slip_huge : File.t := File.Build "paymentSlip" "image/png" 5242881.

(** A mail transport that refuses every message. *)
Definition dead_transport (_ : TransportConfig) : Transporter :=
  {| sendMail _ := Some (Error "connect ECONNREFUSED") |}.
Definition live_transport (_ : TransportConfig) : Transporter :=
  {| sendMail _ := None |}.
End Sample.


(** * Further routes

    The remaining routes of the orders router, the listing routes of the
    admin router that read orders, and the public product route. *)

(** The authenticated user as the handlers read it: identifier and role. *)
Module ReqUser.
Record t := Build { _id : string; role : string }.
End ReqUser.

(** Bodies of the answers of these routes: a body of the first part, a
    bare order document, or a page of orders. *)
Inductive Payload :=
| PBody (b : Body)
| POrderDoc (order : Order.t)
| POrderPage (orders : list Order.t) (totalPages : option Z)
    (currentPage : Z) (total : Z).

Record Answer := { ans_status : Z; ans_body : Payload }.

Definition ans_json (p : Payload) : Answer := {| ans_status := 200; ans_body := p |}.
Definition ans_status_json (c : Z) (p : Payload) : Answer :=
  {| ans_status := c; ans_body := p |}.

(** GET /:id of the orders router, behind [optionalAuth]: [req_user] is
    [req.user?._id].  [populate('user', ...)] replaces the owner's
    identifier by the owner's document, whose [_id] is that identifier;
    the decoration of the answer is left out. *)
Definition get_order (req_user : option string) (id : string) : M Answer :=
  try_catch
    (let! order := Order_findById (Some id) in
     match order with
     | None => ret (ans_status_json 404 (PBody (JMessage "Order not found")))
     | Some order =>
         if match Order.user order, req_user with
            | Some owner, Some u => negb (String.eqb owner u)
            | _, _ => false
            end
         then ret (ans_status_json 403 (PBody (JMessage "Access denied")))
         else ret (ans_json (POrderDoc order))
     end)
    (fun error => ret (ans_status_json 500 (PBody (JMessage (message error))))).

(** [Order.findByIdAndDelete(id)]: the removed document, or nothing. *)
Definition Order_findByIdAndDelete (id : string) : M (option Order.t) :=
  fun w =>
    match orders w !! id with
    | None => (w, inr None)
    | Some o =>
        (MkWorld (delete id (orders w)) (products w) (effects w), inr (Some o))
    end.

(** DELETE /:id of the orders router, behind [authenticate]. *)
Definition delete_order (req_user : option ReqUser.t) (id : string) : M Response :=
  try_catch
    (if match req_user with
        | None => true
        | Some u => negb (String.eqb (ReqUser.role u) "admin")
        end
     then ret (res_status_json 403 (JMessage "Access denied"))
     else
       let! order := Order_findByIdAndDelete id in
       match order with
       | None => ret (res_status_json 404 (JMessage "Order not found"))
       | Some order => ret (res_json (JOrder "Order deleted successfully" order))
       end)
    (fun error => ret (res_status_json 500 (JMessage (message error)))).




(** ** Paged listings *)

(** The documents of the collection a filter selects, in the store's own
    order. *)
Definition Order_matching (P : Order.t -> bool) (w : World) : list Order.t :=
  List.filter P (map_to_list (orders w)).*2.

(** [Order.countDocuments(query)] *)
Definition Order_countDocuments_where (P : Order.t -> bool) : M Z :=
  fun w => (w, inr (Z.of_nat (length (Order_matching P w)))).

(** The cursor modifiers [.limit(n).skip(k)] on the sorted matches, as the
    database applies them: the skip first; a negative skip is refused; a
    limit of 0 is no limit and a negative limit counts as its absolute
    value. *)
Definition cursor_page {A} (n k : Z) (sorted : list A) : Exn + list A :=
  if k <? 0
  then inl (Throw "MongoServerError" "BSON field 'skip' value must be >= 0")
  else
    let rest := drop (Z.to_nat k) sorted in
    inr (if n =? 0 then rest else take (Z.to_nat (Z.abs n)) rest).

(** [x / y] on whole numbers of magnitude below [2^53], such as the
    counts and page sizes of the listings, as the exact quotient: the
    double the language computes for them has the same ceiling.  [None]
    stands for the non-finite results of a division by zero. *)
Definition js_div (x y : Q) : option Q :=
  if Qeq_bool y 0 then None else Some (x / y)%Q.

(** [Math.ceil(total / limit)]: [None] is the non-finite result of a
    division by zero, which JSON renders as [null]. *)
Definition Math_ceil_div (total limit : Z) : option Z :=
  Qceiling <$> js_div (inject_Z total) (inject_Z limit).

Inductive SortKey := CreatedAtDesc | SlipUploadedAtDesc.

Section Listings.
(** [.sort(key)]: the database's ordering of the matches.  The creation
    time is not a field of the modelled document, and the order among
    equal keys is the database's choice, so the ordering is a parameter. *)
Variable sort_orders : SortKey -> list Order.t -> list Order.t.

(** [Order.find(query).sort(key).limit(limit * 1).skip((page - 1) * limit)] *)
Definition Order_find_page (P : Order.t -> bool) (key : SortKey)
  (page limit : Z) : M (list Order.t) :=
  fun w =>
    (w, cursor_page (limit * 1) ((page - 1) * limit)
          (sort_orders key (Order_matching P w))).

(** The query of the two per-user listings. *)
Definition owned_by (u : string) (o : Order.t) : bool :=
  bool_decide (Order.user o = Some u).

(** GET /my-orders of the orders router ([u] is [req.user._id]) and GET
    /users/:id/orders of the admin router ([u] is [req.params.id]):
    [page] and [limit] are the numeric query parameters, when given. *)
Definition orders_of_user (u : string) (page limit : option Z) : M Answer :=
  try_catch
    (let page := default 1 page in
     let limit := default 10 limit in
     let! orders := Order_find_page (owned_by u) CreatedAtDesc page limit in
     let! total := Order_countDocuments_where (owned_by u) in
     ret (ans_json (POrderPage orders (Math_ceil_div total limit) page total)))
    (fun error => ret (ans_status_json 500 (PBody (JMessage (message error))))).

(** The query of GET /payment-slips: bank-transfer orders that carry a
    slip, of the given payment status unless it is absent, empty or
    [all]. *)
Definition slip_query (status : option string) (o : Order.t) : bool :=
  String.eqb (Order.paymentMethod o) "bank_transfer"
  && bool_decide (is_Some (Order.paymentSlip o))
  && (if truthy status && negb (bool_decide (status = Some "all"))
      then bool_decide (Some (Order.paymentStatus o) = status)
      else true).

(** GET /payment-slips of the admin router. *)
Definition payment_slips (page limit : option Z) (status : option string)
  : M Answer :=
  try_catch
    (let page := default 1 page in
     let limit := default 10 limit in
     let! orders :=
       Order_find_page (slip_query status) SlipUploadedAtDesc page limit in
     let! total := Order_countDocuments_where (slip_query status) in
     ret (ans_json (POrderPage orders (Math_ceil_div total limit) page total)))
    (fun error => ret (ans_status_json 500 (PBody (JMessage (message error))))).
End Listings.

(** ** Further properties of the store and of the regular expression *)

(** The order collection is well formed: every order is stored under its
    own identifier and its total is the sum of its lines, as the language
    adds them up. *)
Definition store_consistent (w : World) : Prop :=
  forall id o,
    orders w !! id = Some o ->
    Order._id o = id /\ Order.totalAmount o = sum_lines (Order.items o).

(** Every stored rating average lies in the schema's range. *)
Definition ratings_in_range (w : World) : Prop :=
  forall id p,
    products w !! id = Some p ->
    (0 <=? Product.rating_average p)%float = true
    /\ (Product.rating_average p <=? 5)%float = true.

(** The language of the pattern of the contact form, on strings of code
    units: a local part, an [@], and a domain with an inner dot, each part
    a non-empty run of code units that are neither white space nor [@]. *)
Definition plain_run (s : list Z) : Prop :=
  s <> [] /\ Forall (fun u => is_space u = false /\ u <> at_sign) s.

Definition email_shape (s : list Z) : Prop :=
  exists l a b,
    s = l ++ [at_sign] ++ a ++ [full_stop] ++ b
    /\ plain_run l /\ plain_run a /\ plain_run b.

(** The order an admin's decision leaves. *)
Definition decided (approved : bool) (notes : option string) (o : Order.t)
  : Order.t :=
  let o := Order.set_paymentStatus (if approved then "paid" else "failed") o in
  if truthy notes then Order.set_notes notes o else o.

(** The storage options and the updated order of a slip upload. *)
Definition slip_options (now : Z) (o : Order.t) : UploadOptions :=
  {| resource_type := "image";
     folder := "payment-slips";
     public_id := "slip_" +:+ Order.orderNumber o +:+ "_" +:+ String_of_Z now |}.

Definition with_slip (result : UploadResult) (uploadedAt : Z) (o : Order.t)
  : Order.t :=
  Order.set_paymentStatus "pending"
    (Order.set_paymentSlip
       (Some (PaymentSlip.Build (secure_url result) uploadedAt)) o).





(** A sorter to run the listings with: newest slip first for the slip
    listing, the store's order for the creation time (which the modelled
    document does not carry). *)
Definition slip_time (o : Order.t) : Z :=
  match Order.paymentSlip o with
  | Some slip => PaymentSlip.uploadedAt slip
  | None => 0
  end.

Definition newer_slip (a b : Order.t) : Prop := slip_time b <= slip_time a.

Global Instance newer_slip_dec : RelDecision newer_slip.
Proof. intros a b. unfold newer_slip. apply _. Defined.

Definition sample_sort (key : SortKey) (l : list Order.t) : list Order.t :=
  match key with
  | CreatedAtDesc => l
  | SlipUploadedAtDesc => merge_sort newer_slip l
  end.

(** The order number given to the next order when the collection holds
    [n] orders. *)
Definition order_number_for (n : nat) : string :=
  "CSH-" +:+ padStart 6 "0"%char (String_of_Z (Z.of_nat n + 1)).

(** Pages [1] to [n] of a listing, one after the other. *)
Fixpoint pages_upto {A} (limit : Z) (sorted : list A) (n : nat) : list A :=
  match n with
  | O => []
  | S n' =>
      pages_upto limit sorted n'
      ++ match cursor_page (limit * 1) ((Z.of_nat n - 1) * limit) sorted with
         | inr page => page
         | inl _ => []
         end
  end.

(** * Properties *)

(** ** The payments router *)

Lemma lookup_stripe_module_scope new_Stripe :
  lookup_binding "stripe" (payments_module_scope new_Stripe) = None.
Proof. reflexivity. Qed.

(** In the module as it is written the webhook route answers 400 to every
    request and touches nothing: [stripe] has no binding there. *)
Lemma post_webhook_always_rejects env new_Stripe order_validate body sig w :
  post_webhook env new_Stripe order_validate body sig w
  = (w, inr (res_status_send 400 "Webhook Error: stripe is not defined")).
Proof. reflexivity. Qed.

(** Likewise the confirmation route answers 500 to every request. *)
Lemma post_confirm_payment_always_fails new_Stripe order_validate pid w :
  post_confirm_payment new_Stripe order_validate pid w
  = (w, inr (res_status_json 500 (JMessage "stripe is not defined"))).
Proof. reflexivity. Qed.

(** What the shared update does to the world. *)
Lemma mark_paid_if_found_eq order_validate oid w :
  mark_paid_if_found order_validate oid w =
  match oid ≫= (fun i => orders w !! i) with
  | None => (w, inr tt)
  | Some o =>
      match order_validate (mark_paid o) with
      | Some e => (w, inl e)
      | None =>
          (MkWorld (<[Order._id o := mark_paid o]> (orders w)) (products w)
                   (effects w), inr tt)
      end
  end.
Proof.
  unfold mark_paid_if_found, bind, Order_findById, Order_save, ret.
  destruct (oid ≫= _) as [o|]; [|reflexivity].
  destruct (order_validate (mark_paid o)); reflexivity.
Qed.

Lemma paymentStatus_mark_paid o : Order.paymentStatus (mark_paid o) = "paid".
Proof. reflexivity. Qed.

Lemma orderStatus_mark_paid o : Order.orderStatus (mark_paid o) = "processing".
Proof. reflexivity. Qed.

Lemma mark_paid_idem o : mark_paid (mark_paid o) = mark_paid o.
Proof. reflexivity. Qed.

Lemma id_mark_paid o : Order._id (mark_paid o) = Order._id o.
Proof. reflexivity. Qed.

(** The shared update never leaves an order pending that was paid. *)
Lemma mark_paid_if_found_keeps_paid order_validate oid w w' r id o o' :
  orders w !! id = Some o ->
  Order.paymentStatus o = "paid" ->
  mark_paid_if_found order_validate oid w = (w', r) ->
  orders w' !! id = Some o' ->
  Order.paymentStatus o' = "paid".
Proof.
  intros Hid Hpaid Hrun Hid'. rewrite mark_paid_if_found_eq in Hrun.
  destruct (oid ≫= _) as [found|].
  - destruct (order_validate (mark_paid found)).
    + inversion Hrun; subst. congruence.
    + inversion Hrun; subst; clear Hrun. cbn in Hid'.
      destruct (decide (Order._id found = id)) as [Heq|Hne].
      * rewrite Heq, lookup_insert_eq in Hid'. inversion Hid'; subst. reflexivity.
      * rewrite lookup_insert_ne in Hid' by assumption. congruence.
  - inversion Hrun; subst. congruence.
Qed.

(** C2.  A webhook request whose signature header is missing or does not
    verify (the gateway's [constructEvent] throws on the raw body, the
    header and the signing secret) is answered 400 and leaves every order
    and every product as it was.  The statement covers every scope the
    handler may run in: where [stripe] denotes a client, that client's
    verification fails; where it denotes none, evaluating it fails. *)
Theorem webhook_bad_signature_no_mutation
  (env : Env) (order_validate : Order.t -> option Exn) (sc : Scope)
  (body : string) (sig : option string) (w : World) :
  (forall c, lookup_binding "stripe" sc = Some (BStripeClient c) ->
     exists e, Stripe.webhooks_constructEvent c body sig
                 (STRIPE_WEBHOOK_SECRET env) = inl e) ->
  exists w' msg,
    webhook env order_validate sc body sig w
    = (w', inr (res_status_send 400 ("Webhook Error: " +:+ msg)))
    /\ same_store w w'.
Proof.
  intros Hsig. unfold webhook, attempt, bind, resolve_client.
  destruct (lookup_binding "stripe" sc) as [[ctor|c|]|] eqn:Hsc;
    try (eexists w, _; split; [reflexivity | split; reflexivity]).
  destruct (Hsig c eq_refl) as [e He].
  unfold call, bind, emit, lift, ret. rewrite He.
  eexists _, _. split; [reflexivity | split; reflexivity].
Qed.

Lemma webhook_bad_signature_no_mutation_witness :
  (forall c,
      lookup_binding "stripe" (Sample.bound_scope (Sample.client "succeeded"))
      = Some (BStripeClient c) ->
      exists e, Stripe.webhooks_constructEvent c "{}" None
                  (STRIPE_WEBHOOK_SECRET Sample.env) = inl e)
  /\ exists w' msg,
      webhook Sample.env Sample.accept
        (Sample.bound_scope (Sample.client "succeeded")) "{}" None Sample.world
      = (w', inr (res_status_send 400 ("Webhook Error: " +:+ msg)))
      /\ same_store Sample.world w'.
Proof.
  assert (H : forall c,
      lookup_binding "stripe" (Sample.bound_scope (Sample.client "succeeded"))
      = Some (BStripeClient c) ->
      exists e, Stripe.webhooks_constructEvent c "{}" None
                  (STRIPE_WEBHOOK_SECRET Sample.env) = inl e).
  { intros c Hc. simpl in Hc. inversion Hc; subst. eexists. reflexivity. }
  split; [exact H|].
  exact (webhook_bad_signature_no_mutation Sample.env Sample.accept _ "{}" None
           Sample.world H).
Defined.

(** [Math.round] of a finite double is an integer nearest to its exact
    value; of [NaN] and the infinities it is the argument. *)
Lemma Math_round_nearest (x : float) (q : Q) :
  float_value x = Some q ->
  exists n,
    Math_round x = Integer n
    /\ (q - (1 # 2) < inject_Z n)%Q /\ (inject_Z n <= q + (1 # 2))%Q.
Proof.
  intros Hq. unfold Math_round. rewrite Hq.
  exists (Qfloor (q + (1 # 2))). split; [reflexivity|]. split.
  - pose proof (Qlt_floor (q + (1 # 2))) as H.
    rewrite inject_Z_plus in H. change (inject_Z 1) with 1%Q in H. lra.
  - apply Qfloor_le.
Qed.

Lemma Math_round_non_finite (x : float) :
  float_value x = None -> Math_round x = NonFinite x.
Proof. intros Hq. unfold Math_round. rewrite Hq. reflexivity. Qed.

(** The product is rounded to a double before it is rounded to an integer:
    for a total of 2.675 the double nearest to 267.5 is 267.5 itself, and
    the amount is 268. *)
Example Math_round_of_product :
  Math_round (2.675 * 100)%float = Integer 268
  /\ Math_round (19.99 * 100)%float = Integer 1999
  /\ Math_round (0.49999999999999994)%float = Integer 0
  /\ Math_round (-2.5)%float = Integer (-2).
Proof. repeat split; vm_compute; reflexivity. Qed.

(** What create-payment-intent does once the gateway has created the
    intent for an order the caller owns. *)
Lemma create_payment_intent_created
  (env : Env) (new_Stripe : option string -> Exn + Stripe.Client)
  (order_validate : Order.t -> option Exn)
  (req_user id : string) (order : Order.t) (c : Stripe.Client)
  (pi : Stripe.PaymentIntent) (w : World) :
  new_Stripe (STRIPE_SECRET_KEY env) = inr c ->
  orders w !! id = Some order ->
  Order.user order = Some req_user ->
  Stripe.paymentIntents_create c (intent_params order) = inr pi ->
  create_payment_intent env new_Stripe order_validate req_user (Some id) w
  = match order_validate
            (Order.set_stripePaymentIntent (Some (Stripe.id pi)) order) with
    | None =>
        (MkWorld
           (<[Order._id order :=
                Order.set_stripePaymentIntent (Some (Stripe.id pi)) order]>
              (orders w))
           (products w)
           (effects w ++ [GatewayCreate (intent_params order)]),
         inr (res_json (JPaymentIntent (Stripe.client_secret pi) (Stripe.id pi))))
    | Some e =>
        (MkWorld (orders w) (products w)
           (effects w ++ [GatewayCreate (intent_params order)]),
         inr (res_status_json 500 (JMessage (message e))))
    end.
Proof.
  intros Hnew Hfind Howner Hcreate.
  unfold create_payment_intent, try_catch, bind, lift, Order_findById.
  rewrite Hnew. cbn. rewrite Hfind, Howner. cbn.
  rewrite String.eqb_refl. cbn.
  unfold call, bind, emit, lift, ret, Order_save. rewrite Hcreate.
  cbn [Order._id Order.set_stripePaymentIntent].
  destruct (order_validate _); reflexivity.
Qed.

(** C6.  When the gateway creates the intent for an order the caller owns
    (and the order schema accepts the updated document), the intent was
    requested for [Math.round(totalAmount * 100)], the product being the
    double the language computes and the rounding exact on it, in US
    dollars, with the order's identifier and order number as metadata;
    that one call to the gateway is on the log; the order read back from
    the store carries the returned intent identifier and is otherwise as
    it was; no other document is touched; and the answer is 200 with the
    intent's client secret and identifier. *)
Theorem payment_intent_scoped_to_order_total
  (env : Env) (new_Stripe : option string -> Exn + Stripe.Client)
  (order_validate : Order.t -> option Exn)
  (req_user id : string) (order : Order.t) (c : Stripe.Client)
  (pi : Stripe.PaymentIntent) (w : World) :
  new_Stripe (STRIPE_SECRET_KEY env) = inr c ->
  orders w !! id = Some order ->
  Order._id order = id ->
  Order.user order = Some req_user ->
  Stripe.paymentIntents_create c (intent_params order) = inr pi ->
  order_validate (Order.set_stripePaymentIntent (Some (Stripe.id pi)) order) = None ->
  let run :=
    create_payment_intent env new_Stripe order_validate req_user (Some id) w in
  snd run
  = inr (res_json (JPaymentIntent (Stripe.client_secret pi) (Stripe.id pi)))
  /\ effects (fst run) = effects w ++ [GatewayCreate (intent_params order)]
  /\ Stripe.amount (intent_params order)
     = Math_round (Order.totalAmount order * 100)%float
  /\ (forall q,
         float_value (Order.totalAmount order * 100)%float = Some q ->
         exists cents,
           Stripe.amount (intent_params order) = Integer cents
           /\ (q - (1 # 2) < inject_Z cents)%Q
           /\ (inject_Z cents <= q + (1 # 2))%Q)
  /\ Stripe.currency (intent_params order) = "usd"
  /\ Stripe.params_metadata (intent_params order)
     = {| Stripe.orderId := Some id;
          Stripe.orderNumber := Some (Order.orderNumber order) |}
  /\ (exists stored,
         orders (fst run) !! id = Some stored
         /\ Order.stripePaymentIntent stored = Some (Stripe.id pi)
         /\ Order._id stored = id
         /\ Order.user stored = Order.user order
         /\ Order.items stored = Order.items order
         /\ Order.totalAmount stored = Order.totalAmount order
         /\ Order.paymentMethod stored = Order.paymentMethod order
         /\ Order.paymentStatus stored = Order.paymentStatus order
         /\ Order.orderStatus stored = Order.orderStatus order
         /\ Order.paymentSlip stored = Order.paymentSlip order
         /\ Order.orderNumber stored = Order.orderNumber order)
  /\ (forall other, other <> id -> orders (fst run) !! other = orders w !! other)
  /\ products (fst run) = products w.
Proof.
  intros Hnew Hfind Hid Howner Hcreate Hvalid. cbv zeta.
  rewrite (create_payment_intent_created env new_Stripe order_validate req_user
             id order c pi w Hnew Hfind Howner Hcreate), Hvalid, Hid.
  cbn [fst snd orders products effects].
  refine (conj eq_refl (conj eq_refl (conj eq_refl (conj _ (conj eq_refl
            (conj _ (conj _ (conj _ eq_refl)))))))).
  - intros q Hq. apply (Math_round_nearest _ q Hq).
  - cbn. rewrite Hid. reflexivity.
  - eexists. split; [apply lookup_insert_eq|].
    cbn. repeat split; try reflexivity. exact Hid.
  - intros other Hne. apply lookup_insert_ne. congruence.
Qed.

Lemma payment_intent_scoped_to_order_total_witness :
  let run :=
    create_payment_intent Sample.env
      (Sample.new_Stripe (Sample.client "succeeded"))
      Sample.accept "u1" (Some "o1") Sample.world in
  snd run = inr (res_json (JPaymentIntent "pi_1_secret" "pi_1"))
  /\ effects (fst run)
     = [GatewayCreate
          {| Stripe.amount := Integer 1000;
             Stripe.currency := "usd";
             Stripe.params_metadata :=
               {| Stripe.orderId := Some "o1";
                  Stripe.orderNumber := Some "CSH-000001" |} |}]
  /\ Order.stripePaymentIntent <$> orders (fst run) !! "o1" = Some (Some "pi_1").
Proof.
  pose proof (payment_intent_scoped_to_order_total Sample.env
                (Sample.new_Stripe (Sample.client "succeeded")) Sample.accept
                "u1" "o1" Sample.order1 (Sample.client "succeeded")
                {| Stripe.id := "pi_1";
                   Stripe.client_secret := "pi_1_secret";
                   Stripe.status := "requires_payment_method";
                   Stripe.metadata :=
                     {| Stripe.orderId := Some "o1";
                        Stripe.orderNumber := Some "CSH-000001" |} |}
                Sample.world
                eq_refl eq_refl eq_refl eq_refl eq_refl eq_refl) as H.
  cbv zeta in *.
  destruct H as (Hans & Hlog & _ & _ & _ & _ & (stored & Hfind & Hpi & _) & _).
  split; [exact Hans|]. split; [exact Hlog|].
  rewrite Hfind. cbn. rewrite Hpi. reflexivity.
Defined.

(** When the order schema refuses the updated order, the intent exists at
    the gateway but its identifier is not stored: the answer is 500 and
    every order is as it was. *)
Lemma payment_intent_not_stored_when_refused
  (env : Env) (new_Stripe : option string -> Exn + Stripe.Client)
  (order_validate : Order.t -> option Exn)
  (req_user id : string) (order : Order.t) (c : Stripe.Client)
  (pi : Stripe.PaymentIntent) (e : Exn) (w : World) :
  new_Stripe (STRIPE_SECRET_KEY env) = inr c ->
  orders w !! id = Some order ->
  Order.user order = Some req_user ->
  Stripe.paymentIntents_create c (intent_params order) = inr pi ->
  order_validate (Order.set_stripePaymentIntent (Some (Stripe.id pi)) order)
  = Some e ->
  create_payment_intent env new_Stripe order_validate req_user (Some id) w
  = (MkWorld (orders w) (products w)
       (effects w ++ [GatewayCreate (intent_params order)]),
     inr (res_status_json 500 (JMessage (message e)))).
Proof.
  intros Hnew Hfind Howner Hcreate Hvalid.
  rewrite (create_payment_intent_created env new_Stripe order_validate req_user
             id order c pi w Hnew Hfind Howner Hcreate), Hvalid.
  reflexivity.
Qed.

(** C7.  A failing gateway call surfaces at once as a 500 carrying the
    error's message and leaves every order as it was; the gateway is not
    called again.  For create-payment-intent: the order is found and owned
    by the caller and the gateway's [create] throws.  For confirm-payment,
    in whatever scope the handler runs: where [stripe] denotes a client its
    [retrieve] throws (where it denotes none, evaluating it throws and the
    gateway is not called at all). *)
Theorem gateway_failure_leaves_orders_unchanged
  (env : Env) (new_Stripe : option string -> Exn + Stripe.Client)
  (order_validate : Order.t -> option Exn) :
  (forall (req_user id : string) (order : Order.t) (c : Stripe.Client)
          (e : Exn) (w : World),
      new_Stripe (STRIPE_SECRET_KEY env) = inr c ->
      orders w !! id = Some order ->
      Order.user order = Some req_user ->
      Stripe.paymentIntents_create c (intent_params order) = inl e ->
      create_payment_intent env new_Stripe order_validate req_user (Some id) w
      = (MkWorld (orders w) (products w)
           (effects w ++ [GatewayCreate (intent_params order)]),
         inr (res_status_json 500 (JMessage (message e)))))
  /\
  (forall (sc : Scope) (pid : option string) (w : World),
      (forall c, lookup_binding "stripe" sc = Some (BStripeClient c) ->
         exists e, Stripe.paymentIntents_retrieve c pid = inl e) ->
      exists w' msg,
        confirm_payment order_validate sc pid w
        = (w', inr (res_status_json 500 (JMessage msg)))
        /\ same_store w w'
        /\ (effects w' = effects w \/
            effects w' = (effects w ++ [GatewayRetrieve pid])%list)).
Proof.
  split.
  - intros req_user id order c e w Hnew Hfind Howner Hcreate.
    unfold create_payment_intent, try_catch, bind, lift, Order_findById.
    rewrite Hnew. cbn. rewrite Hfind, Howner. cbn.
    rewrite String.eqb_refl. cbn.
    unfold call, bind, emit, lift, ret. rewrite Hcreate. reflexivity.
  - intros sc pid w Hfail.
    unfold confirm_payment, try_catch, bind, resolve_client.
    destruct (lookup_binding "stripe" sc) as [[ctor|c|]|] eqn:Hsc;
      try (eexists w, _; split; [reflexivity | split; [split; reflexivity | left; reflexivity]]).
    destruct (Hfail c eq_refl) as [e He].
    unfold call, bind, emit, lift, ret. rewrite He.
    eexists _, _. split; [reflexivity|]. split; [split; reflexivity|].
    right. reflexivity.
Qed.

Lemma gateway_failure_leaves_orders_unchanged_witness :
  create_payment_intent Sample.env (Sample.new_Stripe Sample.unreachable)
    Sample.accept "u1" (Some "o1") Sample.world
  = (MkWorld (orders Sample.world) (products Sample.world)
       [GatewayCreate (intent_params Sample.order1)],
     inr (res_status_json 500 (JMessage "connection refused")))
  /\
  exists w' msg,
    confirm_payment Sample.accept (Sample.bound_scope Sample.unreachable)
      (Some "pi_1") Sample.world
    = (w', inr (res_status_json 500 (JMessage msg)))
    /\ same_store Sample.world w'
    /\ (effects w' = effects Sample.world \/
        effects w' = (effects Sample.world ++ [GatewayRetrieve (Some "pi_1")])%list).
Proof.
  split.
  - exact (proj1 (gateway_failure_leaves_orders_unchanged Sample.env
                    (Sample.new_Stripe Sample.unreachable) Sample.accept)
                 "u1" "o1" Sample.order1 Sample.unreachable
                 (Error "connection refused") Sample.world
                 eq_refl eq_refl eq_refl eq_refl).
  - apply (proj2 (gateway_failure_leaves_orders_unchanged Sample.env
                    (Sample.new_Stripe Sample.unreachable) Sample.accept)).
    intros c Hc. simpl in Hc. inversion Hc; subst. eexists. reflexivity.
Defined.

(** ** Preservation of a property of the store along a computation *)

Section Preservation.
Variable I : World -> Prop.
Hypothesis I_log : log_insensitive I.

Lemma preserves_ret {A} (a : A) : preserves I (ret a).
Proof. intros w w' r HI H. inversion H; subst. exact HI. Qed.

Lemma preserves_throw {A} (e : Exn) : preserves I (@throw A e).
Proof. intros w w' r HI H. inversion H; subst. exact HI. Qed.

Lemma preserves_lift {A} (x : Exn + A) : preserves I (lift x).
Proof. intros w w' r HI H. inversion H; subst. exact HI. Qed.

Lemma preserves_emit (e : Effect) : preserves I (emit e).
Proof. intros w w' r HI H. inversion H; subst. apply I_log, HI. Qed.

Lemma preserves_bind {A B} (m : M A) (k : A -> M B) :
  preserves I m -> (forall a, preserves I (k a)) -> preserves I (bind m k).
Proof.
  intros Hm Hk w w' r HI H. unfold bind in H.
  destruct (m w) as [w1 [e|a]] eqn:Hmw.
  - inversion H; subst. eapply Hm; eauto.
  - eapply Hk; [|exact H]. eapply Hm; eauto.
Qed.

Lemma preserves_try_catch {A} (m : M A) (h : Exn -> M A) :
  preserves I m -> (forall e, preserves I (h e)) -> preserves I (try_catch m h).
Proof.
  intros Hm Hh w w' r HI H. unfold try_catch in H.
  destruct (m w) as [w1 [e|a]] eqn:Hmw.
  - eapply Hh; [|exact H]. eapply Hm; eauto.
  - inversion H; subst. eapply Hm; eauto.
Qed.

Lemma preserves_attempt {A} (m : M A) : preserves I m -> preserves I (attempt m).
Proof.
  intros Hm w w' r HI H. unfold attempt in H.
  destruct (m w) as [w1 x] eqn:Hmw. inversion H; subst. eapply Hm; eauto.
Qed.

Lemma preserves_call {A} (e : Effect) (x : Exn + A) : preserves I (call e x).
Proof.
  unfold call. apply preserves_bind; [apply preserves_emit|].
  intros _. apply preserves_lift.
Qed.

Lemma preserves_Order_findById (id : option string) :
  preserves I (Order_findById id).
Proof. intros w w' r HI H. inversion H; subst. exact HI. Qed.

Lemma preserves_Product_findById (is_ObjectId : string -> bool) (id : string) :
  preserves I (Product_findById is_ObjectId id).
Proof.
  intros w w' r HI H. unfold Product_findById in H.
  destruct (is_ObjectId id); inversion H; subst; exact HI.
Qed.

Lemma preserves_Order_countDocuments : preserves I Order_countDocuments.
Proof. intros w w' r HI H. inversion H; subst. exact HI. Qed.

Lemma preserves_resolve_client (sc : Scope) (x : string) :
  preserves I (resolve_client sc x).
Proof.
  unfold resolve_client.
  destruct (lookup_binding x sc) as [[ | | ]|];
    first [apply preserves_ret | apply preserves_throw].
Qed.

Lemma preserves_user_toString (u : option string) :
  preserves I (user_toString u).
Proof. destruct u; [apply preserves_ret | apply preserves_throw]. Qed.
End Preservation.

(** One step of a preservation proof: the rule for the head construct of
    the computation, or a case split on what it branches on. *)
Ltac preserve_step :=
  lazymatch goal with
  | |- preserves _ (ret _) => apply preserves_ret
  | |- preserves _ (throw _) => apply preserves_throw
  | |- preserves _ (lift _) => apply preserves_lift
  | |- preserves _ (emit _) => apply preserves_emit
  | |- preserves _ (call _ _) => apply preserves_call
  | |- preserves _ (Order_findById _) => apply preserves_Order_findById
  | |- preserves _ (Product_findById _ _) => apply preserves_Product_findById
  | |- preserves _ Order_countDocuments => apply preserves_Order_countDocuments
  | |- preserves _ (resolve_client _ _) => apply preserves_resolve_client
  | |- preserves _ (user_toString _) => apply preserves_user_toString
  | |- preserves _ (bind _ _) => apply preserves_bind
  | |- preserves _ (try_catch _ _) => apply preserves_try_catch
  | |- preserves _ (attempt _) => apply preserves_attempt
  | |- preserves _ (match ?x with _ => _ end) => destruct x
  | |- preserves _ (let _ := _ in _) => cbv zeta
  | |- log_insensitive _ => assumption
  | |- forall _, _ => intro
  end.

Ltac preserve := repeat preserve_step.

Lemma log_insensitive_not_pending_at id : log_insensitive (not_pending_at id).
Proof. intros w l H. exact H. Qed.

Lemma log_insensitive_same_store w0 : log_insensitive (same_store w0).
Proof. intros w l H. exact H. Qed.

(** Saving a document that is not pending keeps every order that was not
    pending so. *)
Lemma preserves_Order_save_not_pending order_validate id o :
  Order.paymentStatus o <> "pending" ->
  preserves (not_pending_at id) (Order_save order_validate o).
Proof.
  intros Ho w w' r HI H. unfold Order_save in H.
  destruct (order_validate o).
  - inversion H; subst. exact HI.
  - inversion H; subst. intros o' Ho'. cbn in Ho'.
    destruct (decide (Order._id o = id)) as [Heq|Hne].
    + rewrite Heq, lookup_insert_eq in Ho'. inversion Ho'; subst. exact Ho.
    + rewrite lookup_insert_ne in Ho' by assumption. apply HI, Ho'.
Qed.

Lemma preserves_mark_paid_if_found order_validate id oid :
  preserves (not_pending_at id) (mark_paid_if_found order_validate oid).
Proof.
  pose proof (log_insensitive_not_pending_at id) as Hlog.
  unfold mark_paid_if_found. preserve.
  apply preserves_Order_save_not_pending. discriminate.
Qed.

(** A paid order is in particular not pending, so an operation that keeps
    non-pending orders non-pending never regresses. *)
Lemma never_regresses_of_preserves {A} (op : M A) :
  (forall id, preserves (not_pending_at id) op) -> never_regresses op.
Proof.
  intros H w w' r id o o' Hid Hpaid Hrun Hid'.
  refine (H id w w' r _ Hrun o' Hid').
  intros o0 Ho0. rewrite Hid in Ho0. inversion Ho0; subst.
  rewrite Hpaid. discriminate.
Qed.

Lemma webhook_keeps_not_pending env order_validate sc body sig id :
  preserves (not_pending_at id) (webhook env order_validate sc body sig).
Proof.
  pose proof (log_insensitive_not_pending_at id) as Hlog.
  pose proof (preserves_mark_paid_if_found order_validate id) as Hmark.
  unfold webhook. preserve; apply Hmark.
Qed.

Lemma confirm_payment_keeps_not_pending order_validate sc pid id :
  preserves (not_pending_at id) (confirm_payment order_validate sc pid).
Proof.
  pose proof (log_insensitive_not_pending_at id) as Hlog.
  pose proof (preserves_mark_paid_if_found order_validate id) as Hmark.
  unfold confirm_payment. preserve; apply Hmark.
Qed.

Lemma verify_payment_slip_keeps_not_pending order_validate oid approved notes id :
  preserves (not_pending_at id)
            (verify_payment_slip order_validate oid approved notes).
Proof.
  pose proof (log_insensitive_not_pending_at id) as Hlog.
  unfold verify_payment_slip. preserve.
  apply preserves_Order_save_not_pending.
  destruct (truthy notes), approved; discriminate.
Qed.

(** C1, as stated, fails: uploading a payment slip for a paid
    bank-transfer order sets its payment status back to pending. *)
Lemma slip_upload_regresses_paid_order :
  ~ never_regresses
      (post_payment_slip Sample.accept Sample.cloud 1700000000000 1700000000500
         "o2" (Some Sample.slip_png)).
Proof.
  intros H.
  refine (H Sample.world _ _ "o2" Sample.order2
            (Order.set_paymentStatus "pending"
               (Order.set_paymentSlip
                  (Some (PaymentSlip.Build
                           "https://cdn.example/slip_CSH-000002_1700000000000"
                           1700000000500))
                  Sample.order2))
            _ _ _ _ _).
  - vm_compute. reflexivity.
  - reflexivity.
  - apply surjective_pairing.
  - vm_compute. reflexivity.
  - reflexivity.
Qed.

(** So does the admin status update when the admin supplies [pending]. *)
Lemma admin_update_regresses_paid_order :
  ~ never_regresses (update_order_status 1700000000000 "o2" None (Some "pending")).
Proof.
  intros H.
  refine (H Sample.world _ _ "o2" Sample.order2
            (Order.set_paymentStatus "pending" Sample.order2) _ _ _ _ _).
  - vm_compute. reflexivity.
  - reflexivity.
  - apply surjective_pairing.
  - vm_compute. reflexivity.
  - reflexivity.
Qed.

(** C1, amended.  Webhook handling, payment confirmation and the admin's
    payment-slip verification never take a paid order back to pending, in
    whatever scope the payment handlers run and whatever the order schema
    accepts. *)
Theorem paid_order_not_regressed_by_gateway_or_review
  (env : Env) (order_validate : Order.t -> option Exn) (sc : Scope) :
  (forall body sig, never_regresses (webhook env order_validate sc body sig))
  /\ (forall pid, never_regresses (confirm_payment order_validate sc pid))
  /\ (forall id approved notes,
         never_regresses (verify_payment_slip order_validate id approved notes)).
Proof.
  split; [|split]; intros; apply never_regresses_of_preserves; intros.
  - apply webhook_keeps_not_pending.
  - apply confirm_payment_keeps_not_pending.
  - apply verify_payment_slip_keeps_not_pending.
Qed.

Lemma paid_order_not_regressed_by_gateway_or_review_witness :
  Order.paymentStatus Sample.order2 = "paid"
  /\ (forall w' r o',
         verify_payment_slip Sample.accept "o2" false (Some "slip unreadable")
           Sample.world = (w', r) ->
         orders w' !! "o2" = Some o' ->
         Order.paymentStatus o' <> "pending").
Proof.
  split; [reflexivity|].
  intros w' r o' Hrun Hfind.
  refine (proj2 (proj2 (paid_order_not_regressed_by_gateway_or_review
                          Sample.env Sample.accept
                          (Sample.bound_scope (Sample.client "succeeded"))))
                "o2" false (Some "slip unreadable")
                Sample.world w' r "o2" Sample.order2 o' _ _ Hrun Hfind).
  - vm_compute. reflexivity.
  - reflexivity.
Defined.

(** Where [stripe] does denote a client that accepts the event, a
    succeeded-intent event marks the order paid and processing, and a
    second delivery changes nothing more. *)
Lemma webhook_succeeded_idempotent_when_bound
  (env : Env) (order_validate : Order.t -> option Exn) (sc : Scope)
  (c : Stripe.Client) (body : string) (sig : option string)
  (event : Stripe.Event) (id : string) (o : Order.t) (w : World) :
  lookup_binding "stripe" sc = Some (BStripeClient c) ->
  Stripe.webhooks_constructEvent c body sig (STRIPE_WEBHOOK_SECRET env) = inr event ->
  Stripe.type event = "payment_intent.succeeded" ->
  Stripe.orderId (Stripe.metadata (Stripe.data_object event)) = Some id ->
  orders w !! id = Some o ->
  Order._id o = id ->
  order_validate (mark_paid o) = None ->
  let once := fst (webhook env order_validate sc body sig w) in
  let twice := fst (webhook env order_validate sc body sig once) in
  orders once = <[id := mark_paid o]> (orders w)
  /\ orders twice = orders once
  /\ snd (webhook env order_validate sc body sig once)
     = inr (res_json (JReceived true)).
Proof.
  intros Hsc Hev Hty Hoid Hfind Hid Hvalid.
  assert (Hrun : forall w0 o0,
             orders w0 !! id = Some o0 -> Order._id o0 = id ->
             order_validate (mark_paid o0) = None ->
             webhook env order_validate sc body sig w0
             = (MkWorld (<[id := mark_paid o0]> (orders w0)) (products w0)
                  (effects w0 ++ [GatewayConstructEvent body sig]),
                inr (res_json (JReceived true)))).
  { intros w0 o0 Hf0 Hid0 Hv0.
    unfold webhook, attempt, bind, resolve_client. rewrite Hsc.
    unfold call, bind, emit, lift, ret. rewrite Hev, Hty.
    cbv beta iota. rewrite String.eqb_refl, mark_paid_if_found_eq.
    cbv beta iota zeta. rewrite Hoid. cbn [mbind option_bind orders].
    rewrite Hf0, Hv0, Hid0. reflexivity. }
  cbv zeta. rewrite (Hrun w o Hfind Hid Hvalid). cbn.
  rewrite (Hrun _ (mark_paid o)); cbn.
  - rewrite insert_insert_eq. auto.
  - apply lookup_insert_eq.
  - exact Hid.
  - exact Hvalid.
Qed.

(** C3.  The webhook route as the module registers it, on a genuine
    succeeded-intent event for the pending order [o1]: the gateway client
    would accept the event, yet the route answers 400 and the order stays
    pending, after one delivery and after two. *)
Theorem webhook_route_leaves_order_pending :
  let deliver :=
    post_webhook Sample.env (Sample.new_Stripe (Sample.client "succeeded"))
      Sample.accept "{}" (Some "t=1,v1=good") in
  Stripe.webhooks_constructEvent (Sample.client "succeeded") "{}"
    (Some "t=1,v1=good") (STRIPE_WEBHOOK_SECRET Sample.env)
  = inr {| Stripe.type := "payment_intent.succeeded";
           Stripe.data_object := Sample.intent "succeeded" |}
  /\ deliver Sample.world
     = (Sample.world,
        inr (res_status_send 400 "Webhook Error: stripe is not defined"))
  /\ deliver (fst (deliver Sample.world)) = deliver Sample.world
  /\ Order.paymentStatus <$> orders (fst (deliver Sample.world)) !! "o1"
     = Some "pending"
  /\ Order.orderStatus <$> orders (fst (deliver Sample.world)) !! "o1"
     = Some "pending".
Proof.
  cbv zeta. rewrite !post_webhook_always_rejects. cbn [fst].
  repeat split; vm_compute; reflexivity.
Qed.

(** Where [stripe] does denote a client whose [retrieve] returns the
    intent, the confirmation answers 200 with [success: true] whatever the
    intent's status; it writes nothing unless the status is [succeeded]
    and the order named by the metadata exists. *)
Lemma confirm_payment_success_when_bound
  (order_validate : Order.t -> option Exn) (sc : Scope) (c : Stripe.Client)
  (pid : option string) (pi : Stripe.PaymentIntent) (w : World) :
  lookup_binding "stripe" sc = Some (BStripeClient c) ->
  Stripe.paymentIntents_retrieve c pid = inr pi ->
  Stripe.status pi <> "succeeded" \/
  Stripe.orderId (Stripe.metadata pi) ≫= (fun i => orders w !! i) = None ->
  confirm_payment order_validate sc pid w
  = (MkWorld (orders w) (products w) (effects w ++ [GatewayRetrieve pid]),
     inr (res_json (JConfirm true pi))).
Proof.
  intros Hsc Hget Hcase.
  unfold confirm_payment, try_catch, bind, resolve_client. rewrite Hsc.
  unfold call, bind, emit, lift, ret. rewrite Hget. cbv beta iota.
  destruct (String.eqb_spec (Stripe.status pi) "succeeded") as [Hs|Hs].
  - destruct Hcase as [Hne|Hnone]; [contradiction|].
    rewrite mark_paid_if_found_eq. cbn [orders]. rewrite Hnone. reflexivity.
  - reflexivity.
Qed.

(** C10.  The confirmation route as the module registers it, for an intent
    the gateway client would return as succeeded: the route answers 500
    and the order stays pending. *)
Theorem confirm_payment_route_answers_500 :
  Stripe.paymentIntents_retrieve (Sample.client "succeeded") (Some "pi_1")
  = inr (Sample.intent "succeeded")
  /\ post_confirm_payment (Sample.new_Stripe (Sample.client "succeeded"))
       Sample.accept (Some "pi_1") Sample.world
     = (Sample.world,
        inr (res_status_json 500 (JMessage "stripe is not defined"))).
Proof. split; reflexivity. Qed.

(** ** Order creation *)

Lemma add_lines_app (from : float) (ls ms : list OrderItem.t) :
  add_lines from (ls ++ ms) = add_lines (add_lines from ls) ms.
Proof. apply fold_left_app. Qed.

(** The sum is the language's, not the exact one: three lines of 0.1, 0.2
    and 0.3 add up to 0.6000000000000001, which is not the double 0.6. *)
Example sum_lines_is_rounded :
  let lines :=
    [OrderItem.Build Sample.p1 "a" 0.1 1; OrderItem.Build Sample.p2 "b" 0.2 1;
     OrderItem.Build Sample.p3 "c" 0.3 1] in
  sum_lines lines = 0x1.3333333333334p-1%float
  /\ (sum_lines lines =? 0.6)%float = false.
Proof. split; vm_compute; reflexivity. Qed.

(** The loop of order creation when every item is available: from any
    accumulated total and lines, it ends with the lines captured for the
    remaining items appended and their products added, one after the
    other, to the total; the store is not touched. *)
Lemma collect_items_spec (is_ObjectId : string -> bool) (items : list ReqItem.t) :
  forall (total : float) (lines : list OrderItem.t) (w : World),
    all_available is_ObjectId (products w) items ->
    exists new,
      collect_items is_ObjectId items total lines w
      = (w, inr (inr (add_lines total new, lines ++ new)))
      /\ Forall2 (captured (products w)) items new.
Proof.
  induction items as [|it rest IH]; intros total lines w Hav.
  - exists []. cbn. rewrite app_nil_r. split; [reflexivity | constructor].
  - inversion Hav as [|? ? [Hoid [p [Hp Hact]]] Hrest]; subst.
    destruct (IH (total + Product.price p * ReqItem.quantity it)%float
                 (lines ++ [OrderItem.Build (Product._id p) (Product.name p)
                              (Product.price p) (ReqItem.quantity it)])
                 w Hrest) as (new & Hrun & Hcap).
    exists (OrderItem.Build (Product._id p) (Product.name p) (Product.price p)
              (ReqItem.quantity it) :: new).
    split.
    + cbn [collect_items]. unfold bind at 1. unfold Product_findById at 1.
      rewrite Hoid, Hp, Hact, Hrun. rewrite <- app_assoc. reflexivity.
    + constructor; [|exact Hcap]. exists p. auto.
Qed.

(** C4.  When every requested item names an existing, active product
    (by an ObjectId under which the catalogue holds an active product),
    the handler builds an order whose lines are
    the products as captured from the catalogue with the requested
    quantities and whose total is the sum over these lines of price times
    quantity, as the language computes it: each product a double, added up
    from 0 in the order of the lines.  When the order schema accepts the
    order it is stored under its identifier and returned with status 201
    (and when the schema refuses it, nothing is stored). *)
Theorem created_order_total_is_line_sum
  (order_validate : Order.t -> option Exn) (is_ObjectId : string -> bool)
  (new_id : string) (req_user : option string) (items : list ReqItem.t)
  (guestInfo : option string) (paymentMethod shippingAddress : string)
  (w : World) :
  all_available is_ObjectId (products w) items ->
  exists order,
    Forall2 (captured (products w)) items (Order.items order)
    /\ Order.totalAmount order = sum_lines (Order.items order)
    /\ Order._id order = new_id
    /\ create_order order_validate is_ObjectId new_id req_user items guestInfo
         paymentMethod shippingAddress w
       = match order_validate order with
         | None =>
             (MkWorld (<[new_id := order]> (orders w)) (products w) (effects w),
              inr (res_status_json 201
                     (JOrder "Order created successfully" order)))
         | Some e => (w, inr (res_status_json 400 (JMessage (message e))))
         end.
Proof.
  intros Hav.
  destruct (collect_items_spec is_ObjectId items 0%float [] w Hav)
    as (lines & Hrun & Hcap).
  cbn [app] in Hrun.
  eexists (new_Order new_id req_user
             (match req_user with Some _ => None | None => guestInfo end)
             lines (add_lines 0%float lines) paymentMethod shippingAddress
             ("CSH-" +:+ padStart 6 "0"%char
                (String_of_Z (Z.of_nat (size (orders w)) + 1)))).
  split; [exact Hcap|].
  split; [reflexivity|].
  split; [reflexivity|].
  unfold create_order, try_catch. unfold bind at 1. rewrite Hrun.
  unfold bind, Order_countDocuments, Order_save, ret. cbv beta iota zeta.
  match goal with |- context [order_validate ?o] => destruct (order_validate o) end;
    reflexivity.
Qed.

Lemma created_order_total_is_line_sum_witness :
  let items := [ReqItem.Build Sample.p1 2; ReqItem.Build Sample.p2 1] in
  all_available Sample.is_ObjectId (products Sample.world) items
  /\ exists order,
      Forall2 (captured (products Sample.world)) items (Order.items order)
      /\ Order.totalAmount order = sum_lines (Order.items order)
      /\ Order._id order = "o3"
      /\ create_order Sample.accept Sample.is_ObjectId "o3" None items
           (Some "guest@example.com") "card" "Galle" Sample.world
         = match Sample.accept order with
           | None =>
               (MkWorld (<["o3" := order]> (orders Sample.world))
                  (products Sample.world) (effects Sample.world),
                inr (res_status_json 201
                       (JOrder "Order created successfully" order)))
           | Some e => (Sample.world, inr (res_status_json 400 (JMessage (message e))))
           end.
Proof.
  cbv zeta.
  assert (H : all_available Sample.is_ObjectId (products Sample.world)
                [ReqItem.Build Sample.p1 2; ReqItem.Build Sample.p2 1]).
  { constructor; [|constructor; [|constructor]].
    - split; [reflexivity|]. exists Sample.editor.
      split; [vm_compute; reflexivity | reflexivity].
    - split; [reflexivity|]. exists Sample.office_key.
      split; [vm_compute; reflexivity | reflexivity]. }
  split; [exact H|].
  exact (created_order_total_is_line_sum Sample.accept Sample.is_ObjectId "o3" None
           [ReqItem.Build Sample.p1 2; ReqItem.Build Sample.p2 1]
           (Some "guest@example.com") "card" "Galle" Sample.world H).
Defined.

(** The sample order: two editors at 19.99 and one key at 5 make the
    double nearest to 44.98. *)
Example create_order_sample_total :
  match snd (create_order Sample.accept Sample.is_ObjectId "o3" None
               [ReqItem.Build Sample.p1 2; ReqItem.Build Sample.p2 1]
               (Some "guest@example.com") "card" "Galle" Sample.world) with
  | inr {| res_status := 201; res_body := JOrder _ order |} =>
      Order.totalAmount order = 44.98%float
      /\ Order.orderNumber order = "CSH-000003"
  | _ => False
  end.
Proof. vm_compute. split; reflexivity. Qed.

(** An inactive product stops the creation with a 400; nothing is stored. *)
Example create_order_inactive_product :
  create_order Sample.accept Sample.is_ObjectId "o3" None
    [ReqItem.Build Sample.p1 2; ReqItem.Build Sample.p3 1] None "card" "Galle"
    Sample.world
  = (Sample.world,
     inr (res_status_json 400
            (JMessage "Product 64f1a2b3c4d5e6f7a8b9c0d3 not found or inactive"))).
Proof. vm_compute. reflexivity. Qed.

(** ** Comparisons of doubles *)

Lemma SFcompare_refl (f : spec_float) :
  f <> S754_nan -> SFcompare f f = Some Eq.
Proof.
  destruct f as [s|s| |s m e]; intros Hf; try congruence.
  - reflexivity.
  - destruct s; reflexivity.
  - cbn. rewrite Z.compare_refl, Pos.compare_cont_refl. destruct s; reflexivity.
Qed.

Lemma SFcompare_antisym (x y : spec_float) (c : comparison) :
  SFcompare x y = Some c -> SFcompare y x = Some (CompOpp c).
Proof.
  destruct x as [sx|sx| |sx mx ex], y as [sy|sy| |sy my ey]; cbn;
    try discriminate;
    try (intros H; inversion H; subst; clear H;
         repeat match goal with b : bool |- _ => destruct b end; reflexivity).
  intros H. inversion H; subst; clear H. f_equal.
  rewrite (Z.compare_antisym ex ey).
  destruct sx, sy; try reflexivity;
    destruct (ex ?= ey)%Z; cbn; try reflexivity.
  - rewrite CompOpp_involutive. exact (Pos.compare_cont_antisym my mx Eq).
  - symmetry. exact (Pos.compare_cont_antisym mx my Eq).
Qed.

Lemma SFcompare_not_nan (x y : spec_float) (c : comparison) :
  SFcompare x y = Some c -> x <> S754_nan /\ y <> S754_nan.
Proof. destruct x, y; cbn; intros H; split; congruence. Qed.

Lemma SFcompare_total (x y : spec_float) :
  x <> S754_nan -> y <> S754_nan -> exists c, SFcompare x y = Some c.
Proof.
  destruct x, y; cbn; intros Hx Hy; try congruence; eexists; reflexivity.
Qed.

Lemma is_nan_spec (x : float) : is_nan x = true <-> Prim2SF x = S754_nan.
Proof.
  unfold is_nan. rewrite FloatAxioms.eqb_spec, negb_true_iff. unfold SFeqb. split.
  - intros H. destruct (Prim2SF x) eqn:E; [| |reflexivity|];
      rewrite SFcompare_refl in H by discriminate; discriminate.
  - intros ->. reflexivity.
Qed.

Lemma is_nan_false (x : float) : is_nan x = false <-> Prim2SF x <> S754_nan.
Proof.
  rewrite <- is_nan_spec. destruct (is_nan x); split; congruence.
Qed.

(** What is compared is no [NaN]. *)
Lemma leb_not_nan (x y : float) :
  (x <=? y)%float = true -> is_nan x = false /\ is_nan y = false.
Proof.
  rewrite FloatAxioms.leb_spec. unfold SFleb. intros H.
  destruct (SFcompare (Prim2SF x) (Prim2SF y)) as [c|] eqn:E; [|discriminate].
  apply SFcompare_not_nan in E. rewrite !is_nan_false. exact E.
Qed.

Lemma leb_not_gt (x y : float) : (x <=? y)%float = true -> (y <? x)%float = false.
Proof.
  rewrite FloatAxioms.leb_spec, FloatAxioms.ltb_spec. unfold SFleb, SFltb. intros H.
  destruct (SFcompare (Prim2SF x) (Prim2SF y)) as [c|] eqn:E; [|discriminate].
  rewrite (SFcompare_antisym _ _ _ E). destruct c; [reflexivity..|discriminate].
Qed.

Lemma not_ltb_leb (x y : float) :
  is_nan x = false -> is_nan y = false ->
  (y <? x)%float = false -> (x <=? y)%float = true.
Proof.
  rewrite !is_nan_false, FloatAxioms.leb_spec, FloatAxioms.ltb_spec. unfold SFleb, SFltb.
  intros Hx Hy H.
  destruct (SFcompare_total _ _ Hy Hx) as [c E]. rewrite E in H.
  rewrite (SFcompare_antisym _ _ _ E). destruct c; [reflexivity|discriminate|reflexivity].
Qed.

(** A number that is at least 1 is not a zero. *)
Lemma one_leb_not_zero (x : float) :
  (1 <=? x)%float = true -> (x =? 0)%float = false.
Proof.
  rewrite FloatAxioms.leb_spec, FloatAxioms.eqb_spec. unfold SFleb, SFeqb.
  change (Prim2SF 1) with (S754_finite false 4503599627370496 (-52)).
  change (Prim2SF 0) with (S754_zero false).
  destruct (Prim2SF x) as [s|s| |s m e]; cbn; try discriminate;
    destruct s; try discriminate; reflexivity.
Qed.

(** ** Product rating *)

Section RatingProperties.
Variable is_ObjectId : string -> bool.
Variable StringToNumber : string -> float.
Variable Number_toString : float -> string.

(** The test of the handler lets through exactly the numbers from 1 to
    5. *)
Lemma rating_in_range_accepted (r : float) :
  (1 <=? r)%float = true -> (r <=? 5)%float = true ->
  rating_rejected StringToNumber (VNum r) = false.
Proof.
  intros H1 H5. unfold rating_rejected, falsy, ToNumber.
  rewrite (one_leb_not_zero r H1), (proj2 (leb_not_nan _ _ H1)),
    (leb_not_gt _ _ H1), (leb_not_gt _ _ H5).
  reflexivity.
Qed.

Lemma rating_out_of_range_rejected (r : float) :
  (r <? 1)%float = true \/ (5 <? r)%float = true ->
  rating_rejected StringToNumber (VNum r) = true.
Proof.
  intros [H|H]; unfold rating_rejected, ToNumber; rewrite H;
    rewrite ?orb_true_r; reflexivity.
Qed.

(** The schema accepts a product exactly when its average is a number
    between 0 and 5. *)
Lemma product_validate_accepts (p : Product.t) :
  product_validate Number_toString p = None
  <-> (0 <=? Product.rating_average p)%float
      && (Product.rating_average p <=? 5)%float = true.
Proof.
  unfold product_validate. cbv zeta.
  destruct (0 <=? Product.rating_average p)%float eqn:Hlo.
  - rewrite (proj2 (leb_not_nan _ _ Hlo)). cbn [negb andb].
    destruct (Product.rating_average p <=? 5)%float; cbn [negb];
      split; congruence.
  - destruct (is_nan (Product.rating_average p)); cbn [negb andb];
      split; congruence.
Qed.

Lemma product_validate_refuses (p : Product.t) :
  (0 <=? Product.rating_average p)%float
  && (Product.rating_average p <=? 5)%float = false ->
  exists e, product_validate Number_toString p = Some e.
Proof.
  intros H. destruct (product_validate Number_toString p) as [e|] eqn:E;
    [eauto|].
  apply product_validate_accepts in E. congruence.
Qed.

(** What the handler does with a rating that passes its test, on a
    product that is there and active. *)
Lemma rate_accepted_eq (id : string) (v : Value) (p : Product.t) (w : World) :
  rating_rejected StringToNumber v = false ->
  is_ObjectId id = true ->
  products w !! id = Some p ->
  Product.isActive p = true ->
  rate is_ObjectId StringToNumber Number_toString id (Some v) w
  = let a := or_zero (Product.rating_average p) in
    let c := or_zero (Product.rating_count p) in
    let p' :=
      Product.set_rating
        (divided_by StringToNumber
           (plus StringToNumber Number_toString (a * c)%float v) (c + 1)%float)
        (c + 1)%float p in
    match product_validate Number_toString p' with
    | Some e => (w, inr (res_status_json 500 (JMessage (message e))))
    | None =>
        (MkWorld (orders w) (<[Product._id p := p']> (products w)) (effects w),
         inr (res_json (JProduct p')))
    end.
Proof.
  intros Hv Hoid Hfind Hact. unfold rate, try_catch. rewrite Hv.
  unfold bind, Product_findById. rewrite Hoid, Hfind, Hact. cbn [negb].
  cbv zeta. unfold Product_save.
  destruct (product_validate Number_toString _); reflexivity.
Qed.

(** What a rating request does to the world: nothing, or it replaces the
    rating of the product it found by one the schema accepts. *)
Lemma rate_run (id : string) (rating : option Value) (w : World) :
  fst (rate is_ObjectId StringToNumber Number_toString id rating w) = w
  \/ exists p avg cnt,
      products w !! id = Some p
      /\ product_validate Number_toString (Product.set_rating avg cnt p) = None
      /\ rate is_ObjectId StringToNumber Number_toString id rating w
         = (MkWorld (orders w)
              (<[Product._id p := Product.set_rating avg cnt p]> (products w))
              (effects w),
            inr (res_json (JProduct (Product.set_rating avg cnt p)))).
Proof.
  destruct rating as [v|]; [|left; reflexivity].
  destruct (rating_rejected StringToNumber v) eqn:Hv;
    [left; unfold rate, try_catch; rewrite Hv; reflexivity|].
  destruct (is_ObjectId id) eqn:Hoid;
    [|left; unfold rate, try_catch, bind, Product_findById;
      rewrite Hv, Hoid; reflexivity].
  destruct (products w !! id) as [p|] eqn:Hfind;
    [|left; unfold rate, try_catch, bind, Product_findById;
      rewrite Hv, Hoid, Hfind; reflexivity].
  destruct (Product.isActive p) eqn:Hact;
    [|left; unfold rate, try_catch, bind, Product_findById;
      rewrite Hv, Hoid, Hfind, Hact; reflexivity].
  rewrite (rate_accepted_eq id v p w Hv Hoid Hfind Hact). cbv zeta.
  match goal with
  | |- context [product_validate Number_toString ?p'] =>
      destruct (product_validate Number_toString p') eqn:Hvalid
  end; [left; reflexivity|].
  right. eexists p, _, _. split; [reflexivity|]. split; [exact Hvalid|].
  reflexivity.
Qed.
End RatingProperties.

(** C5, as stated, fails: the schema admits a product whose stored count
    is [-1]; a rating of 5 on it divides by zero, the schema refuses the
    infinite average, the answer is 500 and nothing is stored. *)
Lemma rating_on_miscounted_product_is_refused :
  rate Sample.is_ObjectId Sample.StringToNumber Sample.Number_toString
       Sample.p4 (Some (VNum 5)) Sample.world_miscounted
     = (Sample.world_miscounted,
        inr (res_status_json 500
               (JMessage "Product validation failed: rating.average: Path `rating.average` (Infinity) is more than maximum allowed value (5).")))
  /\ ~ stores_running_average Sample.is_ObjectId Sample.StringToNumber
         Sample.Number_toString Sample.p4 5 Sample.world_miscounted.
Proof.
  assert (Hrun :
    rate Sample.is_ObjectId Sample.StringToNumber Sample.Number_toString
      Sample.p4 (Some (VNum 5)) Sample.world_miscounted
    = (Sample.world_miscounted,
       inr (res_status_json 500
              (JMessage "Product validation failed: rating.average: Path `rating.average` (Infinity) is more than maximum allowed value (5).")))).
  { vm_compute. reflexivity. }
  refine (conj Hrun _).
  intros H.
  destruct (H Sample.miscounted) as (p' & Hfind & _ & Hcount).
  - vm_compute. reflexivity.
  - reflexivity.
  - reflexivity.
  - reflexivity.
  - rewrite Hrun in Hfind. cbn [fst] in Hfind.
    assert (Hp' : p' = Sample.miscounted).
    { vm_compute in Hfind. inversion Hfind. reflexivity. }
    subst p'. apply (f_equal Prim2SF) in Hcount. vm_compute in Hcount.
    discriminate.
Qed.

(** Nor is the rating always a number: the string [4] passes the test of
    the handler and is then appended to the printed product of average and
    count, so that on the sample product (average 4 over 2 ratings) the
    new average is 84 / 3 = 28 instead of 12 / 3 = 4, which the schema
    refuses. *)
Lemma string_rating_is_concatenated :
  rating_rejected Sample.StringToNumber (VStr "4") = false
  /\ rate Sample.is_ObjectId Sample.StringToNumber Sample.Number_toString
       Sample.p1 (Some (VStr "4")) Sample.world
     = (Sample.world,
        inr (res_status_json 500
               (JMessage "Product validation failed: rating.average: Path `rating.average` (28) is more than maximum allowed value (5)."))).
Proof. split; vm_compute; reflexivity. Qed.

(** C5, amended.  A numeric rating [r] between 1 and 5 on a product that
    is there (stored under its identifier, an ObjectId) and active: with
    [a] and [c] the
    stored average and count (a zero or [NaN] read as 0), the handler
    computes, in the arithmetic of the language, the average
    [(a*c + r) / (c+1)] and the count [c+1].  When that average is a
    number between 0 and 5, the product read back from the store carries
    this average and this count and is otherwise as it was, the answer is
    200 with the product, and nothing else is touched; otherwise the
    schema refuses the product, the answer is 500 and nothing changes.  An
    absent rating, and a number below 1 or above 5, are answered 400 and
    change nothing. *)
Theorem rating_update_running_average
  (is_ObjectId : string -> bool) (StringToNumber : string -> float)
  (Number_toString : float -> string) :
  (forall (id : string) (r : float) (p : Product.t) (w : World),
      is_ObjectId id = true ->
      products w !! id = Some p ->
      Product._id p = id ->
      Product.isActive p = true ->
      (1 <=? r)%float = true -> (r <=? 5)%float = true ->
      let a := or_zero (Product.rating_average p) in
      let c := or_zero (Product.rating_count p) in
      let average := ((a * c + r) / (c + 1))%float in
      let run :=
        rate is_ObjectId StringToNumber Number_toString id (Some (VNum r)) w in
      if (0 <=? average)%float && (average <=? 5)%float
      then
        exists p',
          products (fst run) !! id = Some p'
          /\ Product.rating_average p' = average
          /\ Product.rating_count p' = (c + 1)%float
          /\ Product._id p' = id
          /\ Product.name p' = Product.name p
          /\ Product.price p' = Product.price p
          /\ Product.isActive p' = true
          /\ snd run = inr (res_json (JProduct p'))
          /\ (forall other,
                 other <> id -> products (fst run) !! other = products w !! other)
          /\ orders (fst run) = orders w
          /\ effects (fst run) = effects w
      else
        exists msg, run = (w, inr (res_status_json 500 (JMessage msg))))
  /\
  (forall (id : string) (rating : option Value) (w : World),
      rating = None
      \/ (exists r, rating = Some (VNum r)
                    /\ ((r <? 1)%float = true \/ (5 <? r)%float = true)) ->
      rate is_ObjectId StringToNumber Number_toString id rating w
      = (w, inr (res_status_json 400 (JMessage "Rating must be between 1 and 5")))).
Proof.
  split.
  - intros id r p w Hoid Hfind Hid Hact Hr1 Hr5. cbv zeta.
    rewrite (rate_accepted_eq is_ObjectId StringToNumber Number_toString id
               (VNum r) p w
               (rating_in_range_accepted StringToNumber r Hr1 Hr5)
               Hoid Hfind Hact).
    cbv zeta. cbn [plus divided_by ToNumber].
    set (average := ((or_zero (Product.rating_average p)
                      * or_zero (Product.rating_count p) + r)
                     / (or_zero (Product.rating_count p) + 1))%float).
    set (count := (or_zero (Product.rating_count p) + 1)%float).
    destruct ((0 <=? average)%float && (average <=? 5)%float) eqn:Hrange.
    + rewrite (proj2 (product_validate_accepts Number_toString
                        (Product.set_rating average count p)) Hrange).
      cbn [fst snd products orders effects]. rewrite Hid.
      exists (Product.set_rating average count p).
      split; [apply lookup_insert_eq|].
      cbn [Product.set_rating Product.rating_average Product.rating_count
           Product._id Product.name Product.price Product.isActive].
      repeat (split; [first [reflexivity | assumption]|]).
      split; [|split; reflexivity].
      intros other Hne. apply lookup_insert_ne. congruence.
    + destruct (product_validate_refuses Number_toString
                  (Product.set_rating average count p) Hrange) as [e He].
      rewrite He. eexists. reflexivity.
  - intros id rating w [->|[r [-> Hr]]].
    + reflexivity.
    + unfold rate, try_catch.
      rewrite (rating_out_of_range_rejected StringToNumber r Hr).
      reflexivity.
Qed.

Lemma rating_update_running_average_witness :
  (exists p',
      products (fst (rate Sample.is_ObjectId Sample.StringToNumber
                       Sample.Number_toString Sample.p1 (Some (VNum 5))
                       Sample.world)) !! Sample.p1 = Some p'
      /\ Product.rating_average p' = ((4 * 2 + 5) / (2 + 1))%float
      /\ Product.rating_count p' = (2 + 1)%float)
  /\ rate Sample.is_ObjectId Sample.StringToNumber Sample.Number_toString
       Sample.p1 (Some (VNum 6)) Sample.world
     = (Sample.world,
        inr (res_status_json 400 (JMessage "Rating must be between 1 and 5"))).
Proof.
  split.
  - pose proof (proj1 (rating_update_running_average Sample.is_ObjectId
                         Sample.StringToNumber Sample.Number_toString)
                  Sample.p1 5%float Sample.editor Sample.world) as H.
    cbv zeta in H.
    destruct H as (p' & Hfind & Havg & Hcnt & _);
      [reflexivity | vm_compute; reflexivity | reflexivity | reflexivity
      | reflexivity | reflexivity |].
    exists p'. split; [exact Hfind|]. split; [exact Havg | exact Hcnt].
  - apply (proj2 (rating_update_running_average Sample.is_ObjectId
                    Sample.StringToNumber Sample.Number_toString)
             Sample.p1 (Some (VNum 6)) Sample.world).
    right. exists 6%float. split; [reflexivity|]. right. reflexivity.
Defined.

(** On the sample product (average 4 over 2 ratings) a rating of 5 gives
    the double nearest to 13/3 over 3 ratings. *)
Example rate_sample :
  (fun p => (Product.rating_average p, Product.rating_count p))
  <$> products (fst (rate Sample.is_ObjectId Sample.StringToNumber
                       Sample.Number_toString Sample.p1 (Some (VNum 5))
                       Sample.world)) !! Sample.p1
  = Some (0x1.1555555555555p+2%float, 3%float).
Proof. vm_compute. reflexivity. Qed.

(** ** Payment-slip upload *)

Lemma upload_single_accepts (field : string) (part : option File.t) (f : File.t) :
  upload_single field part = inr (Some f) ->
  part = Some f
  /\ startsWith "image/" (File.mimetype f) = true
  /\ File.size f <= 5 * 1024 * 1024.
Proof.
  unfold upload_single, fileFilter. intros H.
  destruct part as [file|]; [|discriminate].
  destruct (negb (String.eqb (File.fieldname file) field)); [discriminate|].
  destruct (startsWith "image/" (File.mimetype file)) eqn:Himg; [|discriminate].
  destruct (limits_fileSize <? File.size file) eqn:Hsize; [discriminate|].
  inversion H; subst. apply Z.ltb_ge in Hsize. auto.
Qed.

(** The handler calls object storage at most once, and only with the file
    multer handed over. *)
Lemma payment_slip_log order_validate cloudinary_upload now uploadedAt id file w w' r :
  payment_slip order_validate cloudinary_upload now uploadedAt id file w = (w', r) ->
  effects w' = effects w
  \/ exists opts f, file = Some f /\ effects w' = effects w ++ [StorageUpload opts f].
Proof.
  unfold payment_slip, try_catch, bind, Order_findById, call, bind, emit, lift,
    Order_save, ret.
  cbn [mbind option_bind orders products effects].
  destruct (orders w !! id) as [order|].
  - destruct (negb (String.eqb (Order.paymentMethod order) "bank_transfer")).
    + intros H; inversion H; subst. left. reflexivity.
    + destruct file as [f|].
      * destruct (cloudinary_upload _ f) as [e|result].
        -- intros H; inversion H; subst. right. eauto.
        -- match goal with |- context [order_validate ?o] =>
             destruct (order_validate o) end;
             intros H; inversion H; subst; right; eauto.
      * intros H; inversion H; subst. left. reflexivity.
  - intros H; inversion H; subst. left. reflexivity.
Qed.

(** By design an accepted slip upload puts the order in review: whatever
    its payment status was, it is pending afterwards. *)
Lemma slip_upload_sets_pending
  order_validate cloudinary_upload now uploadedAt id f o result w :
  orders w !! id = Some o ->
  Order._id o = id ->
  Order.paymentMethod o = "bank_transfer" ->
  cloudinary_upload
    {| resource_type := "image";
       folder := "payment-slips";
       public_id := "slip_" +:+ Order.orderNumber o +:+ "_" +:+ String_of_Z now |}
    f = inr result ->
  order_validate
    (Order.set_paymentStatus "pending"
       (Order.set_paymentSlip
          (Some (PaymentSlip.Build (secure_url result) uploadedAt)) o)) = None ->
  Order.paymentStatus
    <$> orders (fst (payment_slip order_validate cloudinary_upload now uploadedAt
                       id (Some f) w)) !! id
  = Some "pending".
Proof.
  intros Hfind Hid Hbank Hup Hvalid.
  unfold payment_slip, try_catch, bind, Order_findById, call, bind, emit, lift,
    Order_save, ret.
  cbn [mbind option_bind orders products effects].
  rewrite Hfind, Hbank.
  change (negb ("bank_transfer" =? "bank_transfer")%string) with false.
  cbv beta iota. rewrite Hup, Hvalid.
  cbn [fst orders Order._id Order.set_paymentStatus Order.set_paymentSlip].
  rewrite Hid, lookup_insert_eq. reflexivity.
Qed.

(** C8.  A payment-slip upload whose file is not of an image content type
    is refused by the upload middleware: the error goes to the framework,
    the handler does not run, no call to object storage is made and no
    order is modified (the world is left as it was).  Whatever the
    request, every call to object storage it causes carries the uploaded
    file, of an image content type and of at most 5 * 1024 * 1024 bytes. *)
Theorem non_image_slip_rejected_before_storage
  (order_validate : Order.t -> option Exn)
  (cloudinary_upload : UploadOptions -> File.t -> Exn + UploadResult)
  (now uploadedAt : Z) (id : string) (w : World) :
  (forall f : File.t,
      startsWith "image/" (File.mimetype f) = false ->
      exists e,
        post_payment_slip order_validate cloudinary_upload now uploadedAt id
          (Some f) w = (w, inl e))
  /\
  (forall (part : option File.t) (w' : World) (r : Exn + Response),
      post_payment_slip order_validate cloudinary_upload now uploadedAt id part w
      = (w', r) ->
      exists new,
        effects w' = effects w ++ new
        /\ forall opts f,
            In (StorageUpload opts f) new ->
            part = Some f
            /\ startsWith "image/" (File.mimetype f) = true
            /\ File.size f <= 5 * 1024 * 1024).
Proof.
  split.
  - intros f Himg. unfold post_payment_slip, bind, lift, upload_single, fileFilter.
    rewrite Himg.
    destruct (negb (String.eqb (File.fieldname f) "paymentSlip"));
      eexists; reflexivity.
  - intros part w' r Hrun. unfold post_payment_slip, bind, lift in Hrun.
    destruct (upload_single "paymentSlip" part) as [e|file] eqn:Hup.
    + inversion Hrun; subst. exists []. split; [symmetry; apply app_nil_r|].
      intros opts f [].
    + apply payment_slip_log in Hrun.
      destruct Hrun as [Hsame|(opts & f & -> & Hlog)].
      * exists []. split; [rewrite Hsame; symmetry; apply app_nil_r|].
        intros opts f [].
      * exists [StorageUpload opts f]. split; [exact Hlog|].
        intros opts' f' [Heq|[]]. inversion Heq; subst.
        apply (upload_single_accepts "paymentSlip"). exact Hup.
Qed.

Lemma non_image_slip_rejected_before_storage_witness :
  startsWith "image/" (File.mimetype Sample.slip_pdf) = false
  /\ (exists e,
         post_payment_slip Sample.accept Sample.cloud 1700000000000 1700000000500
           "o2" (Some Sample.slip_pdf) Sample.world = (Sample.world, inl e))
  /\ (exists new,
         effects (fst (post_payment_slip Sample.accept Sample.cloud 1700000000000
                         1700000000500 "o2" (Some Sample.slip_png) Sample.world))
         = effects Sample.world ++ new
         /\ forall opts f,
             In (StorageUpload opts f) new ->
             Some Sample.slip_png = Some f
             /\ startsWith "image/" (File.mimetype f) = true
             /\ File.size f <= 5 * 1024 * 1024).
Proof.
  split; [reflexivity|]. split.
  - exact (proj1 (non_image_slip_rejected_before_storage Sample.accept Sample.cloud
                    1700000000000 1700000000500 "o2" Sample.world)
                 Sample.slip_pdf eq_refl).
  - exact (proj2 (non_image_slip_rejected_before_storage Sample.accept Sample.cloud
                    1700000000000 1700000000500 "o2" Sample.world)
                 (Some Sample.slip_png) _ _ (surjective_pairing _)).
Defined.

(** An image of one byte more than the limit is refused as well, and an
    image within the limit reaches object storage. *)
Example slip_over_limit_refused :
  post_payment_slip Sample.accept Sample.cloud 1700000000000 1700000000500
    "o2" (Some Sample.slip_huge) Sample.world
  = (Sample.world, inl (Throw "MulterError" "File too large")).
Proof. vm_compute. reflexivity. Qed.

Example slip_image_stored :
  effects (fst (post_payment_slip Sample.accept Sample.cloud 1700000000000
                  1700000000500 "o2" (Some Sample.slip_png) Sample.world))
  = [StorageUpload
       {| resource_type := "image";
          folder := "payment-slips";
          public_id := "slip_CSH-000002_1700000000000" |}
       Sample.slip_png].
Proof. vm_compute. reflexivity. Qed.

(** ** Contact form *)

Lemma valid_submission_fields name email subject message :
  valid_submission name email subject message = true ->
  truthy name = true /\ truthy email = true /\ truthy subject = true
  /\ truthy message = true /\ emailRegex_test (default "" email) = true.
Proof.
  unfold valid_submission. intros H.
  repeat (apply andb_prop in H; destruct H as [H ?]). auto.
Qed.

(** With the nodemailer package, every valid submission is answered 500:
    the package has no member [createTransporter], the call throws before
    any mail is sent, and the outer [catch] answers. *)
Lemma contact_with_nodemailer_package_fails
  (env : Env) (createTransport : TransportConfig -> Transporter)
  (req_user : option string) (submittedAt : string)
  (name email phone subject message company : option string) (w : World) :
  valid_submission name email subject message = true ->
  contact env (nodemailer_package createTransport) req_user submittedAt
    name email phone subject message company w
  = (MkWorld (orders w) (products w)
       (effects w ++
        [ConsoleError "Contact form error:"
           (TypeError "nodemailer.createTransporter is not a function")]),
     inr (res_status_json 500
            (JMessage "Failed to send message. Please try again later."))).
Proof.
  intros Hvalid.
  destruct (valid_submission_fields _ _ _ _ Hvalid) as (Hn & He & Hs & Hm & Hre).
  unfold contact, try_catch. rewrite Hn, He, Hs, Hm. cbn [negb orb].
  rewrite Hre. reflexivity.
Qed.

(** Where the mail module does have a member [createTransporter], a valid
    submission is answered 200 whether or not the mails can be sent, and
    no document is touched. *)
Lemma contact_mail_failure_swallowed
  (env : Env) (nodemailer : MailModule) (make : TransportConfig -> Transporter)
  (req_user : option string) (submittedAt : string)
  (name email phone subject message company : option string) (w : World) :
  lookup_member "createTransporter" nodemailer = Some make ->
  valid_submission name email subject message = true ->
  exists w',
    contact env nodemailer req_user submittedAt
      name email phone subject message company w
    = (w', inr (res_status_json 200
                  (JContact "Message sent successfully! We will get back to you soon."
                            true)))
    /\ same_store w w'.
Proof.
  intros Hmake Hvalid.
  destruct (valid_submission_fields _ _ _ _ Hvalid) as (Hn & He & Hs & Hm & Hre).
  unfold contact, try_catch. rewrite Hn, He, Hs, Hm. cbn [negb orb].
  rewrite Hre. cbn [negb]. unfold bind at 1. unfold call_member. rewrite Hmake.
  unfold ret at 1.
  destruct (truthy (SMTP_USER env) && truthy (SMTP_PASS env)).
  - unfold bind, try_catch, send, call, bind, emit, lift, ret.
    cbn [orders products effects].
    repeat match goal with
           | |- context [sendMail ?t ?m] => destruct (sendMail t m)
           end;
      eexists; (split; [reflexivity | split; reflexivity]).
  - eexists. split; [reflexivity | split; reflexivity].
Qed.

(** C9.  The contact route with the nodemailer package, on a valid
    submission: the answer is 500, not 200, and no mail is sent. *)
Theorem contact_route_answers_500 :
  valid_submission (Some "Ann") (Some "ann@example.com") (Some "Licence")
    (Some "Hello") = true
  /\ contact Sample.env (nodemailer_package Sample.live_transport) None
       "1/11/2026, 10:00:00 AM" (Some "Ann") (Some "ann@example.com") None
       (Some "Licence") (Some "Hello") None Sample.world
     = (MkWorld (orders Sample.world) (products Sample.world)
          [ConsoleError "Contact form error:"
             (TypeError "nodemailer.createTransporter is not a function")],
        inr (res_status_json 500
               (JMessage "Failed to send message. Please try again later."))).
Proof.
  split; [reflexivity|].
  exact (contact_with_nodemailer_package_fails Sample.env Sample.live_transport
           None "1/11/2026, 10:00:00 AM" (Some "Ann") (Some "ann@example.com") None
           (Some "Licence") (Some "Hello") None Sample.world eq_refl).
Qed.

(** With a mail module that has the member and a transport that refuses
    every message, the same submission is answered 200 and the failure is
    logged. *)
Example contact_dead_transport :
  contact Sample.env [("createTransporter", Sample.dead_transport)] None
    "1/11/2026, 10:00:00 AM" (Some "Ann") (Some "ann@example.com") None
    (Some "Licence") (Some "Hello") None (MkWorld ∅ ∅ [])
  = (MkWorld ∅ ∅
       [MailSend
          {| mail_from := "mailer@example.com";
             mail_to := "admin@ceylonsoftwarehub.com";
             mail_subject := "Contact Form: Licence";
             mail_html :=
               adminEmailContent None "1/11/2026, 10:00:00 AM" "Ann"
                 "ann@example.com" "Licence" "Hello" None None;
             mail_replyTo := Some "ann@example.com" |};
        ConsoleError "Email sending error:" (Error "connect ECONNREFUSED")],
     inr (res_status_json 200
            (JContact "Message sent successfully! We will get back to you soon."
                      true))).
Proof. vm_compute. reflexivity. Qed.

(** * Further properties *)

(** ** Reading and deleting an order *)

(** Case analysis on the hypotheses, then equational reasoning. *)
Ltac break_cases :=
  repeat match goal with
         | H : exists _, _ |- _ => destruct H
         | H : _ /\ _ |- _ => destruct H
         | H : _ \/ _ |- _ => destruct H
         end;
  try discriminate;
  repeat match goal with
         | H : Some _ = Some _ |- _ => inversion H; clear H; subst
         | H : inr _ = inr _ |- _ => inversion H; clear H; subst
         end;
  try congruence; try reflexivity; eauto 10.

(** X1.  Reading an order never changes the world.  The answer is 403
    exactly when the order exists, has an owner, the requester is
    authenticated and is not that owner; in particular an unauthenticated
    requester receives every existing order, and an order without owner
    (a guest order) is given to everyone. *)
Theorem get_order_access (req_user : option string) (id : string) (w : World) :
  fst (get_order req_user id w) = w
  /\ (snd (get_order req_user id w)
      = inr (ans_status_json 403 (PBody (JMessage "Access denied")))
      <-> exists o owner u,
          orders w !! id = Some o /\ Order.user o = Some owner
          /\ req_user = Some u /\ owner <> u)
  /\ (forall o,
         orders w !! id = Some o ->
         req_user = None \/ Order.user o = None \/ Order.user o = req_user ->
         snd (get_order req_user id w) = inr (ans_json (POrderDoc o)))
  /\ (orders w !! id = None ->
      snd (get_order req_user id w)
      = inr (ans_status_json 404 (PBody (JMessage "Order not found")))).
Proof.
  unfold get_order, try_catch, bind, Order_findById, ret.
  cbn [mbind option_bind].
  destruct (orders w !! id) as [o|] eqn:Hfind; cbn [fst snd].
  - destruct (Order.user o) as [owner|] eqn:Hown;
      destruct req_user as [u|]; cbn [negb fst snd];
      try destruct (String.eqb_spec owner u) as [Heq|Hne]; cbn [negb fst snd];
      (split; [reflexivity|]);
      (split; [split; intros; break_cases |]);
      (split; [intros; break_cases | discriminate]).
  - split; [reflexivity|].
    split; [split; intros; break_cases |].
    split; [discriminate | reflexivity].
Qed.

Lemma get_order_access_witness :
  snd (get_order None "o1" Sample.world) = inr (ans_json (POrderDoc Sample.order1))
  /\ snd (get_order (Some "u2") "o1" Sample.world)
     = inr (ans_status_json 403 (PBody (JMessage "Access denied"))).
Proof.
  split.
  - refine (proj1 (proj2 (proj2 (get_order_access None "o1" Sample.world)))
              Sample.order1 _ (or_introl eq_refl)).
    vm_compute. reflexivity.
  - apply (proj2 (proj1 (proj2 (get_order_access (Some "u2") "o1" Sample.world)))).
    exists Sample.order1, "u1", "u2".
    repeat split; first [discriminate | vm_compute; reflexivity].
Defined.

(** X2.  Deleting an order is refused to every requester who is not an
    admin: the answer is 403 and nothing is deleted. *)
Theorem delete_order_admin_only (req_user : option ReqUser.t) (id : string)
  (w : World) :
  (forall u, req_user = Some u -> ReqUser.role u <> "admin") ->
  delete_order req_user id w
  = (w, inr (res_status_json 403 (JMessage "Access denied"))).
Proof.
  intros Hrole. unfold delete_order, try_catch.
  destruct req_user as [u|]; [|reflexivity].
  destruct (String.eqb_spec (ReqUser.role u) "admin") as [Heq|Hne].
  - exfalso. exact (Hrole u eq_refl Heq).
  - reflexivity.
Qed.

Lemma delete_order_admin_only_witness :
  delete_order (Some (ReqUser.Build "u1" "user")) "o1" Sample.world
  = (Sample.world, inr (res_status_json 403 (JMessage "Access denied"))).
Proof.
  apply (delete_order_admin_only (Some (ReqUser.Build "u1" "user")) "o1"
           Sample.world).
  intros u Hu. inversion Hu; subst. discriminate.
Defined.

(** What an admin's deletion does. *)
Lemma delete_order_admin_eq (admin : ReqUser.t) (id : string) (w : World) :
  ReqUser.role admin = "admin" ->
  delete_order (Some admin) id w
  = match orders w !! id with
    | Some o =>
        (MkWorld (delete id (orders w)) (products w) (effects w),
         inr (res_json (JOrder "Order deleted successfully" o)))
    | None => (w, inr (res_status_json 404 (JMessage "Order not found")))
    end.
Proof.
  intros Hadmin. unfold delete_order. rewrite Hadmin.
  change (negb ("admin" =? "admin")%string) with false.
  unfold try_catch, bind, Order_findByIdAndDelete, ret.
  destruct (orders w !! id); reflexivity.
Qed.

(** X3.  An admin's deletion removes exactly the named order: the answer
    carries the removed document, the order can no longer be read (404,
    whoever asks), every other order is still there, and products and the
    call log are untouched.  Deleting an unknown order answers 404 and
    changes nothing. *)
Theorem delete_order_removes_exactly
  (admin : ReqUser.t) (id : string) (w : World) :
  ReqUser.role admin = "admin" ->
  (forall o,
      orders w !! id = Some o ->
      let w' := fst (delete_order (Some admin) id w) in
      snd (delete_order (Some admin) id w)
      = inr (res_json (JOrder "Order deleted successfully" o))
      /\ orders w' !! id = None
      /\ (forall other, other <> id -> orders w' !! other = orders w !! other)
      /\ products w' = products w /\ effects w' = effects w
      /\ forall req_user,
          snd (get_order req_user id w')
          = inr (ans_status_json 404 (PBody (JMessage "Order not found"))))
  /\ (orders w !! id = None ->
      delete_order (Some admin) id w
      = (w, inr (res_status_json 404 (JMessage "Order not found")))).
Proof.
  intros Hadmin. split.
  - intros o Hfind. cbv zeta.
    rewrite (delete_order_admin_eq admin id w Hadmin), Hfind.
    cbn [fst snd orders products effects].
    split; [reflexivity|]. split; [apply lookup_delete_eq|].
    split; [intros other Hne; apply lookup_delete_ne; congruence|].
    split; [reflexivity|]. split; [reflexivity|].
    intros req_user. unfold get_order, try_catch, bind, Order_findById, ret.
    cbn [mbind option_bind orders]. rewrite lookup_delete_eq. reflexivity.
  - intros Hnone. rewrite (delete_order_admin_eq admin id w Hadmin), Hnone.
    reflexivity.
Qed.

Lemma delete_order_removes_exactly_witness :
  ReqUser.role (ReqUser.Build "a1" "admin") = "admin"
  /\ orders (fst (delete_order (Some (ReqUser.Build "a1" "admin")) "o1"
                    Sample.world)) !! "o1" = None
  /\ orders (fst (delete_order (Some (ReqUser.Build "a1" "admin")) "o1"
                    Sample.world)) !! "o2" = Some Sample.order2.
Proof.
  split; [reflexivity|].
  pose proof (proj1 (delete_order_removes_exactly (ReqUser.Build "a1" "admin")
                       "o1" Sample.world eq_refl) Sample.order1) as H.
  cbv zeta in H.
  destruct H as (_ & Hgone & Hothers & _); [vm_compute; reflexivity|].
  split; [exact Hgone|].
  rewrite (Hothers "o2"); [vm_compute; reflexivity | discriminate].
Defined.

(** ** The order collection stays well formed *)

(** The item loop never touches the world.  It throws when an item's
    product identifier is not an ObjectId, it answers 400 when a product
    is missing or inactive, and when it reaches the end the lines it
    returns extend the ones it was given and the total has grown by the
    new lines' products, one after the other. *)
Lemma collect_items_run (is_ObjectId : string -> bool) (items : list ReqItem.t) :
  forall (total : float) (lines : list OrderItem.t) (w : World),
    exists r,
      collect_items is_ObjectId items total lines w = (w, r)
      /\ match r with
         | inl e => True
         | inr (inl response) => res_status response = 400
         | inr (inr (total', lines')) =>
             exists new, lines' = lines ++ new /\ total' = add_lines total new
         end.
Proof.
  induction items as [|it rest IH]; intros total lines w.
  - exists (inr (inr (total, lines))). split; [reflexivity|].
    exists []. split; [symmetry; apply app_nil_r | reflexivity].
  - cbn [collect_items]. unfold bind at 1. unfold Product_findById at 1.
    destruct (is_ObjectId (ReqItem.productId it));
      [|eexists (inl _); split; [reflexivity | exact Logic.I]].
    destruct (products w !! ReqItem.productId it) as [p|].
    + destruct (Product.isActive p).
      * destruct (IH (total + Product.price p * ReqItem.quantity it)%float
                     (lines ++ [OrderItem.Build (Product._id p) (Product.name p)
                                  (Product.price p) (ReqItem.quantity it)]) w)
          as (r & Hrun & Hr).
        exists r. split; [exact Hrun|].
        destruct r as [e|[response|[total' lines']]]; [exact Hr | exact Hr |].
        destruct Hr as (new & Hlines & Hsum).
        exists (OrderItem.Build (Product._id p) (Product.name p)
                  (Product.price p) (ReqItem.quantity it) :: new).
        split; [rewrite Hlines, <- app_assoc; reflexivity | exact Hsum].
      * eexists (inr (inl _)). split; reflexivity.
    + eexists (inr (inl _)). split; reflexivity.
Qed.

(** Order creation, given the outcome of the item loop. *)
Lemma create_order_eq
  (order_validate : Order.t -> option Exn) (is_ObjectId : string -> bool)
  (new_id : string) (req_user : option string) (items : list ReqItem.t)
  (guestInfo : option string) (paymentMethod shippingAddress : string)
  (w : World) (r : Exn + (Response + float * list OrderItem.t)) :
  collect_items is_ObjectId items 0%float [] w = (w, r) ->
  create_order order_validate is_ObjectId new_id req_user items guestInfo
    paymentMethod shippingAddress w
  = match r with
    | inl e => (w, inr (res_status_json 400 (JMessage (message e))))
    | inr (inl response) => (w, inr response)
    | inr (inr (total, lines)) =>
        let o :=
          new_Order new_id req_user
            (match req_user with Some _ => None | None => guestInfo end)
            lines total paymentMethod shippingAddress
            (order_number_for (size (orders w))) in
        match order_validate o with
        | Some e => (w, inr (res_status_json 400 (JMessage (message e))))
        | None =>
            (MkWorld (<[new_id := o]> (orders w)) (products w) (effects w),
             inr (res_status_json 201 (JOrder "Order created successfully" o)))
        end
    end.
Proof.
  intros Hrun. unfold create_order, try_catch. unfold bind at 1. rewrite Hrun.
  destruct r as [e|[response|[total lines]]]; [reflexivity | reflexivity |].
  unfold bind, Order_countDocuments, Order_save, ret, order_number_for.
  cbv beta iota zeta.
  match goal with |- context [order_validate ?o] =>
    destruct (order_validate o) end; reflexivity.
Qed.

(** Order creation either answers 400 and stores nothing, or stores one
    order, under the identifier it was given, whose total is the sum of
    its lines. *)
Lemma create_order_run
  (order_validate : Order.t -> option Exn) (is_ObjectId : string -> bool)
  (new_id : string) (req_user : option string) (items : list ReqItem.t)
  (guestInfo : option string) (paymentMethod shippingAddress : string)
  (w : World) :
  (exists response,
      create_order order_validate is_ObjectId new_id req_user items guestInfo
        paymentMethod shippingAddress w = (w, inr response)
      /\ res_status response = 400)
  \/ (exists o,
         Order._id o = new_id
         /\ Order.totalAmount o = sum_lines (Order.items o)
         /\ create_order order_validate is_ObjectId new_id req_user items
              guestInfo paymentMethod shippingAddress w
            = (MkWorld (<[new_id := o]> (orders w)) (products w) (effects w),
               inr (res_status_json 201 (JOrder "Order created successfully" o)))).
Proof.
  destruct (collect_items_run is_ObjectId items 0%float [] w) as (r & Hrun & Hr).
  rewrite (create_order_eq order_validate is_ObjectId new_id req_user items
             guestInfo paymentMethod shippingAddress w r Hrun).
  destruct r as [e|[response|[total lines]]].
  - left. eexists. split; reflexivity.
  - left. exists response. split; [reflexivity | exact Hr].
  - destruct Hr as (new & Hlines & Hsum). cbn [app] in Hlines. subst lines total.
    cbv zeta.
    match goal with |- context [order_validate ?o] =>
      destruct (order_validate o) eqn:Hvalid; [left | right; exists o] end.
    + eexists. split; reflexivity.
    + split; [reflexivity|]. split; reflexivity.
Qed.

Lemma log_insensitive_store_consistent : log_insensitive store_consistent.
Proof. intros w l H. exact H. Qed.

Lemma store_consistent_insert w id o ps l :
  store_consistent w ->
  Order._id o = id ->
  Order.totalAmount o = sum_lines (Order.items o) ->
  store_consistent (MkWorld (<[id := o]> (orders w)) ps l).
Proof.
  intros Hw Hid Hsum. apply map_Forall_insert_2; [split; assumption | exact Hw].
Qed.

Lemma store_consistent_delete w id ps l :
  store_consistent w -> store_consistent (MkWorld (delete id (orders w)) ps l).
Proof.
  intros Hw i o Hfind. cbn in Hfind.
  apply lookup_delete_Some in Hfind. apply Hw. apply Hfind.
Qed.

(** Looking an order up hands a well-formed document to what follows. *)
Lemma preserves_bind_find_consistent {B} (oid : option string)
  (k : option Order.t -> M B) :
  (forall o,
      Order.totalAmount o = sum_lines (Order.items o) ->
      preserves store_consistent (k (Some o))) ->
  preserves store_consistent (k None) ->
  preserves store_consistent (bind (Order_findById oid) k).
Proof.
  intros Hsome Hnone w w' r Hw Hrun.
  unfold bind, Order_findById in Hrun.
  destruct (oid ≫= _) as [o|] eqn:Hfind.
  - destruct oid as [i|]; [|discriminate]. cbn in Hfind.
    eapply Hsome; [|exact Hw|exact Hrun]. apply (Hw i o Hfind).
  - eapply Hnone; eauto.
Qed.

Lemma preserves_Order_save_consistent order_validate o :
  Order.totalAmount o = sum_lines (Order.items o) ->
  preserves store_consistent (Order_save order_validate o).
Proof.
  intros Hsum w w' r Hw Hrun. unfold Order_save in Hrun.
  destruct (order_validate o); inversion Hrun; subst; [exact Hw|].
  apply store_consistent_insert; auto.
Qed.

(** The fields the admin's update writes are the two statuses and the two
    time stamps. *)
Lemma apply_updateData_frame now orderStatus paymentStatus o :
  let o' := apply_updateData now orderStatus paymentStatus o in
  Order._id o' = Order._id o
  /\ Order.user o' = Order.user o
  /\ Order.guestInfo o' = Order.guestInfo o
  /\ Order.items o' = Order.items o
  /\ Order.totalAmount o' = Order.totalAmount o
  /\ Order.shippingAddress o' = Order.shippingAddress o
  /\ Order.paymentMethod o' = Order.paymentMethod o
  /\ Order.paymentSlip o' = Order.paymentSlip o
  /\ Order.stripePaymentIntent o' = Order.stripePaymentIntent o
  /\ Order.orderNumber o' = Order.orderNumber o
  /\ Order.notes o' = Order.notes o.
Proof.
  unfold apply_updateData.
  destruct orderStatus as [s|], paymentStatus as [p|];
    repeat match goal with
           | |- context [if ?b then _ else _] => destruct b
           end;
    cbn; repeat split; reflexivity.
Qed.

(** One step of a proof that the collection stays well formed. *)
Ltac consistent_step :=
  lazymatch goal with
  | |- preserves store_consistent (bind (Order_findById _) _) =>
      apply preserves_bind_find_consistent; [intros ? ? |]; cbv beta iota
  | |- preserves store_consistent (Order_save _ _) =>
      apply preserves_Order_save_consistent; try assumption
  | |- preserves store_consistent (if ?b then _ else _) => destruct b
  | _ => preserve_step
  end.

Ltac consistent := repeat consistent_step.

Lemma mark_paid_if_found_consistent order_validate oid :
  preserves store_consistent (mark_paid_if_found order_validate oid).
Proof.
  pose proof log_insensitive_store_consistent as Hlog.
  unfold mark_paid_if_found. consistent.
Qed.

(** X4.  Every route that writes orders keeps the collection well formed:
    if every order is stored under its own identifier with a total equal
    to the sum of its lines as the language adds them up (each product a
    double, added from 0 in the order of the lines), this is still so
    after the route has run, whatever it was given and whether it answered
    or failed.  The routes are order creation, create-payment-intent,
    confirm-payment and the webhook (in any scope), payment-slip upload,
    the admin's status update and slip verification, and deletion. *)
Theorem routes_keep_store_consistent
  (env : Env) (new_Stripe : option string -> Exn + Stripe.Client)
  (order_validate : Order.t -> option Exn) (is_ObjectId : string -> bool)
  (cloudinary_upload : UploadOptions -> File.t -> Exn + UploadResult)
  (sc : Scope) :
  (forall new_id req_user items guestInfo paymentMethod shippingAddress,
      preserves store_consistent
        (create_order order_validate is_ObjectId new_id req_user items guestInfo
           paymentMethod shippingAddress))
  /\ (forall req_user orderId,
         preserves store_consistent
           (create_payment_intent env new_Stripe order_validate req_user orderId))
  /\ (forall pid,
         preserves store_consistent (confirm_payment order_validate sc pid))
  /\ (forall body sig,
         preserves store_consistent (webhook env order_validate sc body sig))
  /\ (forall now uploadedAt id part,
         preserves store_consistent
           (post_payment_slip order_validate cloudinary_upload now uploadedAt
              id part))
  /\ (forall now id orderStatus paymentStatus,
         preserves store_consistent
           (update_order_status now id orderStatus paymentStatus))
  /\ (forall id approved notes,
         preserves store_consistent
           (verify_payment_slip order_validate id approved notes))
  /\ (forall req_user id, preserves store_consistent (delete_order req_user id)).
Proof.
  pose proof log_insensitive_store_consistent as Hlog.
  pose proof (mark_paid_if_found_consistent order_validate) as Hmark.
  refine (conj _ (conj _ (conj _ (conj _ (conj _ (conj _ (conj _ _))))))).
  - intros new_id req_user items guestInfo paymentMethod shippingAddress
      w w' r Hw Hrun.
    destruct (create_order_run order_validate is_ObjectId new_id req_user items
                guestInfo paymentMethod shippingAddress w)
      as [(response & Heq & _)|(o & Hid & Hsum & Heq)];
      rewrite Heq in Hrun; inversion Hrun; subst; [exact Hw|].
    apply store_consistent_insert; [exact Hw | reflexivity | exact Hsum].
  - intros req_user orderId. unfold create_payment_intent. consistent.
  - intros pid. unfold confirm_payment. consistent; apply Hmark.
  - intros body sig. unfold webhook. consistent; apply Hmark.
  - intros now uploadedAt id part.
    unfold post_payment_slip, payment_slip. consistent.
  - intros now id orderStatus paymentStatus w w' r Hw Hrun.
    unfold update_order_status, try_catch, bind, Order_findByIdAndUpdate, ret
      in Hrun.
    destruct (orders w !! id) as [o|] eqn:Hfind; inversion Hrun; subst;
      [|exact Hw].
    destruct (Hw id o Hfind) as [Hid Hsum].
    destruct (apply_updateData_frame now orderStatus paymentStatus o)
      as (Hid' & _ & _ & Hitems & Htotal & _).
    apply store_consistent_insert; [exact Hw | congruence |].
    rewrite Hitems, Htotal. exact Hsum.
  - intros id approved notes. unfold verify_payment_slip. consistent.
    destruct (truthy notes); assumption.
  - intros req_user id w w' r Hw Hrun.
    unfold delete_order, try_catch, bind, Order_findByIdAndDelete, ret in Hrun.
    destruct (match req_user with
              | Some u => negb (ReqUser.role u =? "admin")%string
              | None => true
              end); [inversion Hrun; subst; exact Hw|].
    destruct (orders w !! id); inversion Hrun; subst; [|exact Hw].
    apply store_consistent_delete. exact Hw.
Qed.

Lemma store_consistent_sample : store_consistent Sample.world.
Proof.
  unfold store_consistent, Sample.world. cbn [orders].
  apply map_Forall_insert_2; [split; [reflexivity | vm_compute; reflexivity]|].
  apply map_Forall_insert_2; [split; [reflexivity | vm_compute; reflexivity]|].
  apply map_Forall_empty.
Qed.

Lemma routes_keep_store_consistent_witness :
  store_consistent Sample.world
  /\ store_consistent
       (fst (post_payment_slip Sample.accept Sample.cloud 1700000000000
               1700000000500 "o2" (Some Sample.slip_png) Sample.world)).
Proof.
  split; [exact store_consistent_sample|].
  exact (proj1 (proj2 (proj2 (proj2 (proj2
           (routes_keep_store_consistent Sample.env
              (Sample.new_Stripe (Sample.client "succeeded")) Sample.accept
              Sample.is_ObjectId Sample.cloud [])))))
           1700000000000 1700000000500 "o2" (Some Sample.slip_png)
           Sample.world _ _ store_consistent_sample (surjective_pairing _)).
Defined.

(** X5.  Creating an order under a fresh identifier and then deleting that
    identifier as an admin leaves the order collection and the catalogue
    exactly as they were, whether or not the creation went through. *)
Theorem create_then_delete_restores
  (order_validate : Order.t -> option Exn) (is_ObjectId : string -> bool)
  (admin : ReqUser.t)
  (new_id : string) (req_user : option string) (items : list ReqItem.t)
  (guestInfo : option string) (paymentMethod shippingAddress : string)
  (w : World) :
  ReqUser.role admin = "admin" ->
  orders w !! new_id = None ->
  same_store w
    (fst (delete_order (Some admin) new_id
            (fst (create_order order_validate is_ObjectId new_id req_user items
                    guestInfo paymentMethod shippingAddress w)))).
Proof.
  intros Hadmin Hfresh.
  rewrite (delete_order_admin_eq admin new_id _ Hadmin).
  destruct (create_order_run order_validate is_ObjectId new_id req_user items
              guestInfo paymentMethod shippingAddress w)
    as [(response & Heq & _)|(o & Hid & Hsum & Heq)]; rewrite Heq; cbn [fst orders].
  - rewrite Hfresh. split; reflexivity.
  - rewrite lookup_insert_eq. cbn [fst orders products]. split; [|reflexivity].
    rewrite delete_insert_eq. apply delete_id. exact Hfresh.
Qed.

Lemma create_then_delete_restores_witness :
  same_store Sample.world
    (fst (delete_order (Some (ReqUser.Build "a1" "admin")) "o3"
            (fst (create_order Sample.accept Sample.is_ObjectId "o3" None
                    [ReqItem.Build Sample.p1 2; ReqItem.Build Sample.p2 1]
                    (Some "guest@example.com") "card" "Galle" Sample.world)))).
Proof.
  apply (create_then_delete_restores Sample.accept Sample.is_ObjectId
           (ReqUser.Build "a1" "admin")
           "o3" None [ReqItem.Build Sample.p1 2; ReqItem.Build Sample.p2 1]
           (Some "guest@example.com") "card" "Galle" Sample.world).
  - reflexivity.
  - vm_compute. reflexivity.
Defined.

(** ** The bank-transfer review *)

Lemma verify_payment_slip_eq order_validate id approved notes w :
  verify_payment_slip order_validate id approved notes w
  = match orders w !! id with
    | None => (w, inr (res_status_json 404 (JMessage "Order not found")))
    | Some o =>
        match order_validate (decided approved notes o) with
        | Some e => (w, inr (res_status_json 500 (JMessage (message e))))
        | None =>
            (MkWorld (<[Order._id o := decided approved notes o]> (orders w))
               (products w) (effects w),
             inr (res_json
                    (JOrder ("Payment "
                             +:+ (if approved then "approved" else "rejected")
                             +:+ " successfully")
                            (decided approved notes o))))
        end
    end.
Proof.
  unfold verify_payment_slip, try_catch, bind, Order_findById, Order_save, ret.
  cbn [mbind option_bind]. destruct (orders w !! id) as [o|]; [|reflexivity].
  fold (decided approved notes o). cbv zeta.
  change (if truthy notes
          then Order.set_notes notes
                 (Order.set_paymentStatus (if approved then "paid" else "failed") o)
          else Order.set_paymentStatus (if approved then "paid" else "failed") o)
    with (decided approved notes o).
  destruct (order_validate (decided approved notes o)); [reflexivity|].
  unfold decided at 1. destruct (truthy notes); reflexivity.
Qed.

Lemma decided_idem approved notes o :
  decided approved notes (decided approved notes o) = decided approved notes o.
Proof. unfold decided. destruct (truthy notes), approved; reflexivity. Qed.

Lemma decided_status approved notes o :
  Order.paymentStatus (decided approved notes o)
  = if approved then "paid" else "failed".
Proof. unfold decided. destruct (truthy notes), approved; reflexivity. Qed.

Lemma decided_id approved notes o :
  Order._id (decided approved notes o) = Order._id o.
Proof. unfold decided. destruct (truthy notes); reflexivity. Qed.

(** X6.  The admin's decision alone fixes the payment status: whatever it
    was before (pending, paid or failed), it is [paid] after an approval
    and [failed] after a rejection, so a later rejection overrides an
    earlier approval; repeating the same decision changes nothing more.
    (The order is stored under its identifier and the schema accepts the
    decided order.) *)
Theorem verification_decides_status
  (order_validate : Order.t -> option Exn) (id : string) (approved : bool)
  (notes : option string) (o : Order.t) (w : World) :
  orders w !! id = Some o ->
  Order._id o = id ->
  order_validate (decided approved notes o) = None ->
  let w1 := fst (verify_payment_slip order_validate id approved notes w) in
  Order.paymentStatus <$> orders w1 !! id
  = Some (if approved then "paid" else "failed")
  /\ fst (verify_payment_slip order_validate id approved notes w1) = w1.
Proof.
  intros Hfind Hid Hvalid. cbv zeta.
  rewrite (verify_payment_slip_eq order_validate id approved notes w).
  rewrite Hfind, Hvalid, Hid. cbn [fst orders]. split.
  - rewrite lookup_insert_eq. cbn. rewrite decided_status. reflexivity.
  - rewrite verify_payment_slip_eq. cbn [orders products effects].
    rewrite lookup_insert_eq, decided_idem, Hvalid, decided_id, Hid.
    cbn [fst]. rewrite insert_insert_eq. reflexivity.
Qed.

Lemma verification_decides_status_witness :
  Order.paymentStatus Sample.order2 = "paid"
  /\ Order.paymentStatus
     <$> orders (fst (verify_payment_slip Sample.accept "o2" false None
                        Sample.world)) !! "o2"
     = Some "failed".
Proof.
  split; [reflexivity|].
  refine (proj1 (verification_decides_status Sample.accept "o2" false None
                   Sample.order2 Sample.world _ eq_refl eq_refl)).
  vm_compute. reflexivity.
Defined.

(** What the slip handler does, case by case. *)
Lemma payment_slip_eq order_validate cloudinary_upload now uploadedAt id file w :
  payment_slip order_validate cloudinary_upload now uploadedAt id file w
  = match orders w !! id with
    | None => (w, inr (res_status_json 404 (JMessage "Order not found")))
    | Some o =>
        if negb (String.eqb (Order.paymentMethod o) "bank_transfer")
        then (w, inr (res_status_json 400
                        (JMessage "Payment slip upload only allowed for bank transfer orders")))
        else
          match file with
          | None => (w, inr (res_status_json 400 (JMessage "No file uploaded")))
          | Some f =>
              let logged :=
                effects w ++ [StorageUpload (slip_options now o) f] in
              match cloudinary_upload (slip_options now o) f with
              | inl e =>
                  (MkWorld (orders w) (products w) logged,
                   inr (res_status_json 500 (JMessage (message e))))
              | inr result =>
                  match order_validate (with_slip result uploadedAt o) with
                  | Some e =>
                      (MkWorld (orders w) (products w) logged,
                       inr (res_status_json 500 (JMessage (message e))))
                  | None =>
                      (MkWorld
                         (<[Order._id o := with_slip result uploadedAt o]> (orders w))
                         (products w) logged,
                       inr (res_json (JOrder "Payment slip uploaded successfully"
                                        (with_slip result uploadedAt o))))
                  end
              end
          end
    end.
Proof.
  unfold payment_slip, try_catch, bind, Order_findById, call, bind, emit, lift,
    Order_save, ret, slip_options, with_slip.
  cbn [mbind option_bind orders products effects].
  destruct (orders w !! id) as [o|]; [|reflexivity].
  destruct (negb (String.eqb (Order.paymentMethod o) "bank_transfer"));
    [reflexivity|].
  destruct file as [f|]; [|reflexivity]. cbv zeta.
  destruct (cloudinary_upload _ f) as [e|result]; [reflexivity|].
  match goal with |- context [order_validate ?o'] =>
    destruct (order_validate o') end; reflexivity.
Qed.

Lemma upload_single_image (f : File.t) :
  File.fieldname f = "paymentSlip" ->
  startsWith "image/" (File.mimetype f) = true ->
  File.size f <= 5 * 1024 * 1024 ->
  upload_single "paymentSlip" (Some f) = inr (Some f).
Proof.
  intros Hfield Himg Hsize. unfold upload_single, fileFilter.
  rewrite Hfield, Himg.
  change (negb ("paymentSlip" =? "paymentSlip")%string) with false.
  cbv beta iota.
  destruct (limits_fileSize <? File.size f) eqn:E; [|reflexivity].
  apply Z.ltb_lt in E. unfold limits_fileSize in E. lia.
Qed.

(** X7.  The order is written only after object storage has accepted the
    slip.  An unknown order is answered 404, an order that is not a bank
    transfer 400, a request without file 400, all without any call to
    storage; when storage refuses the file the answer is 500 carrying its
    error, storage was called once, and the order collection is as it
    was. *)
Theorem slip_written_only_after_storage
  (order_validate : Order.t -> option Exn)
  (cloudinary_upload : UploadOptions -> File.t -> Exn + UploadResult)
  (now uploadedAt : Z) (id : string) (file : option File.t) (w : World) :
  (orders w !! id = None ->
   payment_slip order_validate cloudinary_upload now uploadedAt id file w
   = (w, inr (res_status_json 404 (JMessage "Order not found"))))
  /\ (forall o,
         orders w !! id = Some o ->
         Order.paymentMethod o <> "bank_transfer" ->
         payment_slip order_validate cloudinary_upload now uploadedAt id file w
         = (w, inr (res_status_json 400
                      (JMessage "Payment slip upload only allowed for bank transfer orders"))))
  /\ (forall o,
         orders w !! id = Some o ->
         Order.paymentMethod o = "bank_transfer" ->
         file = None ->
         payment_slip order_validate cloudinary_upload now uploadedAt id file w
         = (w, inr (res_status_json 400 (JMessage "No file uploaded"))))
  /\ (forall o f e,
         orders w !! id = Some o ->
         Order.paymentMethod o = "bank_transfer" ->
         file = Some f ->
         cloudinary_upload (slip_options now o) f = inl e ->
         payment_slip order_validate cloudinary_upload now uploadedAt id file w
         = (MkWorld (orders w) (products w)
              (effects w ++ [StorageUpload (slip_options now o) f]),
            inr (res_status_json 500 (JMessage (message e))))).
Proof.
  rewrite payment_slip_eq.
  refine (conj _ (conj _ (conj _ _))).
  - intros ->. reflexivity.
  - intros o -> Hpm.
    destruct (String.eqb_spec (Order.paymentMethod o) "bank_transfer");
      [contradiction | reflexivity].
  - intros o -> -> ->. reflexivity.
  - intros o f e -> -> -> Hup. cbv zeta.
    change (negb ("bank_transfer" =? "bank_transfer")%string) with false.
    cbv beta iota. rewrite Hup. reflexivity.
Qed.

Lemma slip_written_only_after_storage_witness :
  Order.paymentMethod Sample.order1 <> "bank_transfer"
  /\ payment_slip Sample.accept Sample.cloud 1700000000000 1700000000500 "o1"
       (Some Sample.slip_png) Sample.world
     = (Sample.world,
        inr (res_status_json 400
               (JMessage "Payment slip upload only allowed for bank transfer orders"))).
Proof.
  assert (H : Order.paymentMethod Sample.order1 <> "bank_transfer")
    by discriminate.
  split; [exact H|].
  refine (proj1 (proj2 (slip_written_only_after_storage Sample.accept Sample.cloud
                          1700000000000 1700000000500 "o1"
                          (Some Sample.slip_png) Sample.world))
            Sample.order1 _ H).
  vm_compute. reflexivity.
Defined.

(** X8.  The bank-transfer review end to end: once an accepted image has
    been uploaded for a bank-transfer order the order is pending and
    carries the slip's address and upload time; after the admin's
    decision it is paid (approval) or failed (rejection), still carries
    the slip, and its lines and total are those it had before. *)
Theorem slip_review_workflow
  (order_validate : Order.t -> option Exn)
  (cloudinary_upload : UploadOptions -> File.t -> Exn + UploadResult)
  (now uploadedAt : Z) (id : string) (f : File.t) (o : Order.t)
  (result : UploadResult) (approved : bool) (notes : option string)
  (w : World) :
  orders w !! id = Some o ->
  Order._id o = id ->
  Order.paymentMethod o = "bank_transfer" ->
  File.fieldname f = "paymentSlip" ->
  startsWith "image/" (File.mimetype f) = true ->
  File.size f <= 5 * 1024 * 1024 ->
  cloudinary_upload (slip_options now o) f = inr result ->
  order_validate (with_slip result uploadedAt o) = None ->
  order_validate (decided approved notes (with_slip result uploadedAt o)) = None ->
  let w1 :=
    fst (post_payment_slip order_validate cloudinary_upload now uploadedAt id
           (Some f) w) in
  let w2 := fst (verify_payment_slip order_validate id approved notes w1) in
  Order.paymentStatus <$> orders w1 !! id = Some "pending"
  /\ exists o2,
      orders w2 !! id = Some o2
      /\ Order.paymentStatus o2 = (if approved then "paid" else "failed")
      /\ Order.paymentSlip o2
         = Some (PaymentSlip.Build (secure_url result) uploadedAt)
      /\ Order.items o2 = Order.items o
      /\ Order.totalAmount o2 = Order.totalAmount o.
Proof.
  intros Hfind Hid Hbank Hfield Himg Hsize Hup Hv1 Hv2. cbv zeta.
  unfold post_payment_slip, bind, lift.
  rewrite (upload_single_image f Hfield Himg Hsize).
  rewrite payment_slip_eq, Hfind, Hbank.
  change (negb ("bank_transfer" =? "bank_transfer")%string) with false.
  cbv beta iota zeta. rewrite Hup, Hv1, Hid. cbn [fst orders].
  split; [rewrite lookup_insert_eq; reflexivity|].
  rewrite verify_payment_slip_eq. cbn [orders products effects].
  rewrite lookup_insert_eq, Hv2. cbn [fst orders].
  exists (decided approved notes (with_slip result uploadedAt o)).
  change (Order._id (with_slip result uploadedAt o)) with (Order._id o).
  rewrite Hid, lookup_insert_eq.
  split; [reflexivity|]. split; [apply decided_status|].
  unfold decided. destruct (truthy notes); repeat split; reflexivity.
Qed.

Lemma slip_review_workflow_witness :
  let w1 :=
    fst (post_payment_slip Sample.accept Sample.cloud 1700000000000
           1700000000500 "o2" (Some Sample.slip_png) Sample.world) in
  let w2 := fst (verify_payment_slip Sample.accept "o2" true None w1) in
  Order.paymentStatus <$> orders w1 !! "o2" = Some "pending"
  /\ exists o2,
      orders w2 !! "o2" = Some o2
      /\ Order.paymentStatus o2 = "paid"
      /\ Order.paymentSlip o2
         = Some (PaymentSlip.Build
                   "https://cdn.example/slip_CSH-000002_1700000000000"
                   1700000000500)
      /\ Order.items o2 = Order.items Sample.order2
      /\ Order.totalAmount o2 = Order.totalAmount Sample.order2.
Proof.
  refine (slip_review_workflow Sample.accept Sample.cloud 1700000000000
            1700000000500 "o2" Sample.slip_png Sample.order2
            {| secure_url := "https://cdn.example/slip_CSH-000002_1700000000000" |}
            true None Sample.world _ eq_refl eq_refl eq_refl eq_refl _ eq_refl
            eq_refl eq_refl).
  - vm_compute. reflexivity.
  - vm_compute. discriminate.
Defined.

(** X9.  No payment intent is requested for an order the caller does not
    own: with a working gateway client, an unknown or missing order
    identifier is answered 404, another user's order 403, and a guest
    order (no owner) 500 (reading the owner fails); in each case the
    gateway is not called and nothing is written. *)
Theorem payment_intent_only_for_owner
  (env : Env) (new_Stripe : option string -> Exn + Stripe.Client)
  (order_validate : Order.t -> option Exn) (c : Stripe.Client)
  (req_user : string) (orderId : option string) (w : World) :
  new_Stripe (STRIPE_SECRET_KEY env) = inr c ->
  (orderId ≫= (fun i => orders w !! i) = None ->
   create_payment_intent env new_Stripe order_validate req_user orderId w
   = (w, inr (res_status_json 404 (JMessage "Order not found"))))
  /\ (forall o owner,
         orderId ≫= (fun i => orders w !! i) = Some o ->
         Order.user o = Some owner ->
         owner <> req_user ->
         create_payment_intent env new_Stripe order_validate req_user orderId w
         = (w, inr (res_status_json 403 (JMessage "Access denied"))))
  /\ (forall o,
         orderId ≫= (fun i => orders w !! i) = Some o ->
         Order.user o = None ->
         create_payment_intent env new_Stripe order_validate req_user orderId w
         = (w, inr (res_status_json 500
                      (JMessage "Cannot read properties of null (reading 'toString')")))).
Proof.
  intros Hnew.
  unfold create_payment_intent, try_catch, bind, lift, Order_findById.
  rewrite Hnew. cbv beta iota.
  refine (conj _ (conj _ _)).
  - intros ->. reflexivity.
  - intros o owner -> Hown Hne. rewrite Hown. cbn [user_toString ret].
    destruct (String.eqb_spec owner req_user); [contradiction | reflexivity].
  - intros o -> Hown. rewrite Hown. reflexivity.
Qed.

Lemma payment_intent_only_for_owner_witness :
  create_payment_intent Sample.env (Sample.new_Stripe (Sample.client "succeeded"))
    Sample.accept "u2" (Some "o1") Sample.world
  = (Sample.world, inr (res_status_json 403 (JMessage "Access denied"))).
Proof.
  refine (proj1 (proj2 (payment_intent_only_for_owner Sample.env
                          (Sample.new_Stripe (Sample.client "succeeded"))
                          Sample.accept (Sample.client "succeeded") "u2"
                          (Some "o1") Sample.world eq_refl))
            Sample.order1 "u1" _ eq_refl _).
  - vm_compute. reflexivity.
  - discriminate.
Defined.

(** ** The admin's status update *)

(** X10.  The admin's status update answers 404 for an unknown order and
    changes nothing.  For a known order it rewrites that one document
    only, and in it only the two statuses and the two time stamps: an
    absent or empty status leaves the stored one, a non-empty status is
    stored as given (no validation), [processedAt] is set exactly when the
    order status given is [processing] and [completedAt] exactly when it
    is [completed]; owner, lines, total, slip, intent identifier and order
    number are never touched. *)
Theorem update_order_status_frame
  (now : Z) (id : string) (orderStatus paymentStatus : option string)
  (w : World) :
  (orders w !! id = None ->
   update_order_status now id orderStatus paymentStatus w
   = (w, inr (res_status_json 404 (JMessage "Order not found"))))
  /\ (forall o,
         orders w !! id = Some o ->
         exists o',
           update_order_status now id orderStatus paymentStatus w
           = (MkWorld (<[id := o']> (orders w)) (products w) (effects w),
              inr (res_json (JOrder "Order updated successfully" o')))
           /\ Order.orderStatus o'
              = (if truthy orderStatus then default "" orderStatus
                 else Order.orderStatus o)
           /\ Order.paymentStatus o'
              = (if truthy paymentStatus then default "" paymentStatus
                 else Order.paymentStatus o)
           /\ Order.processedAt o'
              = (if bool_decide (orderStatus = Some "processing") then Some now
                 else Order.processedAt o)
           /\ Order.completedAt o'
              = (if bool_decide (orderStatus = Some "completed") then Some now
                 else Order.completedAt o)
           /\ Order._id o' = Order._id o
           /\ Order.user o' = Order.user o
           /\ Order.items o' = Order.items o
           /\ Order.totalAmount o' = Order.totalAmount o
           /\ Order.paymentSlip o' = Order.paymentSlip o
           /\ Order.stripePaymentIntent o' = Order.stripePaymentIntent o
           /\ Order.orderNumber o' = Order.orderNumber o).
Proof.
  unfold update_order_status, try_catch, bind, Order_findByIdAndUpdate, ret.
  split.
  - intros ->. reflexivity.
  - intros o ->. eexists. split; [reflexivity|].
    unfold apply_updateData.
    destruct orderStatus as [s|], paymentStatus as [p|]; cbn [truthy default];
      repeat match goal with
             | |- context [negb (?a =? "")%string] =>
                 destruct (negb (a =? "")%string)
             end;
      repeat case_bool_decide; simplify_eq;
      repeat split; reflexivity.
Qed.

Lemma update_order_status_frame_witness :
  exists o',
    update_order_status 1700000000000 "o1" (Some "processing") (Some "") Sample.world
    = (MkWorld (<["o1" := o']> (orders Sample.world)) (products Sample.world)
         (effects Sample.world),
       inr (res_json (JOrder "Order updated successfully" o')))
    /\ Order.orderStatus o' = "processing"
    /\ Order.paymentStatus o' = "pending"
    /\ Order.processedAt o' = Some 1700000000000.
Proof.
  destruct (proj2 (update_order_status_frame 1700000000000 "o1"
                     (Some "processing") (Some "") Sample.world)
                  Sample.order1) as (o' & Heq & Hos & Hps & Hpa & _).
  - vm_compute. reflexivity.
  - exists o'. repeat split; assumption.
Defined.

(** ** Products *)





(** An identifier that is not an ObjectId stops the creation with the cast
    error's message. *)
Example create_order_not_an_id :
  create_order Sample.accept Sample.is_ObjectId "o3" None
    [ReqItem.Build "not-an-id" 1; ReqItem.Build Sample.p1 1] None "card" "Galle"
    Sample.world
  = (Sample.world,
     inr (res_status_json 400
            (JMessage
               ("Cast to ObjectId failed for value " +:+ quoted "not-an-id"
                +:+ " (type string) at path " +:+ quoted "_id"
                +:+ " for model " +:+ quoted "Product")))).
Proof. vm_compute. reflexivity. Qed.



(** ** Ratings *)

Lemma log_insensitive_ratings_in_range : log_insensitive ratings_in_range.
Proof. intros w l H. exact H. Qed.

(** X13.  Rating never leaves a stored average outside the range 0 to 5:
    if every stored average is in range before a rating request, every
    stored average is in range after it, whatever the request.  A rating
    request touches no order, and in the catalogue nothing but the
    average and the count of the product it found; name, price and
    visibility stay. *)
Theorem rate_keeps_ratings_in_range
  (is_ObjectId : string -> bool) (StringToNumber : string -> float)
  (Number_toString : float -> string) (id : string) (rating : option Value) :
  preserves ratings_in_range
    (rate is_ObjectId StringToNumber Number_toString id rating)
  /\ forall w,
      orders (fst (rate is_ObjectId StringToNumber Number_toString id rating w))
      = orders w
      /\ (products (fst (rate is_ObjectId StringToNumber Number_toString id
                           rating w))
          = products w
          \/ exists p avg cnt,
              products w !! id = Some p
              /\ products (fst (rate is_ObjectId StringToNumber Number_toString
                                  id rating w))
                 = <[Product._id p := Product.set_rating avg cnt p]> (products w)
              /\ Product.name (Product.set_rating avg cnt p) = Product.name p
              /\ Product.price (Product.set_rating avg cnt p) = Product.price p
              /\ Product.isActive (Product.set_rating avg cnt p)
                 = Product.isActive p).
Proof.
  split.
  - intros w w' r Hw Hrun.
    destruct (rate_run is_ObjectId StringToNumber Number_toString id rating w)
      as [Hsame|(p & avg & cnt & Hfind & Hvalid & Heq)].
    + rewrite Hrun in Hsame. cbn in Hsame. subst. exact Hw.
    + rewrite Heq in Hrun. inversion Hrun; subst.
      apply product_validate_accepts in Hvalid.
      apply andb_prop in Hvalid.
      apply map_Forall_insert_2; [exact Hvalid | exact Hw].
  - intros w.
    destruct (rate_run is_ObjectId StringToNumber Number_toString id rating w)
      as [Hsame|(p & avg & cnt & Hfind & _ & Heq)].
    + rewrite Hsame. split; [reflexivity | left; reflexivity].
    + rewrite Heq. cbn [fst orders products]. split; [reflexivity|].
      right. exists p, avg, cnt. repeat split; assumption.
Qed.

Lemma ratings_in_range_sample : ratings_in_range Sample.world.
Proof.
  unfold ratings_in_range, Sample.world. cbn [products].
  repeat (apply map_Forall_insert_2; [split; vm_compute; reflexivity|]).
  apply map_Forall_empty.
Qed.

Lemma rate_keeps_ratings_in_range_witness :
  ratings_in_range Sample.world
  /\ ratings_in_range
       (fst (rate Sample.is_ObjectId Sample.StringToNumber
               Sample.Number_toString Sample.p1 (Some (VNum 5)) Sample.world)).
Proof.
  split; [exact ratings_in_range_sample|].
  exact (proj1 (rate_keeps_ratings_in_range Sample.is_ObjectId
                  Sample.StringToNumber Sample.Number_toString Sample.p1
                  (Some (VNum 5)))
               Sample.world _ _ ratings_in_range_sample (surjective_pairing _)).
Defined.

(** ** Paged listings *)

Lemma Order_matching_spec (P : Order.t -> bool) (w : World) (o : Order.t) :
  In o (Order_matching P w)
  <-> P o = true /\ exists id, orders w !! id = Some o.
Proof.
  unfold Order_matching. rewrite filter_In, <- list_elem_of_In, list_elem_of_fmap.
  split.
  - intros [([id o'] & -> & Hin) HP]. apply elem_of_map_to_list in Hin.
    split; [exact HP | exists id; exact Hin].
  - intros [HP [id Hid]]. split; [|exact HP].
    exists (id, o). split; [reflexivity|]. apply elem_of_map_to_list. exact Hid.
Qed.

Lemma cursor_page_in_range {A} (n k : Z) (l : list A) :
  0 <= k -> 1 <= n ->
  cursor_page (n * 1) k l = inr (take (Z.to_nat n) (drop (Z.to_nat k) l)).
Proof.
  intros Hk Hn. unfold cursor_page. rewrite Z.mul_1_r.
  destruct (k <? 0) eqn:Ek; [apply Z.ltb_lt in Ek; lia|].
  destruct (n =? 0) eqn:En; [apply Z.eqb_eq in En; lia|].
  rewrite Z.abs_eq by lia. reflexivity.
Qed.

(** [Math.ceil(total / limit)] for a positive limit is the least number of
    pages of that size that hold [total] documents. *)
Lemma Math_ceil_div_bounds (total limit : Z) :
  1 <= limit ->
  exists tp,
    Math_ceil_div total limit = Some tp
    /\ (tp - 1) * limit < total /\ total <= tp * limit.
Proof.
  intros Hlimit. unfold Math_ceil_div, js_div.
  assert (Hpos : (0 < inject_Z limit)%Q).
  { change 0%Q with (inject_Z 0). rewrite <- Zlt_Qlt. lia. }
  destruct (Qeq_bool (inject_Z limit) 0) eqn:E.
  { apply Qeq_bool_eq in E. rewrite E in Hpos. exfalso. revert Hpos. apply Qlt_irrefl. }
  cbn [fmap option_fmap option_map].
  set (x := (inject_Z total / inject_Z limit)%Q).
  exists (Qceiling x). split; [reflexivity|].
  assert (Hx : (x * inject_Z limit == inject_Z total)%Q).
  { unfold x. field. intros H. rewrite H in Hpos. revert Hpos. apply Qlt_irrefl. }
  split.
  - rewrite Zlt_Qlt, inject_Z_mult, <- Hx.
    apply Qmult_lt_compat_r; [exact Hpos | apply Qceiling_lt].
  - rewrite Zle_Qle, inject_Z_mult, <- Hx.
    apply Qmult_le_compat_r; [apply Qle_ceiling | apply Qlt_le_weak, Hpos].
Qed.

Lemma pages_upto_take {A} (limit : Z) (sorted : list A) (n : nat) :
  1 <= limit ->
  pages_upto limit sorted n = take (n * Z.to_nat limit) sorted.
Proof.
  intros Hlimit. induction n as [|n IH]; [reflexivity|].
  cbn [pages_upto]. rewrite IH, cursor_page_in_range by lia.
  replace (Z.of_nat (S n) - 1) with (Z.of_nat n) by lia.
  rewrite Z2Nat.inj_mul, Nat2Z.id by lia.
  rewrite take_take_drop. f_equal. lia.
Qed.

(** X15.  Paging covers a listing exactly.  For a page size of at least
    one, [Math.ceil(total / limit)] is the least number of pages that hold
    all matches; pages 1 to that number, one after the other, are the
    whole sorted listing with nothing repeated or left out; and every
    later page is empty. *)
Theorem pages_cover_listing {A} (limit : Z) (sorted : list A) :
  1 <= limit ->
  exists tp,
    Math_ceil_div (Z.of_nat (length sorted)) limit = Some tp
    /\ 0 <= tp
    /\ (tp - 1) * limit < Z.of_nat (length sorted) <= tp * limit
    /\ pages_upto limit sorted (Z.to_nat tp) = sorted
    /\ forall page,
        tp < page ->
        cursor_page (limit * 1) ((page - 1) * limit) sorted = inr [].
Proof.
  intros Hlimit.
  destruct (Math_ceil_div_bounds (Z.of_nat (length sorted)) limit Hlimit)
    as (tp & Htp & Hlo & Hhi).
  exists tp. split; [exact Htp|].
  assert (Hnn : 0 <= tp) by nia.
  split; [exact Hnn|]. split; [split; assumption|]. split.
  - rewrite pages_upto_take by assumption. apply take_ge.
    rewrite <- (Nat2Z.id (length sorted)), <- Z2Nat.inj_mul by lia.
    apply Z2Nat.inj_le; lia.
  - intros page Hpage. rewrite cursor_page_in_range by nia.
    rewrite drop_ge; [apply f_equal, take_nil|].
    rewrite <- (Nat2Z.id (length sorted)). apply Z2Nat.inj_le; nia.
Qed.

Lemma pages_cover_listing_witness :
  exists tp,
    Math_ceil_div (Z.of_nat (length [1; 2; 3; 4; 5])) 2 = Some tp
    /\ 0 <= tp
    /\ (tp - 1) * 2 < Z.of_nat (length [1; 2; 3; 4; 5]) <= tp * 2
    /\ pages_upto 2 [1; 2; 3; 4; 5] (Z.to_nat tp) = [1; 2; 3; 4; 5]
    /\ forall page,
        tp < page ->
        cursor_page (2 * 1) ((page - 1) * 2) [1; 2; 3; 4; 5] = inr [].
Proof.
  apply (pages_cover_listing 2 [1; 2; 3; 4; 5]). lia.
Defined.

(** Five matches in pages of two: three pages, of sizes 2, 2 and 1. *)
Example paging_sample :
  Math_ceil_div 5 2 = Some 3
  /\ cursor_page (2 * 1) ((3 - 1) * 2) [1; 2; 3; 4; 5] = inr [5]
  /\ cursor_page (2 * 1) ((0 - 1) * 2) [1; 2; 3; 4; 5]
     = inl (Throw "MongoServerError" "BSON field 'skip' value must be >= 0").
Proof. repeat split; vm_compute; reflexivity. Qed.

Section ListingProperties.
Variable sort_orders : SortKey -> list Order.t -> list Order.t.
Hypothesis sort_perm : forall key l, Permutation (sort_orders key l) l.

(** One page of a query, for a page number and a page size of at least
    one: at most [limit] documents, each of them a stored order that the
    query selects; the world is not touched. *)
Lemma Order_find_page_spec (P : Order.t -> bool) (key : SortKey)
  (page limit : Z) (w : World) :
  1 <= page -> 1 <= limit ->
  exists listed,
    Order_find_page sort_orders P key page limit w = (w, inr listed)
    /\ Z.of_nat (length listed) <= limit
    /\ forall o, In o listed ->
                 P o = true /\ exists id, orders w !! id = Some o.
Proof.
  intros Hpage Hlimit. unfold Order_find_page.
  rewrite cursor_page_in_range by nia.
  eexists. split; [reflexivity|]. split.
  - rewrite length_take. lia.
  - intros o Hin. apply Order_matching_spec.
    apply (Permutation_in _ (sort_perm key _)).
    apply list_elem_of_In in Hin. apply list_elem_of_In.
    eapply subseteq_drop, subseteq_take, Hin.
Qed.

(** X16.  The per-user listings (a user's own orders, and the admin's view
    of one user's orders) never show another owner's order: for a page
    number and a page size of at least one the answer is 200 with at most
    [limit] orders, each a stored order owned by that user; [total] is the
    number of that user's orders and [totalPages] the least number of
    pages holding them; the world is not touched. *)
Theorem orders_of_user_only_own
  (u : string) (page limit : option Z) (w : World) :
  1 <= default 1 page -> 1 <= default 10 limit ->
  exists listed tp,
    orders_of_user sort_orders u page limit w
    = (w, inr (ans_json
                 (POrderPage listed (Some tp) (default 1 page)
                    (Z.of_nat (length (Order_matching (owned_by u) w))))))
    /\ Z.of_nat (length listed) <= default 10 limit
    /\ (forall o, In o listed ->
                  Order.user o = Some u /\ exists id, orders w !! id = Some o)
    /\ (forall o, In o (Order_matching (owned_by u) w)
                  <-> Order.user o = Some u /\ exists id, orders w !! id = Some o)
    /\ (tp - 1) * default 10 limit
       < Z.of_nat (length (Order_matching (owned_by u) w))
       <= tp * default 10 limit.
Proof.
  intros Hpage Hlimit.
  destruct (Order_find_page_spec (owned_by u) CreatedAtDesc _ _ w Hpage Hlimit)
    as (listed & Hrun & Hlen & Hin).
  destruct (Math_ceil_div_bounds
              (Z.of_nat (length (Order_matching (owned_by u) w))) _ Hlimit)
    as (tp & Htp & Hlo & Hhi).
  exists listed, tp. split.
  - unfold orders_of_user, try_catch, bind. cbv zeta. rewrite Hrun.
    unfold Order_countDocuments_where, ret. rewrite Htp. reflexivity.
  - split; [exact Hlen|]. split.
    + intros o Ho. destruct (Hin o Ho) as [HP Hid].
      split; [|exact Hid]. unfold owned_by in HP.
      apply bool_decide_eq_true in HP. exact HP.
    + split; [|split; assumption].
      intros o. rewrite Order_matching_spec. unfold owned_by.
      rewrite bool_decide_eq_true. reflexivity.
Qed.

(** X17.  The slip listing shows only orders under review by bank
    transfer: for a page number and a page size of at least one the answer
    is 200 with at most [limit] orders, each a stored bank-transfer order
    that carries a slip and, when a status other than [all] is asked for,
    has that payment status. *)
Theorem payment_slips_only_slips
  (page limit : option Z) (status : option string) (w : World) :
  1 <= default 1 page -> 1 <= default 10 limit ->
  exists listed tp total,
    payment_slips sort_orders page limit status w
    = (w, inr (ans_json (POrderPage listed (Some tp) (default 1 page) total)))
    /\ Z.of_nat (length listed) <= default 10 limit
    /\ (tp - 1) * default 10 limit < total <= tp * default 10 limit
    /\ forall o, In o listed ->
         (exists id, orders w !! id = Some o)
         /\ Order.paymentMethod o = "bank_transfer"
         /\ is_Some (Order.paymentSlip o)
         /\ forall s, status = Some s -> s <> "" -> s <> "all" ->
                      Order.paymentStatus o = s.
Proof.
  intros Hpage Hlimit.
  destruct (Order_find_page_spec (slip_query status) SlipUploadedAtDesc _ _ w
              Hpage Hlimit) as (listed & Hrun & Hlen & Hin).
  destruct (Math_ceil_div_bounds
              (Z.of_nat (length (Order_matching (slip_query status) w))) _ Hlimit)
    as (tp & Htp & Hlo & Hhi).
  exists listed, tp, (Z.of_nat (length (Order_matching (slip_query status) w))).
  split.
  - unfold payment_slips, try_catch, bind. cbv zeta. rewrite Hrun.
    unfold Order_countDocuments_where, ret. rewrite Htp. reflexivity.
  - split; [exact Hlen|]. split; [split; assumption|].
    intros o Ho. destruct (Hin o Ho) as [HP Hid]. split; [exact Hid|].
    unfold slip_query in HP.
    apply andb_prop in HP. destruct HP as [HP Hstatus].
    apply andb_prop in HP. destruct HP as [Hpm Hslip].
    apply String.eqb_eq in Hpm. apply bool_decide_eq_true in Hslip.
    split; [exact Hpm|]. split; [exact Hslip|].
    intros s -> Hne Hall. cbn [truthy] in Hstatus.
    destruct (String.eqb_spec s "") as [|_]; [contradiction|].
    rewrite bool_decide_eq_false_2 in Hstatus by congruence.
    cbn [negb andb] in Hstatus. apply bool_decide_eq_true in Hstatus.
    congruence.
Qed.
End ListingProperties.

Lemma sample_sort_perm key l : Permutation (sample_sort key l) l.
Proof.
  destruct key; cbn [sample_sort]; [reflexivity | apply merge_sort_Permutation].
Qed.

Lemma orders_of_user_only_own_witness :
  exists listed tp,
    orders_of_user sample_sort "u1" (Some 1) (Some 5) Sample.world
    = (Sample.world,
       inr (ans_json
              (POrderPage listed (Some tp) 1
                 (Z.of_nat (length (Order_matching (owned_by "u1") Sample.world))))))
    /\ Z.of_nat (length listed) <= 5
    /\ (forall o, In o listed ->
                  Order.user o = Some "u1"
                  /\ exists id, orders Sample.world !! id = Some o)
    /\ (forall o, In o (Order_matching (owned_by "u1") Sample.world)
                  <-> Order.user o = Some "u1"
                      /\ exists id, orders Sample.world !! id = Some o)
    /\ (tp - 1) * 5
       < Z.of_nat (length (Order_matching (owned_by "u1") Sample.world))
       <= tp * 5.
Proof.
  apply (orders_of_user_only_own sample_sort sample_sort_perm "u1" (Some 1)
           (Some 5) Sample.world); cbn; lia.
Defined.

Lemma payment_slips_only_slips_witness :
  exists listed tp total,
    payment_slips sample_sort None None (Some "paid") Sample.world
    = (Sample.world, inr (ans_json (POrderPage listed (Some tp) 1 total)))
    /\ Z.of_nat (length listed) <= 10
    /\ (tp - 1) * 10 < total <= tp * 10
    /\ forall o, In o listed ->
         (exists id, orders Sample.world !! id = Some o)
         /\ Order.paymentMethod o = "bank_transfer"
         /\ is_Some (Order.paymentSlip o)
         /\ forall s, Some "paid" = Some s -> s <> "" -> s <> "all" ->
                      Order.paymentStatus o = s.
Proof.
  apply (payment_slips_only_slips sample_sort sample_sort_perm None None
           (Some "paid") Sample.world); cbn; lia.
Defined.

(** The sample store holds one bank-transfer order with a slip, [o2]. *)
Example payment_slips_sample :
  snd (payment_slips sample_sort None None (Some "all") Sample.world)
  = inr (ans_json (POrderPage [Sample.order2] (Some 1) 1 1)).
Proof. vm_compute. reflexivity. Qed.

(** ** The contact form *)

(** X18.  A contact submission that is not valid (a required field absent
    or empty, or an email that does not match the pattern) is answered 400
    and has no effect at all: no mail is sent and nothing is logged,
    whatever the mail module. *)
Theorem contact_rejects_invalid
  (env : Env) (nodemailer : MailModule)
  (req_user : option string) (submittedAt : string)
  (name email phone subject message company : option string) (w : World) :
  valid_submission name email subject message = false ->
  contact env nodemailer req_user submittedAt
    name email phone subject message company w
  = (w, inr (res_status_json 400
               (JMessage
                  (if truthy name && truthy email && truthy subject && truthy message
                   then "Invalid email format"
                   else "Name, email, subject, and message are required")))).
Proof.
  unfold valid_submission, contact, try_catch. intros Hinvalid.
  destruct (truthy name), (truthy email), (truthy subject), (truthy message);
    cbn [negb orb andb] in *; try reflexivity.
  rewrite Hinvalid. reflexivity.
Qed.

Lemma contact_rejects_invalid_witness :
  contact Sample.env [("createTransporter", Sample.live_transport)] None
    "1/11/2026, 10:00:00 AM" (Some "Ann") (Some "ann@example") None
    (Some "Licence") (Some "Hello") None Sample.world
  = (Sample.world, inr (res_status_json 400 (JMessage "Invalid email format"))).
Proof.
  exact (contact_rejects_invalid Sample.env
           [("createTransporter", Sample.live_transport)] None
           "1/11/2026, 10:00:00 AM" (Some "Ann") (Some "ann@example") None
           (Some "Licence") (Some "Hello") None Sample.world eq_refl).
Defined.

Lemma plain_char_spec (u : Z) :
  plain_char u = true <-> is_space u = false /\ u <> at_sign.
Proof.
  unfold plain_char.
  rewrite andb_true_iff, !negb_true_iff, Z.eqb_neq. reflexivity.
Qed.

Lemma all_plain_spec (s : list Z) :
  all_plain s = true <-> Forall (fun u => is_space u = false /\ u <> at_sign) s.
Proof.
  unfold all_plain. induction s as [|u s IH]; cbn [forallb].
  - split; [constructor | reflexivity].
  - rewrite andb_true_iff, IH, plain_char_spec, Forall_cons. reflexivity.
Qed.

Lemma split_at_spec (s l d : list Z) :
  split_at s = Some (l, d) -> s = l ++ [at_sign] ++ d.
Proof.
  revert l. induction s as [|u s IH]; intros l H; [discriminate|].
  cbn [split_at] in H. destruct (Z.eqb_spec u at_sign) as [->|_].
  - inversion H; subst. reflexivity.
  - destruct (split_at s) as [[l' d']|]; [|discriminate].
    inversion H; subst. cbn [app]. f_equal. apply IH. reflexivity.
Qed.

Lemma split_at_plain (l d : list Z) :
  Forall (fun u => is_space u = false /\ u <> at_sign) l ->
  split_at (l ++ [at_sign] ++ d) = Some (l, d).
Proof.
  induction 1 as [|u l [_ Hu] Hl IH]; [reflexivity|].
  cbn [app split_at]. destruct (Z.eqb_spec u at_sign) as [|_]; [contradiction|].
  cbn [app] in IH. rewrite IH. reflexivity.
Qed.

Lemma dot_before_end_spec (s : list Z) :
  dot_before_end s = true <-> exists x y, s = x ++ [full_stop] ++ y /\ y <> [].
Proof.
  induction s as [|u s IH]; cbn [dot_before_end].
  - split; [discriminate|]. intros (x & y & H & _).
    destruct x; discriminate.
  - rewrite orb_true_iff, andb_true_iff, negb_true_iff, bool_decide_eq_false,
      Z.eqb_eq, IH.
    split.
    + intros [[-> Hs]|(x & y & -> & Hy)].
      * exists [], s. split; [reflexivity | exact Hs].
      * exists (u :: x), y. split; [reflexivity | exact Hy].
    + intros (x & y & H & Hy). destruct x as [|u' x].
      * inversion H; subst. left. split; [reflexivity | exact Hy].
      * inversion H; subst. right. exists x, y. split; [reflexivity | exact Hy].
Qed.

(** The matcher accepts exactly the language of the pattern. *)
Lemma matches_email_shape (s : list Z) : matches_email s = true <-> email_shape s.
Proof.
  unfold matches_email, email_shape, plain_run. split.
  - destruct (split_at s) as [[l d]|] eqn:Hsplit; [|discriminate].
    intros H. apply andb_prop in H. destruct H as [H Hdot].
    apply andb_prop in H. destruct H as [H Hd].
    apply andb_prop in H. destruct H as [Hl Hpl].
    apply negb_true_iff, bool_decide_eq_false in Hl.
    apply all_plain_spec in Hpl, Hd.
    destruct d as [|c d']; [discriminate|].
    apply dot_before_end_spec in Hdot. destruct Hdot as (x & y & -> & Hy).
    change (c :: x ++ [full_stop] ++ y) with ((c :: x) ++ [full_stop] ++ y) in *.
    apply Forall_app in Hd. destruct Hd as [Hx Hy'].
    apply Forall_app in Hy'. destruct Hy' as [_ Hy'].
    exists l, (c :: x), y. split; [apply split_at_spec, Hsplit|].
    refine (conj (conj Hl Hpl) (conj (conj _ Hx) (conj Hy Hy'))).
    discriminate.
  - intros (l & a & b & -> & [Hl Hpl] & [Ha Hpa] & [Hb Hpb]).
    rewrite (split_at_plain l _ Hpl).
    rewrite (bool_decide_eq_false_2 _ Hl). cbn [negb andb].
    rewrite (proj2 (all_plain_spec l) Hpl). cbn [andb].
    assert (Hd : all_plain (a ++ [full_stop] ++ b) = true).
    { apply all_plain_spec. apply Forall_app. split; [exact Hpa|].
      apply Forall_app. split; [|exact Hpb].
      constructor; [|constructor]. split; [reflexivity | discriminate]. }
    rewrite Hd. cbn [andb].
    destruct a as [|ca a]; [contradiction|]. cbn [app].
    apply dot_before_end_spec. exists a, b. split; [reflexivity | exact Hb].
Qed.

(** X19.  The email check of the contact form accepts exactly the texts
    whose code units have the shape [local@domain.rest]: a local part, an
    [@], and then two parts separated by a dot, each part non-empty and
    free of [@] and of the white space of the language (the ASCII white
    space, the no-break space, the Unicode space separators, the line and
    paragraph separators and the byte-order mark). *)
Theorem emailRegex_test_shape (s : string) :
  emailRegex_test s = true <-> email_shape (code_units s).
Proof. unfold emailRegex_test. apply matches_email_shape. Qed.

Lemma emailRegex_test_shape_witness :
  email_shape (code_units "ann@example.com")
  /\ emailRegex_test "ann@example.com" = true.
Proof.
  assert (H : email_shape (code_units "ann@example.com")).
  { exists [97; 110; 110], [101; 120; 97; 109; 112; 108; 101], [99; 111; 109].
    split; [vm_compute; reflexivity|].
    repeat split; try discriminate;
      repeat constructor; vm_compute; discriminate. }
  split; [exact H|].
  exact (proj2 (emailRegex_test_shape "ann@example.com") H).
Defined.

(** A no-break space (U+00A0, the bytes 194 160) and a line separator
    (U+2028, the bytes 226 128 168) are white space to the pattern.  A
    byte 160 inside another letter (here 208 160, U+0420) is not, and a
    byte 160 on its own is no text at all: it decodes to U+FFFD, which the
    pattern takes for an ordinary character. *)
Example emailRegex_test_unicode_space :
  let byte n := String (ascii_of_nat (Z.to_nat n)) EmptyString in
  emailRegex_test ("ann" +:+ byte 194 +:+ byte 160 +:+ "smith@example.com") = false
  /\ emailRegex_test
       ("ann" +:+ byte 226 +:+ byte 128 +:+ byte 168 +:+ "@example.com") = false
  /\ emailRegex_test ("ann smith@example.com") = false
  /\ emailRegex_test (byte 208 +:+ byte 160 +:+ "@example.com") = true
  /\ code_units (byte 194 +:+ byte 160) = [160]
  /\ code_units (byte 226 +:+ byte 128 +:+ byte 168) = [8232]
  /\ code_units (byte 208 +:+ byte 160) = [1056]
  /\ code_units (byte 160) = [65533]
  /\ code_units (byte 240 +:+ byte 159 +:+ byte 152 +:+ byte 128) = [55357; 56832].
Proof. repeat split; vm_compute; reflexivity. Qed.

(** ** Creating, reading back and numbering orders *)

(** Order creation in full: a 400 that stores nothing, or one order stored
    under the given identifier, owned by the requester (or carrying the
    guest's contact when there is no requester), pending, and numbered
    after the size of the collection. *)
Lemma create_order_shape
  (order_validate : Order.t -> option Exn) (is_ObjectId : string -> bool)
  (new_id : string) (req_user : option string) (items : list ReqItem.t)
  (guestInfo : option string) (paymentMethod shippingAddress : string)
  (w : World) :
  (exists response,
      create_order order_validate is_ObjectId new_id req_user items guestInfo
        paymentMethod shippingAddress w = (w, inr response)
      /\ res_status response = 400)
  \/ (exists o,
         Order._id o = new_id
         /\ Order.user o = req_user
         /\ Order.paymentStatus o = "pending"
         /\ Order.orderNumber o = order_number_for (size (orders w))
         /\ create_order order_validate is_ObjectId new_id req_user items guestInfo
              paymentMethod shippingAddress w
            = (MkWorld (<[new_id := o]> (orders w)) (products w) (effects w),
               inr (res_status_json 201 (JOrder "Order created successfully" o)))).
Proof.
  destruct (collect_items_run is_ObjectId items 0%float [] w) as (r & Hrun & Hr).
  rewrite (create_order_eq order_validate is_ObjectId new_id req_user items guestInfo
             paymentMethod shippingAddress w r Hrun).
  destruct r as [e|[response|[total lines]]].
  - left. eexists. split; reflexivity.
  - left. exists response. split; [reflexivity | exact Hr].
  - cbv zeta.
    match goal with |- context [order_validate ?o] =>
      destruct (order_validate o) eqn:Hvalid;
        [ left; eexists; split; reflexivity
        | right; exists o; repeat split; reflexivity ]
    end.
Qed.

(** X20.  An order that has just been created is read back unchanged by
    its creator, be it the authenticated user who placed it or a guest;
    when it was placed by an authenticated user, every other authenticated
    user is refused with 403. *)
Theorem created_order_reads_back
  (order_validate : Order.t -> option Exn) (is_ObjectId : string -> bool)
  (new_id : string) (req_user : option string) (items : list ReqItem.t)
  (guestInfo : option string) (paymentMethod shippingAddress : string)
  (w w' : World) (msg : string) (o : Order.t) :
  create_order order_validate is_ObjectId new_id req_user items guestInfo
    paymentMethod shippingAddress w
  = (w', inr (res_status_json 201 (JOrder msg o))) ->
  get_order req_user new_id w' = (w', inr (ans_json (POrderDoc o)))
  /\ forall owner other,
      req_user = Some owner -> other <> owner ->
      get_order (Some other) new_id w'
      = (w', inr (ans_status_json 403 (PBody (JMessage "Access denied")))).
Proof.
  intros Hrun.
  destruct (create_order_shape order_validate is_ObjectId new_id req_user items guestInfo
              paymentMethod shippingAddress w)
    as [(response & Heq & Hstatus)|(o' & Hid & Huser & _ & _ & Heq)];
    rewrite Heq in Hrun; inversion Hrun; subst.
  - discriminate.
  - unfold get_order, try_catch, bind, Order_findById, ret.
    cbn [mbind option_bind orders]. rewrite lookup_insert_eq. split.
    + destruct (Order.user o) as [u|]; [|reflexivity].
      rewrite String.eqb_refl. reflexivity.
    + intros owner other Hown Hne. rewrite Hown.
      destruct (String.eqb_spec owner other); [congruence | reflexivity].
Qed.

Lemma created_order_reads_back_witness :
  get_order (Some "u1") "o3"
    (fst (create_order Sample.accept Sample.is_ObjectId "o3" (Some "u1") [ReqItem.Build Sample.p2 1]
            None "card" "Galle" Sample.world))
  = (fst (create_order Sample.accept Sample.is_ObjectId "o3" (Some "u1") [ReqItem.Build Sample.p2 1]
            None "card" "Galle" Sample.world),
     inr (ans_json
            (POrderDoc
               (new_Order "o3" (Some "u1") None
                  [OrderItem.Build Sample.p2 "Office Key" 5 1]
                  (0 + 5 * 1) "card" "Galle" "CSH-000003")))).
Proof.
  refine (proj1 (created_order_reads_back Sample.accept Sample.is_ObjectId "o3" (Some "u1")
                   [ReqItem.Build Sample.p2 1] None "card" "Galle" Sample.world
                   _ "Order created successfully" _ _)).
  vm_compute. reflexivity.
Defined.

(** X21.  Order numbers repeat after a deletion.  The number of a new
    order is derived from the size of the collection alone, so when an
    order is created, another order is then deleted by an admin, and a
    further order is created, the two new orders, if both are stored,
    carry the same order number. *)
Theorem order_number_repeats_after_delete
  (order_validate : Order.t -> option Exn) (is_ObjectId : string -> bool)
  (admin : ReqUser.t)
  (id1 id2 victim : string)
  (user1 user2 : option string) (items1 items2 : list ReqItem.t)
  (guest1 guest2 : option string) (pm1 pm2 addr1 addr2 : string)
  (w : World) :
  ReqUser.role admin = "admin" ->
  orders w !! id1 = None ->
  orders w !! id2 = None ->
  id1 <> id2 -> victim <> id1 -> victim <> id2 ->
  is_Some (orders w !! victim) ->
  let w1 := fst (create_order order_validate is_ObjectId id1 user1 items1 guest1 pm1 addr1 w) in
  let w2 := fst (delete_order (Some admin) victim w1) in
  let w3 := fst (create_order order_validate is_ObjectId id2 user2 items2 guest2 pm2 addr2 w2) in
  forall o1 o2,
    orders w3 !! id1 = Some o1 ->
    orders w3 !! id2 = Some o2 ->
    Order.orderNumber o1 = Order.orderNumber o2
    /\ orders w3 !! victim = None.
Proof.
  intros Hadmin Hf1 Hf2 H12 Hv1 Hv2 [v Hv]. cbv zeta.
  intros o1 o2.
  destruct (create_order_shape order_validate is_ObjectId id1 user1 items1 guest1 pm1 addr1 w)
    as [(r1 & Heq1 & _)|(c1 & _ & _ & _ & Hnum1 & Heq1)]; rewrite Heq1;
    cbn [fst]; rewrite (delete_order_admin_eq admin victim _ Hadmin);
    cbn [orders products effects].
  - rewrite Hv. cbn [fst].
    match goal with
    | |- context [create_order order_validate is_ObjectId id2 user2 items2 guest2 pm2 addr2 ?w2] =>
        destruct (create_order_shape order_validate is_ObjectId id2 user2 items2 guest2 pm2
                    addr2 w2)
          as [(r2 & Heq2 & _)|(c2 & _ & _ & _ & _ & Heq2)]; rewrite Heq2
    end; cbn [fst orders].
    + rewrite lookup_delete_ne by congruence. congruence.
    + rewrite lookup_insert_ne by congruence.
      rewrite lookup_delete_ne by congruence. congruence.
  - rewrite lookup_insert_ne by congruence. rewrite Hv. cbn [fst].
    match goal with
    | |- context [create_order order_validate is_ObjectId id2 user2 items2 guest2 pm2 addr2 ?w2] =>
        destruct (create_order_shape order_validate is_ObjectId id2 user2 items2 guest2 pm2
                    addr2 w2)
          as [(r2 & Heq2 & _)|(c2 & _ & _ & _ & Hnum2 & Heq2)]; rewrite Heq2
    end; cbn [fst orders] in *.
    + intros _ Hid2. rewrite lookup_delete_ne in Hid2 by congruence.
      rewrite lookup_insert_ne in Hid2 by congruence. congruence.
    + rewrite lookup_insert_ne by congruence.
      rewrite lookup_delete_ne by congruence.
      rewrite lookup_insert_eq, lookup_insert_eq.
      intros Ho1 Ho2. inversion Ho1; inversion Ho2; subst. split.
      * rewrite Hnum1, Hnum2. f_equal.
        rewrite map_size_delete_Some
          by (rewrite lookup_insert_ne by congruence; eauto).
        rewrite map_size_insert_None by assumption. reflexivity.
      * rewrite lookup_insert_ne by congruence. apply lookup_delete_eq.
Qed.

Lemma order_number_repeats_after_delete_witness :
  let w1 :=
    fst (create_order Sample.accept Sample.is_ObjectId "o3" None [ReqItem.Build Sample.p2 1]
           (Some "ann@example.com") "card" "Galle" Sample.world) in
  let w2 := fst (delete_order (Some (ReqUser.Build "a1" "admin")) "o1" w1) in
  let w3 :=
    fst (create_order Sample.accept Sample.is_ObjectId "o4" None [ReqItem.Build Sample.p1 1]
           (Some "ben@example.com") "card" "Kandy" w2) in
  exists o1 o2,
    orders w3 !! "o3" = Some o1 /\ orders w3 !! "o4" = Some o2
    /\ Order.orderNumber o1 = "CSH-000003"
    /\ Order.orderNumber o1 = Order.orderNumber o2.
Proof.
  cbv zeta. eexists _, _.
  split; [vm_compute; reflexivity|]. split; [vm_compute; reflexivity|].
  split; [reflexivity|].
  refine (proj1 (order_number_repeats_after_delete Sample.accept Sample.is_ObjectId
                   (ReqUser.Build "a1" "admin") "o3" "o4" "o1"
                   None None [ReqItem.Build Sample.p2 1] [ReqItem.Build Sample.p1 1]
                   (Some "ann@example.com") (Some "ben@example.com")
                   "card" "card" "Galle" "Kandy" Sample.world
                   eq_refl _ _ _ _ _ _ _ _ _ _));
    first [ discriminate
          | (vm_compute; reflexivity)
          | (eexists; vm_compute; reflexivity) ].
Defined.
